(** * PythonPlanner: the tabular engine behind [main.py]

    A shallow embedding of the data-carrying part of [PlannerViewer] and
    [MainApp] (file [src/main.py]): the pandas frame each viewer owns, the
    filter ([on_search]), the display order ([populate_tree]), the three
    mutations ([_on_add_task_confirm], [mark_selected_done],
    [delete_selected]), the merge ([_merge_into_viewer]) and the session
    list ([save_session], [load_session]).

    Conventions of the model.
    - Text is [string] (one byte per character); [lower] and [strip] are the
      ASCII restrictions of Python's [str.lower] and [str.strip].
    - A cell is a Python [str], an [int] or a missing value ([NaN]).
    - A frame is its ordered column labels plus its rows, each row carrying
      its index label, as [iterrows] yields them.  Column labels are unique
      in every frame [read_excel] returns; a label is looked up at its first
      position.
    - A Python exception is a value of [Exn]; a call that may raise returns
      [Res].
    - What the program takes from outside ([re.compile] on the patterns not
      interpreted here, the workbook reader, [os.path.basename]) is a
      [World]; dialogs are arguments of the callbacks.
    - Tk widgets are kept only as far as they carry data: the tree's items
      (iid and displayed values) and the text of the search box.  The
      headings of the tree are not: an error Tk raises when a heading is
      asked for a column the tree was not built with is outside the model;
      statements about the filter are made on the frame it computes, or on
      a refresh that ended without an error.
    - pandas is the 2.x line, cells of floating point type are left out. *)

From Stdlib Require Import List String Ascii ZArith Bool Lia Arith.
From Stdlib Require Import Permutation Sorted DecimalString DecimalPos.
Import ListNotations.

Local Open Scope string_scope.
Local Open Scope list_scope.

(* ------------------------------------------------------------------ *)
(** ** Python strings *)

Module PyStr.

(** [c.lower()] on one ASCII character. *)
Definition lower_ascii (c : ascii) : ascii :=
  let n := nat_of_ascii c in
  if (65 <=? n)%nat && (n <=? 90)%nat then ascii_of_nat (n + 32) else c.

(** [s.lower()]. *)
Fixpoint lower (s : string) : string :=
  match s with
  | EmptyString => EmptyString
  | String c r => String (lower_ascii c) (lower r)
  end.

(** [c.isspace()] for an ASCII character: tab, newline, vertical tab, form
    feed, carriage return, the four separators 28..31 and the space. *)
Definition isspace (c : ascii) : bool :=
  let n := nat_of_ascii c in
  ((9 <=? n)%nat && (n <=? 13)%nat) || ((28 <=? n)%nat && (n <=? 32)%nat).

Fixpoint lstrip (s : string) : string :=
  match s with
  | EmptyString => EmptyString
  | String c r => if isspace c then lstrip r else s
  end.

Fixpoint rstrip (s : string) : string :=
  match s with
  | EmptyString => EmptyString
  | String c r =>
      match rstrip r with
      | EmptyString => if isspace c then EmptyString else String c EmptyString
      | r' => String c r'
      end
  end.

(** [s.strip()]. *)
Definition strip (s : string) : string := rstrip (lstrip s).

(** [t.startswith(p)]. *)
Fixpoint startswith (p t : string) : bool :=
  match p, t with
  | EmptyString, _ => true
  | String _ _, EmptyString => false
  | String a p', String b t' => Ascii.eqb a b && startswith p' t'
  end.

(** [p in t]: [p] occurs in [t] as a contiguous substring. *)
Fixpoint contains (p t : string) : bool :=
  startswith p t ||
  match t with
  | EmptyString => false
  | String _ t' => contains p t'
  end.

(** [str(z)] for a Python [int]. *)
Definition str_int (z : Z) : string := NilZero.string_of_int (Z.to_int z).

Definition digit_val (c : ascii) : option Z :=
  let n := nat_of_ascii c in
  if (48 <=? n)%nat && (n <=? 57)%nat then Some (Z.of_nat (n - 48)) else None.

(** Decimal digits, single underscores allowed between two digits. *)
Fixpoint parse_digits (s : string) (acc : Z) (after_digit : bool) : option Z :=
  match s with
  | EmptyString => if after_digit then Some acc else None
  | String c r =>
      match digit_val c with
      | Some d => parse_digits r (10 * acc + d)%Z true
      | None =>
          if Ascii.eqb c "_" && after_digit then parse_digits r acc false
          else None
      end
  end.

(** The white space [int] skips around a numeral: tab to carriage return
    and the space.  Unlike [str.strip], [int] leaves the separators 28..31
    in place and raises on them. *)
Definition isspace_int (c : ascii) : bool :=
  let n := nat_of_ascii c in
  ((9 <=? n)%nat && (n <=? 13)%nat) || (n =? 32)%nat.

Fixpoint lskip (s : string) : string :=
  match s with
  | EmptyString => EmptyString
  | String c r => if isspace_int c then lskip r else s
  end.

Fixpoint rskip (s : string) : string :=
  match s with
  | EmptyString => EmptyString
  | String c r =>
      match rskip r with
      | EmptyString =>
          if isspace_int c then EmptyString else String c EmptyString
      | r' => String c r'
      end
  end.

(** [int(s)] in base ten; [None] is [ValueError]. *)
Definition int (s : string) : option Z :=
  match rskip (lskip s) with
  | String "-" r => option_map Z.opp (parse_digits r 0%Z false)
  | String "+" r => parse_digits r 0%Z false
  | t => parse_digits t 0%Z false
  end.

End PyStr.

(* ------------------------------------------------------------------ *)
(** ** Exceptions *)

Inductive Exn : Type :=
| KeyError
| TypeError
| ReError.

Inductive Res (A : Type) : Type :=
| Ok (a : A)
| Raise (e : Exn).

Arguments Ok {A} a.
Arguments Raise {A} e.

Definition bind {A B : Type} (m : Res A) (k : A -> Res B) : Res B :=
  match m with
  | Ok a => k a
  | Raise e => Raise e
  end.

Notation "x <- m ;; k" := (bind m (fun x => k))
  (at level 61, m at next level, right associativity).

(* ------------------------------------------------------------------ *)
(** ** Cells and frames *)

Inductive Cell : Type :=
| Text (s : string)
| Num (z : Z)
| NaN.

(** [pd.isna(v)]. *)
Definition isna (v : Cell) : bool :=
  match v with NaN => true | _ => false end.

(** [str(v)] as [Series.astype(str)] applies it to a text, an integer or
    a missing value, which becomes the three letters [nan]. *)
Definition astype_str (v : Cell) : string :=
  match v with
  | Text s => s
  | Num z => PyStr.str_int z
  | NaN => "nan"
  end.

(** The value shown in the tree (line 154):
    [""] if [pd.isna(v)] else [str(v)]. *)
Definition display (v : Cell) : string :=
  if isna v then "" else astype_str v.

Definition Row : Type := (Z * list Cell)%type.

Record DataFrame : Type := mkDF {
  columns : list string;
  rows : list Row
}.

(** [len(df)]. *)
Definition len (d : DataFrame) : nat := List.length (rows d).

(** [df.index]. *)
Definition index (d : DataFrame) : list Z := map fst (rows d).

(** Rows and columns agree in width. *)
Definition wf (d : DataFrame) : Prop :=
  Forall (fun r : Row => List.length (snd r) = List.length (columns d))
         (rows d).

(** [c in df.columns]. *)
Definition has_col (c : string) (cols : list string) : bool :=
  existsb (String.eqb c) cols.

(** Position of the first column labelled [c]. *)
Fixpoint col_index (c : string) (cols : list string) : option nat :=
  match cols with
  | [] => None
  | x :: r => if String.eqb c x then Some 0
              else option_map S (col_index c r)
  end.

(** The cell of a row under column [c]; [None] when the frame has no such
    column. *)
Definition cell_at (cols : list string) (c : string) (r : Row) : option Cell :=
  match col_index c cols with
  | Some k => Some (nth k (snd r) NaN)
  | None => None
  end.

(** [idx in df.index]. *)
Definition in_index (i : Z) (d : DataFrame) : bool :=
  existsb (Z.eqb i) (index d).

(** Labels [start, start+1, ...] put on a list of rows. *)
Fixpoint relabel (start : Z) (l : list Row) : list Row :=
  match l with
  | [] => []
  | (_, cells) :: r => (start, cells) :: relabel (start + 1)%Z r
  end.

(** [df.reset_index(drop=True)]. *)
Definition reset_index (d : DataFrame) : DataFrame :=
  mkDF (columns d) (relabel 0%Z (rows d)).

(** One row of [df.reindex(columns=cols, fill_value=fill)]: a kept column
    carries its cell over, a new one holds [fill]. *)
Definition reindex_row (d : DataFrame) (cols : list string) (fill : Cell)
  (r : Row) : Row :=
  (fst r,
   map (fun c => match cell_at (columns d) c r with
                 | Some x => x
                 | None => fill
                 end) cols).

(** [df.reindex(columns=cols, fill_value=fill)]. *)
Definition reindex (d : DataFrame) (cols : list string) (fill : Cell)
  : DataFrame :=
  mkDF cols (map (reindex_row d cols fill) (rows d)).

(** [pd.concat([a, b], ignore_index=True)] at its two call sites (lines 310
    and 661), where [b] has been built on the column list of [a]: the rows
    of [a], then those of [b], labelled afresh from 0. *)
Definition concat_ignore_index (a b : DataFrame) : DataFrame :=
  mkDF (columns a) (relabel 0%Z (rows a ++ rows b)).

(** [df.drop(index=labels)]: every label has to be in the index, otherwise
    pandas raises [KeyError] and nothing is dropped. *)
Definition drop (d : DataFrame) (labels : list Z) : Res DataFrame :=
  if forallb (fun i => in_index i d) labels
  then Ok (mkDF (columns d)
             (filter (fun r : Row => negb (existsb (Z.eqb (fst r)) labels))
                     (rows d)))
  else Raise KeyError.

(** Replace position [k] of a list. *)
Fixpoint set_nth {A : Type} (k : nat) (x : A) (l : list A) : list A :=
  match l, k with
  | [], _ => []
  | _ :: r, O => x :: r
  | y :: r, S k' => y :: set_nth k' x r
  end.

(** [df[col] = v] with a scalar [v]: an existing column is overwritten in
    every row, a new one is appended on the right. *)
Definition setitem (d : DataFrame) (col : string) (v : Cell) : DataFrame :=
  match col_index col (columns d) with
  | Some k =>
      mkDF (columns d)
           (map (fun r : Row => (fst r, set_nth k v (snd r))) (rows d))
  | None =>
      mkDF (columns d ++ [col])
           (map (fun r : Row => (fst r, snd r ++ [v])) (rows d))
  end.

(** [df.at[idx, col] = v] for a label and a column the frame has, as
    pandas 2 does it: a column of numbers takes a text and becomes a column
    of objects. *)
Definition at_set (d : DataFrame) (idx : Z) (col : string) (v : Cell)
  : DataFrame :=
  match col_index col (columns d) with
  | Some k =>
      mkDF (columns d)
           (map (fun r : Row =>
                   if Z.eqb (fst r) idx then (fst r, set_nth k v (snd r))
                   else r)
                (rows d))
  | None => d
  end.

(* ------------------------------------------------------------------ *)
(** ** Regular expressions, as far as [Series.str.contains] needs them

    [str.contains(pat)] is called without [regex=False], so pandas compiles
    [pat] with [re.compile] and keeps the values [re.search] finds a match
    in.  Patterns built from ordinary characters and the wildcard [.] are
    interpreted here; every other pattern is handed to [re_compile_ext], a
    parameter of the engine standing for Python's [re] ([None] is
    [re.error]). *)

Module Re.

(** The special characters of Python's [re] syntax. *)
Definition is_meta (c : ascii) : bool :=
  existsb (Ascii.eqb c) (list_ascii_of_string ".^$*+?{}[]\|()").

Definition is_dot (c : ascii) : bool := Ascii.eqb c ".".

Definition newline : ascii := ascii_of_nat 10.

Fixpoint all_chars (f : ascii -> bool) (s : string) : bool :=
  match s with
  | EmptyString => true
  | String c r => f c && all_chars f r
  end.

(** No special character at all: the pattern matches itself. *)
Definition literal (pat : string) : bool :=
  all_chars (fun c => negb (is_meta c)) pat.

(** Ordinary characters and dots only. *)
Definition simple (pat : string) : bool :=
  all_chars (fun c => negb (is_meta c) || is_dot c) pat.

(** A match of [pat] starting at the head of [t]; a dot takes any character
    but a newline. *)
Fixpoint match_here (pat t : string) : bool :=
  match pat, t with
  | EmptyString, _ => true
  | String _ _, EmptyString => false
  | String a p', String b t' =>
      (if is_dot a then negb (Ascii.eqb b newline) else Ascii.eqb a b)
      && match_here p' t'
  end.

(** [re.search(pat, t) is not None] for a simple pattern. *)
Fixpoint search (pat t : string) : bool :=
  match_here pat t ||
  match t with
  | EmptyString => false
  | String _ t' => search pat t'
  end.

End Re.

(* ------------------------------------------------------------------ *)
(** ** Sorting a frame *)

Definition is_text (v : Cell) : bool :=
  match v with Text _ => true | _ => false end.

Definition is_num (v : Cell) : bool :=
  match v with Num _ => true | _ => false end.

(** Python orders [str] with [str] and [int] with [int]; a [str] against an
    [int] raises [TypeError], and a sort of values of both kinds has to
    compare one such pair. *)
Definition comparable (l : list Cell) : bool :=
  forallb is_text l || forallb is_num l.

(** [a <= b] on values of one kind. *)
Definition cell_leb (a b : Cell) : bool :=
  match a, b with
  | Text s, Text t => String.leb s t
  | Num x, Num y => Z.leb x y
  | _, _ => true
  end.

Section StableSort.

Context {A : Type} (le : A -> A -> bool).

Fixpoint insert_sorted (x : A) (l : list A) : list A :=
  match l with
  | [] => [x]
  | y :: r => if le x y then x :: l else y :: insert_sorted x r
  end.

(** The stable sort that [kind='mergesort'] asks numpy for; a stable sort
    has one possible output, computed here by insertion from the right: an
    element goes before the later elements that are not smaller. *)
Fixpoint stable_sort (l : list A) : list A :=
  match l with
  | [] => []
  | x :: r => insert_sorted x (stable_sort r)
  end.

End StableSort.

(** The cell a row holds at position [k]. *)
Definition key_at (k : nat) (r : Row) : Cell := nth k (snd r) NaN.

Definition row_leb (k : nat) (r1 r2 : Row) : bool :=
  cell_leb (key_at k r1) (key_at k r2).

(** [df.sort_values(by=by, ascending=ascending, kind='mergesort')], with
    pandas' default [na_position='last'].  As in [nargsort]: the rows with a
    missing key are set aside; the others are sorted stably (for a
    descending sort they are reversed, sorted, and reversed back, so equal
    keys keep their order); the rows with a missing key are put at the
    end. *)
Definition sort_values (d : DataFrame) (by_ : string) (ascending : bool)
  : Res DataFrame :=
  match col_index by_ (columns d) with
  | None => Raise KeyError
  | Some k =>
      let non_nans := filter (fun r => negb (isna (key_at k r))) (rows d) in
      let nans := filter (fun r => isna (key_at k r)) (rows d) in
      if comparable (map (key_at k) non_nans) then
        let sorted :=
          if ascending then stable_sort (row_leb k) non_nans
          else rev (stable_sort (row_leb k) (rev non_nans)) in
        Ok (mkDF (columns d) (sorted ++ nans))
      else Raise TypeError
  end.

(** [df[mask]]: the rows whose mask entry is [True]. *)
Definition boolean_index (d : DataFrame) (mask : list bool) : DataFrame :=
  mkDF (columns d)
       (map snd (filter (fun p : bool * Row => fst p) (combine mask (rows d)))).

(** [pd.DataFrame([new_row], columns=cols)]: one row labelled 0; a column
    the dict has no key for is missing. *)
Fixpoint dict_get (k : string) (d : list (string * string)) : option string :=
  match d with
  | [] => None
  | (k', v) :: r => if String.eqb k k' then Some v else dict_get k r
  end.

Definition frame_of_dict (new_row : list (string * string))
  (cols : list string) : DataFrame :=
  mkDF cols
       [(0%Z, map (fun c => match dict_get c new_row with
                            | Some s => Text s
                            | None => NaN
                            end) cols)].

(** [list(dict.fromkeys(l))]: the first occurrence of each key, in order. *)
Definition dict_fromkeys (l : list string) : list string :=
  fold_left (fun acc k => if has_col k acc then acc else acc ++ [k]) l [].

(** Lines 658-661 of [_merge_into_viewer]: both frames are reindexed on the
    union of the columns, filled with the empty string, and stacked. *)
Definition merge (base incoming : DataFrame) : DataFrame :=
  let union_cols := dict_fromkeys (columns base ++ columns incoming) in
  let base' := reindex base union_cols (Text "") in
  let incoming' := reindex incoming union_cols (Text "") in
  concat_ignore_index base' incoming'.

(* ------------------------------------------------------------------ *)
(** ** The viewer *)

(** One item of the tree: its iid and the values shown. *)
Definition Item : Type := (string * list string)%type.

Record PlannerViewer : Type := mkViewer {
  title : string;
  df : DataFrame;
  filtered_df : DataFrame;
  active_column : option string;
  sort_col : option string;
  sort_asc : bool;
  source_files : list string;
  search_var : string;
  tree : list Item
}.

Definition set_df (v : PlannerViewer) (d : DataFrame) : PlannerViewer :=
  mkViewer (title v) d (filtered_df v) (active_column v) (sort_col v)
           (sort_asc v) (source_files v) (search_var v) (tree v).

Definition set_filtered_df (v : PlannerViewer) (d : DataFrame) : PlannerViewer :=
  mkViewer (title v) (df v) d (active_column v) (sort_col v)
           (sort_asc v) (source_files v) (search_var v) (tree v).

Definition set_active_column (v : PlannerViewer) (c : option string)
  : PlannerViewer :=
  mkViewer (title v) (df v) (filtered_df v) c (sort_col v)
           (sort_asc v) (source_files v) (search_var v) (tree v).

Definition set_sort (v : PlannerViewer) (c : option string) (asc : bool)
  : PlannerViewer :=
  mkViewer (title v) (df v) (filtered_df v) (active_column v) c
           asc (source_files v) (search_var v) (tree v).

Definition set_source_files (v : PlannerViewer) (l : list string)
  : PlannerViewer :=
  mkViewer (title v) (df v) (filtered_df v) (active_column v) (sort_col v)
           (sort_asc v) l (search_var v) (tree v).

Definition set_search_var (v : PlannerViewer) (s : string) : PlannerViewer :=
  mkViewer (title v) (df v) (filtered_df v) (active_column v) (sort_col v)
           (sort_asc v) (source_files v) s (tree v).

Definition set_tree (v : PlannerViewer) (t : list Item) : PlannerViewer :=
  mkViewer (title v) (df v) (filtered_df v) (active_column v) (sort_col v)
           (sort_asc v) (source_files v) (search_var v) t.

(** What a callback leaves behind besides the new state: nothing, a message
    box, or an exception that leaves the callback. *)
Inductive Report : Type :=
| Silent
| InfoBox (msg : string)
| ErrorBox (e : Exn)
| Uncaught (e : Exn).

(** A Python value used as a condition: [None] and [""] are false. *)
Definition truthy (c : option string) : option string :=
  match c with
  | Some EmptyString => None
  | other => other
  end.

(** Lines 143-150 of [populate_tree]: the frame in display order. *)
Definition df_to_show (v : PlannerViewer) (d : DataFrame) : DataFrame :=
  match truthy (sort_col v) with
  | Some c =>
      if has_col c (columns d) then
        match sort_values d c (sort_asc v) with
        | Ok s => s
        | Raise _ => d
        end
      else d
  | None => d
  end.

(** Lines 152-156: one item per row, its iid the row's index label. *)
Definition tree_items (d : DataFrame) : list Item :=
  map (fun r : Row => (PyStr.str_int (fst r), map display (snd r))) (rows d).

Definition populate_tree (v : PlannerViewer) (d : DataFrame) : PlannerViewer :=
  set_tree v (tree_items (df_to_show v d)).

(** [PlannerViewer.__init__] (with [create_widgets]). *)
Definition PlannerViewer_init (d : DataFrame) (plan_name : string)
  (sources : option (list string)) : PlannerViewer :=
  let v := mkViewer plan_name d d None None true
             (match sources with
              | Some l => l
              | None => []
              end)
             "" [] in
  populate_tree v (df v).

(** [True] for the column labels [mark_selected_done] takes as the status
    column. *)
Definition status_like (col : string) : bool :=
  existsb (String.eqb (PyStr.lower col)) ["status"; "state"; "progress"].

(** The labels the selected iids stand for; an iid [int] refuses is
    skipped. *)
Fixpoint selected_indices (items : list string) : list Z :=
  match items with
  | [] => []
  | item :: r =>
      match PyStr.int item with
      | Some idx => idx :: selected_indices r
      | None => selected_indices r
      end
  end.

(** Lines 398-405 of [mark_selected_done]. *)
Fixpoint mark_rows (d : DataFrame) (status_col : string)
  (items : list string) : DataFrame :=
  match items with
  | [] => d
  | item :: r =>
      match PyStr.int item with
      | None => mark_rows d status_col r
      | Some idx =>
          if in_index idx d
          then mark_rows (at_set d idx status_col (Text "Completed"))
                         status_col r
          else mark_rows d status_col r
      end
  end.

(** Lines 388-396: the status column and the frame that has it. *)
Definition find_status_col (d : DataFrame) : string * DataFrame :=
  match find status_like (columns d) with
  | Some col => (col, d)
  | None => ("Status", setitem d "Status" (Text ""))
  end.

(* ------------------------------------------------------------------ *)
(** ** The value dropdown, the add-task dialog and the window position *)

(** [series.dropna()]. *)
Definition dropna (l : list Cell) : list Cell :=
  filter (fun c => negb (isna c)) l.

(** [series.unique()]: each value once, in order of first appearance. *)
Definition unique (l : list string) : list string := dict_fromkeys l.

(** [sorted(l)] on strings: Python's stable sort by character codes. *)
Definition sorted (l : list string) : list string :=
  stable_sort String.leb l.

(** [df[col].dropna().astype(str).unique()]; [None] is the [KeyError] of a
    frame without the column. *)
Definition column_strings (d : DataFrame) (col : string)
  : option (list string) :=
  match col_index col (columns d) with
  | Some k =>
      Some (unique (map astype_str (dropna (map (key_at k) (rows d)))))
  | None => None
  end.

(** [_update_column_values_dropdown]: the values put into the combobox.
    The [KeyError] of a filtered frame without the column ends in the
    [except] branch. *)
Definition _update_column_values_dropdown (v : PlannerViewer) : list string :=
  match truthy (active_column v) with
  | None => []
  | Some col =>
      if negb (has_col col (columns (df v))) then []
      else
        match column_strings (filtered_df v) col with
        | Some vals => firstn 200 (sorted vals)
        | None => []
        end
  end.

(** An input widget of the add-task dialog, with what it holds when the
    dialog opens. *)
Inductive Widget : Type :=
| Entry (text : string)
| Combobox (values : list string).

(** [any(d in s for d in subs)]. *)
Definition any_in (subs : list string) (s : string) : bool :=
  existsb (fun d => PyStr.contains d s) subs.

(** Lines 265-280 of [add_task_dialog]: the widget chosen for a column.
    [sorted(set(l))] of a list without duplicates is its sorted list. *)
Definition widget_for (d : DataFrame) (col : string) : Widget :=
  let col_lower := PyStr.lower col in
  let vals := match column_strings d col with
              | Some l => l
              | None => []
              end in
  if any_in ["due"; "date"; "start"] col_lower then Entry "YYYY-MM-DD"
  else if any_in ["priority"] col_lower
          || any_in ["status"; "progress"; "state"] col_lower then
    match sorted vals with
    | [] => Combobox ["High"; "Medium"; "Low"]
    | existing => Combobox existing
    end
  else if (1 <? List.length vals)%nat && (List.length vals <=? 50)%nat
  then Combobox (sorted vals)
  else Entry "".

(** [add_task_dialog]: the dict [entries], one widget per column. *)
Definition add_task_dialog (v : PlannerViewer) : list (string * Widget) :=
  map (fun col => (col, widget_for (df v) col)) (columns (df v)).

(** Lines 305-307 of [_on_add_task_confirm]: [new_row], with [typed] the
    text each column's widget holds when Add is pressed. *)
Definition entries_get (entries : list (string * Widget))
  (typed : string -> string) : list (string * string) :=
  map (fun e => (fst e, typed (fst e))) entries.

(** [center_window]: the size and the position given to the window for a
    rendered size [w] x [h] on a screen [ws] x [hs]; [dw] x [dh] is the
    default size of the window (1000 x 600 for a viewer, 420 x 260 for the
    main window). *)
Definition center_window (dw dh w h ws hs : Z) : Z * Z * Z * Z :=
  let (w', h') := if (w <=? 1)%Z then (dw, dh) else (w, h) in
  (w', h', (ws / 2 - w' / 2)%Z, (hs / 2 - h' / 2)%Z).

(** What the engine takes from outside: Python's [re.compile] on the
    patterns [Re] does not interpret ([None] when it raises [re.error]),
    [load_excel] ([None] when [pd.read_excel] raises) and
    [os.path.basename]. *)
Class World : Type := {
  re_compile_ext : string -> option (string -> bool);
  load_excel : string -> option DataFrame;
  basename : string -> string
}.

Section Engine.

Context {W : World}.

Definition re_compile (pat : string) : option (string -> bool) :=
  if Re.simple pat then Some (Re.search pat) else re_compile_ext pat.

(** [series.str.contains(query, na=False)] on values that are all
    strings. *)
Definition str_contains (query : string) (values : list string)
  : Res (list bool) :=
  match re_compile query with
  | Some m => Ok (map m values)
  | None => Raise ReError
  end.

(** [row.astype(str).str.lower().str.contains(query, na=False).any()]. *)
Definition row_matches (query : string) (r : Row) : Res bool :=
  hits <- str_contains query
            (map (fun c => PyStr.lower (astype_str c)) (snd r)) ;;
  Ok (existsb (fun b : bool => b) hits).

Fixpoint apply_rows (f : Row -> Res bool) (l : list Row) : Res (list bool) :=
  match l with
  | [] => Ok []
  | r :: l' => b <- f r ;; m <- apply_rows f l' ;; Ok (b :: m)
  end.

(** Lines 159-167 of [on_search]: the frame the filter keeps, which the
    call assigns to [filtered_df] before anything is drawn. *)
Definition compute_filtered (v : PlannerViewer) : Res DataFrame :=
  let query := PyStr.strip (PyStr.lower (search_var v)) in
  if String.eqb query "" then Ok (df v)
  else
    match truthy (active_column v) with
    | Some col =>
        match col_index col (columns (df v)) with
        | None => Raise KeyError
        | Some k =>
            mask <- str_contains query
                      (map (fun r => PyStr.lower (astype_str (key_at k r)))
                           (rows (df v))) ;;
            Ok (boolean_index (df v) mask)
        end
    | None =>
        mask <- apply_rows (row_matches query) (rows (df v)) ;;
        Ok (boolean_index (df v) mask)
    end.

(** [on_search] up to the tree: the frame is computed, stored and shown
    (lines 159-168).  The widget calls that follow ([update_status],
    [highlight_active_column], the refill of the value dropdown) carry no
    data and are not part of the model; [highlight_active_column] asks the
    tree for a heading per column of [df], which Tk refuses for a column
    the tree was not built with.  [Ok]
    therefore says that the filter ran, and what holds of the state after
    [Ok] holds in the program whenever the call ends without an error. *)
Definition on_search (v : PlannerViewer) : Res PlannerViewer :=
  filtered <- compute_filtered v ;;
  Ok (populate_tree (set_filtered_df v filtered) filtered).

(** A callback's tail [self.on_search()] inside [try ... except Exception].
    The errors of the model are raised by the filter, before anything is
    stored: the error is shown, the state stays as it was before the
    refresh. *)
Definition refresh_caught (v : PlannerViewer) : PlannerViewer * Report :=
  match on_search v with
  | Ok v' => (v', Silent)
  | Raise e => (v, ErrorBox e)
  end.

(** The same tail outside any [try]. *)
Definition refresh_uncaught (v : PlannerViewer) : PlannerViewer * Report :=
  match on_search v with
  | Ok v' => (v', Silent)
  | Raise e => (v, Uncaught e)
  end.

(** [on_column_click]. *)
Definition on_column_click (v : PlannerViewer) (col : string)
  : PlannerViewer * Report :=
  let v1 :=
    match active_column v with
    | Some c => if String.eqb c col then set_active_column v None
                else set_active_column v (Some col)
    | None => set_active_column v (Some col)
    end in
  refresh_uncaught v1.

(** Lines 206-213 of [_on_tree_double_click], [col] being the heading that
    was hit. *)
Definition _on_tree_double_click (v : PlannerViewer) (col : string)
  : PlannerViewer :=
  let v1 :=
    match sort_col v with
    | Some c => if String.eqb c col then set_sort v (sort_col v) (negb (sort_asc v))
                else set_sort v (Some col) true
    | None => set_sort v (Some col) true
    end in
  populate_tree v1 (filtered_df v1).

(** [_clear_filters]. *)
Definition _clear_filters (v : PlannerViewer) : PlannerViewer :=
  let v1 := set_search_var v "" in
  let v2 := set_active_column v1 None in
  let v3 := set_sort v2 None true in
  let v4 := set_filtered_df v3 (df v3) in
  populate_tree v4 (filtered_df v4).

(** [_on_add_task_confirm]; [entries] maps each column to the text typed
    for it. *)
Definition _on_add_task_confirm (v : PlannerViewer)
  (entries : list (string * string)) : PlannerViewer * Report :=
  let new_row := entries in
  let new_df := frame_of_dict new_row (columns (df v)) in
  let v1 := set_df v (concat_ignore_index (df v) new_df) in
  let v2 := set_df v1 (reset_index (df v1)) in
  refresh_uncaught v2.

(** [mark_selected_done]; [selected_items] is [self.tree.selection()]. *)
Definition mark_selected_done (v : PlannerViewer)
  (selected_items : list string) : PlannerViewer * Report :=
  match selected_items with
  | [] => (v, InfoBox "No tasks selected")
  | _ =>
      let (status_col, d1) := find_status_col (df v) in
      let d2 := mark_rows d1 status_col selected_items in
      refresh_caught (set_df v d2)
  end.

(** [delete_selected]; [confirmed] is the answer to the yes/no box. *)
Definition delete_selected (v : PlannerViewer)
  (selected_items : list string) (confirmed : bool)
  : PlannerViewer * Report :=
  match selected_items with
  | [] => (v, InfoBox "No tasks selected")
  | _ =>
      if negb confirmed then (v, Silent)
      else
        match selected_indices selected_items with
        | [] => (v, Silent)
        | indices_to_delete =>
            match drop (df v) indices_to_delete with
            | Raise e => (v, ErrorBox e)
            | Ok d =>
                let v1 := set_df v d in
                let v2 := set_df v1 (reset_index (df v1)) in
                refresh_caught v2
            end
        end
  end.

(** [_on_value_selected]; [val] is what the combobox holds. *)
Definition _on_value_selected (v : PlannerViewer) (val : string)
  : PlannerViewer * Report :=
  if String.eqb val "" then (v, Silent)
  else refresh_uncaught (set_search_var v val).

(* ------------------------------------------------------------------ *)
(** ** The main window *)

(** [self.viewers]. *)
Definition MainApp : Type := list PlannerViewer.

(** [_open_new_viewer]. *)
Definition _open_new_viewer (app : MainApp) (d : DataFrame)
  (plan_name : string) (sources : option (list string)) : MainApp :=
  app ++ [PlannerViewer_init d plan_name sources].

(** [_merge_into_viewer].  When the refresh raises, the exception leaves
    the method before the source is recorded. *)
Definition _merge_into_viewer (viewer : PlannerViewer) (new_df : DataFrame)
  (file_path : string) : PlannerViewer * Report :=
  let v1 := set_df viewer (merge (df viewer) new_df) in
  match on_search v1 with
  | Raise e => (v1, Uncaught e)
  | Ok v2 =>
      let v3 :=
        if existsb (String.eqb file_path) (source_files v2) then v2
        else set_source_files v2 (source_files v2 ++ [file_path]) in
      (v3, InfoBox "Merged")
  end.

(** [s.split(sep)[-1]] for a one-character separator. *)
Fixpoint after_last (sep : ascii) (s : string) : string :=
  match s with
  | EmptyString => EmptyString
  | String c r =>
      if Re.all_chars (fun x => negb (Ascii.eqb x sep)) r
      then (if Ascii.eqb c sep then r else s)
      else after_last sep r
  end.

(** Replace element [i] of the viewer list. *)
Definition update_viewer (app : MainApp) (i : nat) (v : PlannerViewer)
  : MainApp :=
  set_nth i v app.

(** What the user answers in the two dialogs of [add_new_plan]. *)
Inductive Choice : Type :=
| ChooseMerge (target : option nat)
| ChooseNew
| ChooseCancel.

(** [add_new_plan]; [file_path] is what the file dialog returned. *)
Definition add_new_plan (app : MainApp) (file_path : string)
  (choice : Choice) : MainApp :=
  if String.eqb file_path "" then app
  else
    match load_excel file_path with
    | None => app
    | Some d =>
        let open_ :=
          _open_new_viewer app d (after_last "\" file_path) (Some [file_path]) in
        match app with
        | [] => open_
        | _ =>
            match choice with
            | ChooseMerge (Some i) =>
                match nth_error app i with
                | Some target =>
                    update_viewer app i (fst (_merge_into_viewer target d file_path))
                | None => app
                end
            | ChooseMerge None => app
            | ChooseNew => open_
            | ChooseCancel => app
            end
        end
    end.

(** One entry of the session file. *)
Record SessionItem : Type := mkItem {
  item_title : string;
  item_sources : option (list string)
}.

(** [save_session]: the list that is written as JSON. *)
Definition save_session (app : MainApp) : list SessionItem :=
  map (fun v => mkItem (title v) (Some (source_files v))) app.

(** The inner loop of [load_session] (lines 555-561): the first source that
    loads opens a viewer and ends the loop. *)
Fixpoint load_sources (app : MainApp) (sources : list string) : MainApp :=
  match sources with
  | [] => app
  | s :: rest =>
      match load_excel s with
      | Some d => _open_new_viewer app d (basename s) None
      | None => load_sources app rest
      end
  end.

(** [load_session] on the parsed session file. *)
Fixpoint load_session (app : MainApp) (session : list SessionItem) : MainApp :=
  match session with
  | [] => app
  | item :: rest =>
      let sources := match item_sources item with
                     | Some l => l
                     | None => []
                     end in
      load_session (load_sources app sources) rest
  end.

(** [_on_viewer_closed] for the viewer at position [i]. *)
Fixpoint _on_viewer_closed (app : MainApp) (i : nat) : MainApp :=
  match app, i with
  | [], _ => []
  | _ :: r, O => r
  | v :: r, S i' => v :: _on_viewer_closed r i'
  end.

(** One callback on one viewer. *)
Inductive viewer_step : PlannerViewer -> PlannerViewer -> Prop :=
| vs_type (v : PlannerViewer) (s : string) :
    viewer_step v (fst (refresh_uncaught (set_search_var v s)))
| vs_column (v : PlannerViewer) (col : string) :
    viewer_step v (fst (on_column_click v col))
| vs_sort (v : PlannerViewer) (col : string) :
    viewer_step v (_on_tree_double_click v col)
| vs_clear (v : PlannerViewer) :
    viewer_step v (_clear_filters v)
| vs_add (v : PlannerViewer) (entries : list (string * string)) :
    viewer_step v (fst (_on_add_task_confirm v entries))
| vs_done (v : PlannerViewer) (sel : list string) :
    viewer_step v (fst (mark_selected_done v sel))
| vs_delete (v : PlannerViewer) (sel : list string) (yes : bool) :
    viewer_step v (fst (delete_selected v sel yes)).

(** One user action on the application. *)
Inductive app_step : MainApp -> MainApp -> Prop :=
| as_add (app : MainApp) (path : string) (choice : Choice) :
    app_step app (add_new_plan app path choice)
| as_load (app : MainApp) (session : list SessionItem) :
    app_step app (load_session app session)
| as_viewer (app : MainApp) (i : nat) (v v' : PlannerViewer) :
    nth_error app i = Some v -> viewer_step v v' ->
    app_step app (update_viewer app i v')
| as_close (app : MainApp) (i : nat) :
    app_step app (_on_viewer_closed app i).

(** The states the application can be in, from the empty viewer list
    [__init__] starts with. *)
Inductive reachable : MainApp -> Prop :=
| reach_init : reachable []
| reach_step (app app' : MainApp) :
    reachable app -> app_step app app' -> reachable app'.

(** Merging the same file [n] times into a viewer. *)
Fixpoint merge_times (n : nat) (viewer : PlannerViewer) (new_df : DataFrame)
  (file_path : string) : PlannerViewer :=
  match n with
  | O => viewer
  | S n' => merge_times n' (fst (_merge_into_viewer viewer new_df file_path))
                        new_df file_path
  end.

(* ------------------------------------------------------------------ *)
(** ** What a call leaves behind *)

(** The first source of a list that loads, with its frame. *)
Definition first_loadable (sources : list string)
  : option (string * DataFrame) :=
  match find (fun s => match load_excel s with
                       | Some _ => true
                       | None => false
                       end) sources with
  | Some s => option_map (fun d => (s, d)) (load_excel s)
  | None => None
  end.

(** The viewers one entry of the session file brings back. *)
Definition restored_entry (item : SessionItem) : list PlannerViewer :=
  match first_loadable (match item_sources item with
                        | Some l => l
                        | None => []
                        end) with
  | Some (s, d) => [PlannerViewer_init d (basename s) None]
  | None => []
  end.

(** What a window shows of its plan: the title, the data and the view. *)
Definition shown (v : PlannerViewer) : string * DataFrame * DataFrame :=
  (title v, df v, filtered_df v).

(** What one entry of the session file comes back as. *)
Definition restored_plan (item : SessionItem)
  : list (string * DataFrame * DataFrame) :=
  match first_loadable (match item_sources item with
                        | Some l => l
                        | None => []
                        end) with
  | Some (s, d) => [(basename s, d, d)]
  | None => []
  end.

(** An entry of a session has a source that loads. *)
Definition restorable (item : SessionItem) : bool :=
  existsb (fun s => match load_excel s with
                    | Some _ => true
                    | None => false
                    end)
          (match item_sources item with
           | Some l => l
           | None => []
           end).

(** The view is the one a refresh computes from the viewer's own data. *)
Definition view_fresh (v : PlannerViewer) : Prop :=
  compute_filtered v = Ok (filtered_df v) /\
  tree v = tree_items (df_to_show v (filtered_df v)).

(* ------------------------------------------------------------------ *)
(** ** Readings of the specification, for comparison with the code *)

(** Specification, section 4.6: an entry is rebuilt by loading its first
    listed source and merging each later one in order, a source that does
    not load being skipped. *)
Fixpoint restore_entry_spec (acc : option DataFrame) (sources : list string)
  : option DataFrame :=
  match sources with
  | [] => acc
  | s :: rest =>
      match load_excel s with
      | None => restore_entry_spec acc rest
      | Some d =>
          restore_entry_spec
            (Some (match acc with
                   | None => d
                   | Some b => merge b d
                   end)) rest
      end
  end.

Definition restore_spec (session : list SessionItem) : list DataFrame :=
  flat_map (fun item =>
              match restore_entry_spec None
                      (match item_sources item with
                       | Some l => l
                       | None => []
                       end) with
              | Some d => [d]
              | None => []
              end) session.

End Engine.

(** Specification, section 4.3: rows compared by the stringified cell, a
    missing cell as the empty string, by a stable sort. *)
Definition spec_key (k : nat) (r : Row) : string := display (key_at k r).

Definition computeOrder_spec (l : list Row) (k : nat) (ascending : bool)
  : list Z :=
  map fst
      (stable_sort
         (fun a b => if ascending then String.leb (spec_key k a) (spec_key k b)
                     else String.leb (spec_key k b) (spec_key k a)) l).

(** Specification, section 4.2: the value stringified with a missing cell as
    the empty string and case-folded contains the case-folded term. *)
Definition visible_spec (term : string) (c : Cell) : bool :=
  PyStr.contains (PyStr.lower term) (PyStr.lower (display c)).

(* ------------------------------------------------------------------ *)
(** ** Predicates the statements use *)

(** The row at position [i]. *)
Definition row_nth (d : DataFrame) (i : nat) : Row :=
  nth i (rows d) (0%Z, []).

(** The labels [0 .. n-1]. *)
Definition range (n : nat) : list Z := map Z.of_nat (seq 0 n).

(** An iid that is no integer, or whose integer labels no row. *)
Definition stale (d : DataFrame) (item : string) : Prop :=
  match PyStr.int item with
  | Some idx => in_index idx d = false
  | None => True
  end.

(** The row is one of the selected ones. *)
Definition selected (items : list string) (r : Row) : bool :=
  existsb (Z.eqb (fst r)) (selected_indices items).

Definition completed (k : nat) (items : list string) (r : Row) : Row :=
  if selected items r then (fst r, set_nth k (Text "Completed") (snd r))
  else r.

(** No viewer of the application holds a source twice. *)
Definition sources_once (app : MainApp) : Prop :=
  Forall (fun v => NoDup (source_files v)) app.

(** [l1] is [l2] with some elements left out, the others in their
    order. *)
Inductive subseq {A : Type} : list A -> list A -> Prop :=
| subseq_nil : subseq [] []
| subseq_skip (x : A) (l1 l2 : list A) : subseq l1 l2 -> subseq l1 (x :: l2)
| subseq_keep (x : A) (l1 l2 : list A) :
    subseq l1 l2 -> subseq (x :: l1) (x :: l2).

(** Equality of two cells. *)
Definition cell_eqb (a b : Cell) : bool :=
  match a, b with
  | Text s, Text t => String.eqb s t
  | Num x, Num y => Z.eqb x y
  | NaN, NaN => true
  | _, _ => false
  end.

(** The shape every frame of the application has: one cell per column in
    every row, no column label twice, the labels 0 .. N-1 in order. *)
Definition tidy (d : DataFrame) : Prop :=
  wf d /\ NoDup (columns d) /\ index d = range (len d).

(** The value a decimal numeral adds to an accumulator read so far. *)
Fixpoint uint_val (d : Decimal.uint) (acc : Z) : Z :=
  match d with
  | Decimal.Nil => acc
  | Decimal.D0 l => uint_val l (10 * acc + 0)%Z
  | Decimal.D1 l => uint_val l (10 * acc + 1)%Z
  | Decimal.D2 l => uint_val l (10 * acc + 2)%Z
  | Decimal.D3 l => uint_val l (10 * acc + 3)%Z
  | Decimal.D4 l => uint_val l (10 * acc + 4)%Z
  | Decimal.D5 l => uint_val l (10 * acc + 5)%Z
  | Decimal.D6 l => uint_val l (10 * acc + 6)%Z
  | Decimal.D7 l => uint_val l (10 * acc + 7)%Z
  | Decimal.D8 l => uint_val l (10 * acc + 8)%Z
  | Decimal.D9 l => uint_val l (10 * acc + 9)%Z
  end.

(* ------------------------------------------------------------------ *)
(** ** Sample data *)

(** No pattern beyond the simple ones compiles. *)
Definition sample_no_ext (pat : string) : option (string -> bool) := None.

(** [os.path.basename] of a POSIX path. *)
Definition sample_basename : string -> string := after_last "/".

Definition sample_tasks_a : DataFrame :=
  mkDF ["Task"] [(0%Z, [Text "write"])].

Definition sample_tasks_b : DataFrame :=
  mkDF ["Task"] [(0%Z, [Text "test"])].

Definition sample_loader (path : string) : option DataFrame :=
  if String.eqb path "a.xlsx" then Some sample_tasks_a
  else if String.eqb path "b.xlsx" then Some sample_tasks_b
  else None.

(** The outside world of the samples: two workbooks on disk, no regular
    expression beyond the simple ones. *)
#[export] Instance sample_world : World := {|
  re_compile_ext := sample_no_ext;
  load_excel := sample_loader;
  basename := sample_basename
|}.

Definition sample_session_ab : list SessionItem :=
  [mkItem "a.xlsx" (Some ["a.xlsx"; "b.xlsx"])].

Definition sample_with_gap : DataFrame :=
  mkDF ["Task"] [(0%Z, [Text "b"]); (1%Z, [NaN]); (2%Z, [Text "a"])].

Definition sample_sorted_viewer : PlannerViewer :=
  mkViewer "plan" sample_with_gap sample_with_gap None (Some "Task") true [] "" [].

Definition sample_one_x : DataFrame := mkDF ["Task"] [(0%Z, [Text "x"])].

Definition sample_dot_viewer : PlannerViewer :=
  mkViewer "plan" sample_one_x sample_one_x (Some "Task") None true [] "." [].

Definition sample_x_viewer : PlannerViewer :=
  mkViewer "plan" sample_one_x sample_one_x (Some "Task") None true [] " X " [].

Definition sample_one_missing : DataFrame := mkDF ["Task"] [(0%Z, [NaN])].

Definition sample_nan_viewer : PlannerViewer :=
  mkViewer "plan" sample_one_missing sample_one_missing (Some "Task") None
           true [] "nan" [].

Definition sample_with_status : DataFrame :=
  mkDF ["Task"; "Status"] [(0%Z, [Text "x"; Text "Open"])].

Definition sample_status_viewer : PlannerViewer :=
  PlannerViewer_init sample_with_status "plan" None.

Definition sample_plain_viewer : PlannerViewer :=
  PlannerViewer_init sample_one_x "plan" None.

Definition sample_five : DataFrame :=
  mkDF ["Task"]
       [(0%Z, [Text "a"]); (1%Z, [Text "b"]); (2%Z, [Text "c"]);
        (3%Z, [Text "d"]); (4%Z, [Text "e"])].

Definition sample_five_viewer : PlannerViewer :=
  PlannerViewer_init sample_five "plan" None.

Definition sample_base_td : DataFrame :=
  mkDF ["Task"; "Due"] [(0%Z, [Text "write"; Text "Mon"])].

Definition sample_incoming_do : DataFrame :=
  mkDF ["Due"; "Owner"] [(0%Z, [Text "Tue"; Text "ann"])].

Definition sample_task_priority : DataFrame :=
  mkDF ["Task"; "Priority"]
       [(0%Z, [Text "write"; Text "High"]); (1%Z, [Text "test"; Text "Low"])].

Definition sample_tp_viewer : PlannerViewer :=
  PlannerViewer_init sample_task_priority "plan" None.

Definition sample_task_state : DataFrame :=
  mkDF ["Task"; "STATE"; "Status"]
       [(0%Z, [Text "write"; Text "open"; Text "a"]);
        (1%Z, [Text "test"; Text "open"; Text "b"])].

Definition sample_state_viewer : PlannerViewer :=
  PlannerViewer_init sample_task_state "plan" None.


Definition sample_paren_viewer : PlannerViewer :=
  mkViewer "plan" sample_five sample_five (Some "Task") None true [] "("
           (tree_items sample_five).

Definition sample_row_viewer : PlannerViewer :=
  mkViewer "plan" sample_task_priority sample_task_priority None None true []
           "LOW" [].

Definition sample_x_refreshed : PlannerViewer :=
  populate_tree (set_filtered_df sample_x_viewer sample_one_x) sample_one_x.

Definition sample_three : DataFrame :=
  mkDF ["Task"] [(0%Z, [Text "b"]); (1%Z, [Text "c"]); (2%Z, [Text "a"])].

(* ------------------------------------------------------------------ *)
(** ** Lists, labels and columns *)

Lemma has_col_In (c : string) (cols : list string) :
  has_col c cols = true <-> In c cols.
Proof.
  unfold has_col. rewrite existsb_exists. split.
  - intros [x [Hin Heq]]. apply String.eqb_eq in Heq. now subst.
  - intros Hin. exists c. split; [assumption | apply String.eqb_refl].
Qed.

Lemma has_col_false (c : string) (cols : list string) :
  has_col c cols = false <-> ~ In c cols.
Proof.
  rewrite <- has_col_In. destruct (has_col c cols); split; congruence.
Qed.

Lemma col_index_spec (c : string) (cols : list string) (k : nat) :
  col_index c cols = Some k ->
  (k < List.length cols)%nat /\ nth k cols "" = c.
Proof.
  revert k. induction cols as [|x r IH]; simpl; intros k H; [discriminate|].
  destruct (String.eqb c x) eqn:E.
  - injection H as <-. apply String.eqb_eq in E. split; [lia | now subst].
  - destruct (col_index c r) as [k'|]; simpl in H; [|discriminate].
    injection H as <-. destruct (IH k' eq_refl) as [Hlt Hnth].
    split; [lia | assumption].
Qed.

Lemma col_index_has_col (c : string) (cols : list string) :
  has_col c cols = true -> exists k, col_index c cols = Some k.
Proof.
  unfold has_col. induction cols as [|x r IH]; simpl; [discriminate|].
  destruct (String.eqb c x); simpl; intros H; [now exists 0%nat|].
  destruct (IH H) as [k ->]. now exists (S k).
Qed.

Lemma col_index_none (c : string) (cols : list string) :
  has_col c cols = false -> col_index c cols = None.
Proof.
  unfold has_col. induction cols as [|x r IH]; simpl; [reflexivity|].
  destruct (String.eqb c x); simpl; intros H; [discriminate|].
  now rewrite (IH H).
Qed.

Lemma col_index_app_new (c : string) (cols : list string) :
  has_col c cols = false ->
  col_index c (cols ++ [c]) = Some (List.length cols).
Proof.
  unfold has_col. induction cols as [|x r IH]; simpl.
  - now rewrite String.eqb_refl.
  - destruct (String.eqb c x); simpl; intros H; [discriminate|].
    now rewrite (IH H).
Qed.

Lemma col_index_app_old (c : string) (cols extra : list string) (k : nat) :
  col_index c cols = Some k -> col_index c (cols ++ extra) = Some k.
Proof.
  revert k. induction cols as [|x r IH]; simpl; intros k H; [discriminate|].
  destruct (String.eqb c x); [assumption|].
  destruct (col_index c r) as [k'|]; simpl in H; [|discriminate].
  now rewrite (IH k' eq_refl).
Qed.

(** Looking a column up in a row that was computed column by column. *)
Lemma cell_at_map (f : string -> Cell) (cols : list string) (c : string)
  (i : Z) :
  has_col c cols = true -> cell_at cols c (i, map f cols) = Some (f c).
Proof.
  intros H. destruct (col_index_has_col _ _ H) as [k Hk].
  unfold cell_at. rewrite Hk. simpl.
  destruct (col_index_spec _ _ _ Hk) as [Hlt Hnth].
  rewrite (nth_indep _ NaN (f "")) by now rewrite length_map.
  now rewrite map_nth, Hnth.
Qed.

Lemma relabel_length (s : Z) (l : list Row) :
  List.length (relabel s l) = List.length l.
Proof.
  revert s. induction l as [|[i c] r IH]; simpl; intros s; [reflexivity|].
  now rewrite IH.
Qed.

Lemma relabel_cells (s : Z) (l : list Row) :
  map snd (relabel s l) = map snd l.
Proof.
  revert s. induction l as [|[i c] r IH]; simpl; intros s; [reflexivity|].
  now rewrite IH.
Qed.

Lemma relabel_labels (s : Z) (l : list Row) :
  map fst (relabel s l) =
  map (fun i => (s + Z.of_nat i)%Z) (seq 0 (List.length l)).
Proof.
  revert s. induction l as [|[i c] r IH]; simpl; intros s; [reflexivity|].
  rewrite IH, <- seq_shift, map_map. f_equal; [f_equal; lia|].
  apply map_ext. intros a. lia.
Qed.

Lemma relabel_range (l : list Row) :
  map fst (relabel 0%Z l) = range (List.length l).
Proof.
  rewrite relabel_labels. unfold range. apply map_ext. intros a. lia.
Qed.

Lemma relabel_nth (s : Z) (l : list Row) (i : nat) :
  (i < List.length l)%nat ->
  nth i (relabel s l) (0%Z, []) =
  ((s + Z.of_nat i)%Z, snd (nth i l (0%Z, []))).
Proof.
  revert s i. induction l as [|[j c] r IH]; simpl; intros s i Hi; [lia|].
  destruct i as [|i]; simpl.
  - f_equal. lia.
  - rewrite IH by lia. f_equal. lia.
Qed.

Lemma set_nth_same {A : Type} (k : nat) (x d : A) (l : list A) :
  (k < List.length l)%nat -> nth k (set_nth k x l) d = x.
Proof.
  revert k. induction l as [|y r IH]; intros [|k]; simpl; intros H;
    try lia; auto. apply IH. lia.
Qed.

Lemma set_nth_other {A : Type} (k j : nat) (x d : A) (l : list A) :
  j <> k -> nth j (set_nth k x l) d = nth j l d.
Proof.
  revert k j. induction l as [|y r IH]; intros [|k] [|j]; simpl; intros H;
    try congruence; auto.
Qed.

Lemma set_nth_twice {A : Type} (k : nat) (x : A) (l : list A) :
  set_nth k x (set_nth k x l) = set_nth k x l.
Proof.
  revert k. induction l as [|y r IH]; intros [|k]; simpl; auto.
  now rewrite IH.
Qed.

Lemma fromkeys_fold_keeps (l acc : list string) (x : string) :
  In x acc \/ In x l ->
  In x (fold_left (fun a k => if has_col k a then a else a ++ [k]) l acc).
Proof.
  revert acc. induction l as [|y r IH]; simpl; intros acc H.
  - tauto.
  - apply IH. destruct H as [H | [-> | H]]; auto.
    + left. destruct (has_col y acc); [assumption|].
      apply in_or_app. now left.
    + left. destruct (has_col x acc) eqn:E.
      * now apply has_col_In.
      * apply in_or_app. right. now left.
Qed.

Lemma fromkeys_fold_nodup (l acc : list string) :
  NoDup l ->
  fold_left (fun a k => if has_col k a then a else a ++ [k]) l acc =
  acc ++ filter (fun c => negb (has_col c acc)) l.
Proof.
  revert acc. induction l as [|x r IH]; simpl; intros acc Hnd.
  - now rewrite app_nil_r.
  - inversion Hnd as [|? ? Hx Hr]; subst.
    destruct (has_col x acc) eqn:E; simpl.
    + now apply IH.
    + rewrite IH by assumption. rewrite <- app_assoc. simpl. do 2 f_equal.
      apply filter_ext_in. intros c Hc. f_equal.
      destruct (has_col c acc) eqn:Ec.
      * apply has_col_In. apply in_or_app. left. now apply has_col_In.
      * apply has_col_false. intros Hin. apply in_app_or in Hin.
        destruct Hin as [Hin | [-> | []]].
        -- apply has_col_false in Ec. contradiction.
        -- contradiction.
Qed.

Lemma dict_fromkeys_union (a b : list string) :
  NoDup a -> NoDup b ->
  dict_fromkeys (a ++ b) =
  a ++ filter (fun c => negb (has_col c a)) b.
Proof.
  intros Ha Hb. unfold dict_fromkeys. rewrite fold_left_app.
  rewrite (fromkeys_fold_nodup a []) by assumption. simpl.
  assert (Hall : forall l : list string, filter (fun _ => true) l = l).
  { induction l as [|x r IH]; simpl; [reflexivity | now rewrite IH]. }
  rewrite Hall. now apply fromkeys_fold_nodup.
Qed.

Lemma dict_fromkeys_has (l : list string) (c : string) :
  In c l -> has_col c (dict_fromkeys l) = true.
Proof.
  intros H. apply has_col_In. unfold dict_fromkeys.
  apply fromkeys_fold_keeps. now right.
Qed.

(* ------------------------------------------------------------------ *)
(** ** The stable sort *)

Section SortFacts.

Context {A : Type} (le : A -> A -> bool).
Hypothesis le_total : forall a b, le a b = true \/ le b a = true.

Lemma insert_sorted_perm (x : A) (l : list A) :
  Permutation (insert_sorted le x l) (x :: l).
Proof.
  induction l as [|y r IH]; simpl; [apply Permutation_refl|].
  destruct (le x y); [apply Permutation_refl|].
  eapply perm_trans; [apply perm_skip, IH | apply perm_swap].
Qed.

Lemma stable_sort_perm (l : list A) : Permutation (stable_sort le l) l.
Proof.
  induction l as [|x r IH]; simpl; [constructor|].
  eapply perm_trans; [apply insert_sorted_perm | now apply perm_skip].
Qed.

Lemma insert_sorted_ordered (x : A) (l : list A) :
  Sorted (fun a b => le a b = true) l ->
  Sorted (fun a b => le a b = true) (insert_sorted le x l).
Proof.
  induction 1 as [|y r Hs IH Hd]; simpl.
  - repeat constructor.
  - destruct (le x y) eqn:E.
    + constructor; [now constructor | now constructor].
    + constructor; [assumption|].
      destruct r as [|z r']; simpl.
      * constructor. destruct (le_total x y); congruence.
      * destruct (le x z); constructor.
        -- destruct (le_total x y); congruence.
        -- now inversion Hd.
Qed.

Lemma stable_sort_ordered (l : list A) :
  Sorted (fun a b => le a b = true) (stable_sort le l).
Proof.
  induction l as [|x r IH]; simpl; [constructor|].
  now apply insert_sorted_ordered.
Qed.

End SortFacts.

Lemma sorted_rev_onto {A : Type} (R : A -> A -> Prop) (l acc : list A) :
  Sorted R l ->
  Sorted (fun a b => R b a) acc ->
  match l, acc with
  | x :: _, y :: _ => R y x
  | _, _ => True
  end ->
  Sorted (fun a b => R b a) (rev l ++ acc).
Proof.
  intros Hl. revert acc. induction Hl as [|a l' Hs IH Hd]; simpl; intros acc Hacc Hm.
  - assumption.
  - rewrite <- app_assoc. simpl. apply IH.
    + constructor; [assumption|]. destruct acc; constructor. assumption.
    + destruct l'; [exact I|]. now inversion Hd.
Qed.

Lemma sorted_rev {A : Type} (R : A -> A -> Prop) (l : list A) :
  Sorted R l -> Sorted (fun a b => R b a) (rev l).
Proof.
  intros H. rewrite <- (app_nil_r (rev l)).
  apply sorted_rev_onto; [assumption | constructor | now destruct l].
Qed.

Lemma cell_leb_total (a b : Cell) :
  cell_leb a b = true \/ cell_leb b a = true.
Proof.
  destruct a, b; simpl; auto.
  - apply String.leb_total.
  - destruct (Z.leb_spec z z0); [now left | right; apply Z.leb_le; lia].
Qed.

Lemma row_leb_total (k : nat) (a b : Row) :
  row_leb k a b = true \/ row_leb k b a = true.
Proof. apply cell_leb_total. Qed.

(** C2 as the code has it.  With a sort column [c] at position [k] whose
    non-missing cells are all text or all numbers, the frame
    [populate_tree] shows is: the rows with a cell under [c], ordered by
    that cell itself (text by character codes, numbers by value, upwards
    for an ascending sort and downwards for a descending one), followed by
    the rows whose cell is missing, in their original order.  Missing cells
    are last in both directions. *)
Theorem populate_tree_missing_last (v : PlannerViewer) (d : DataFrame)
  (c : string) (k : nat) :
  truthy (sort_col v) = Some c ->
  col_index c (columns d) = Some k ->
  comparable (map (key_at k)
                  (filter (fun r => negb (isna (key_at k r))) (rows d))) = true ->
  exists sorted : list Row,
    rows (df_to_show v d) =
      sorted ++ filter (fun r => isna (key_at k r)) (rows d) /\
    tree (populate_tree v d) =
      tree_items (mkDF (columns d)
                    (sorted ++ filter (fun r => isna (key_at k r)) (rows d))) /\
    Permutation sorted (filter (fun r => negb (isna (key_at k r))) (rows d)) /\
    Forall (fun r => isna (key_at k r) = false) sorted /\
    Sorted (fun a b => if sort_asc v then row_leb k a b = true
                       else row_leb k b a = true) sorted.
Proof.
  intros Hc Hk Hcmp.
  assert (Hhas : has_col c (columns d) = true).
  { apply has_col_In. destruct (col_index_spec _ _ _ Hk) as [Hlt <-].
    now apply nth_In. }
  set (nn := filter (fun r => negb (isna (key_at k r))) (rows d)) in *.
  exists (if sort_asc v then stable_sort (row_leb k) nn
          else rev (stable_sort (row_leb k) (rev nn))).
  assert (Hshow : df_to_show v d =
            mkDF (columns d)
              ((if sort_asc v then stable_sort (row_leb k) nn
                else rev (stable_sort (row_leb k) (rev nn))) ++
               filter (fun r => isna (key_at k r)) (rows d))).
  { unfold df_to_show. rewrite Hc, Hhas. unfold sort_values. rewrite Hk.
    fold nn. now rewrite Hcmp. }
  assert (Hperm : Permutation
            (if sort_asc v then stable_sort (row_leb k) nn
             else rev (stable_sort (row_leb k) (rev nn))) nn).
  { destruct (sort_asc v).
    - apply stable_sort_perm.
    - eapply perm_trans; [apply Permutation_sym, Permutation_rev|].
      eapply perm_trans; [apply stable_sort_perm|].
      apply Permutation_sym, Permutation_rev. }
  repeat split.
  - now rewrite Hshow.
  - unfold populate_tree. simpl. now rewrite Hshow.
  - exact Hperm.
  - apply Forall_forall. intros r Hr.
    apply (Permutation_in _ Hperm) in Hr. unfold nn in Hr.
    apply filter_In in Hr. destruct Hr as [_ Hr].
    now apply negb_true_iff in Hr.
  - destruct (sort_asc v).
    + apply stable_sort_ordered. apply row_leb_total.
    + apply (sorted_rev (fun a b => row_leb k a b = true)).
      apply stable_sort_ordered. apply row_leb_total.
Qed.

(* ------------------------------------------------------------------ *)
(** ** The filter *)

Lemma literal_simple (pat : string) :
  Re.literal pat = true -> Re.simple pat = true.
Proof.
  unfold Re.literal, Re.simple. induction pat as [|a p IH]; simpl; auto.
  intros H. apply andb_true_iff in H. destruct H as [Ha Hp].
  rewrite Ha, (IH Hp). reflexivity.
Qed.

Lemma literal_match_here (pat t : string) :
  Re.literal pat = true -> Re.match_here pat t = PyStr.startswith pat t.
Proof.
  unfold Re.literal. revert t. induction pat as [|a p IH]; simpl; intros t H.
  - now destruct t.
  - destruct t as [|b t']; [reflexivity|].
    apply andb_true_iff in H. destruct H as [Ha Hp].
    rewrite (IH _ Hp). f_equal.
    destruct (Re.is_dot a) eqn:Ed; [|reflexivity].
    unfold Re.is_meta in Ha. simpl in Ha. unfold Re.is_dot in Ed.
    rewrite Ed in Ha. discriminate.
Qed.

(** A pattern without special characters is searched for as it stands. *)
Lemma literal_search (pat t : string) :
  Re.literal pat = true -> Re.search pat t = PyStr.contains pat t.
Proof.
  intros H. induction t as [|b t' IH]; simpl.
  - now rewrite literal_match_here.
  - now rewrite literal_match_here, IH.
Qed.

Lemma boolean_index_map (d : DataFrame) (f : Row -> bool) :
  boolean_index d (map f (rows d)) = mkDF (columns d) (filter f (rows d)).
Proof.
  unfold boolean_index. f_equal.
  induction (rows d) as [|r l IH]; simpl; [reflexivity|].
  destruct (f r); simpl; now rewrite IH.
Qed.

(* ------------------------------------------------------------------ *)
(** ** Marking and deleting rows *)

Lemma setitem_index (d : DataFrame) (col : string) (x : Cell) :
  index (setitem d col x) = index d.
Proof.
  unfold setitem, index. destruct (col_index col (columns d)); simpl;
    rewrite map_map; reflexivity.
Qed.

Lemma find_status_col_index (d : DataFrame) :
  index (snd (find_status_col d)) = index d.
Proof.
  unfold find_status_col. destruct (find status_like (columns d)); simpl.
  - reflexivity.
  - apply setitem_index.
Qed.

Lemma find_none_forall {A : Type} (f : A -> bool) (l : list A) :
  find f l = None -> Forall (fun x => f x = false) l.
Proof.
  intros H. apply Forall_forall. intros x Hx. now apply (find_none f l H).
Qed.

Lemma find_first {A : Type} (f : A -> bool) (l : list A) (c : A) :
  find f l = Some c ->
  exists pre post, l = pre ++ c :: post /\ f c = true /\
                   Forall (fun x => f x = false) pre.
Proof.
  induction l as [|x r IH]; simpl; [discriminate|].
  destruct (f x) eqn:E.
  - intros H. injection H as <-. exists [], r. repeat split; auto.
  - intros H. destruct (IH H) as (pre & post & -> & Hc & Hpre).
    exists (x :: pre), post. repeat split; auto.
Qed.

Lemma no_status_column (cols : list string) :
  find status_like cols = None -> has_col "Status" cols = false.
Proof.
  intros H. apply has_col_false. intros Hin.
  now pose proof (find_none status_like cols H "Status" Hin).
Qed.

(** The status column is a column of the frame that is updated. *)
Lemma find_status_col_has (d : DataFrame) :
  has_col (fst (find_status_col d)) (columns (snd (find_status_col d))) = true.
Proof.
  unfold find_status_col. destruct (find status_like (columns d)) as [c|] eqn:E;
    simpl.
  - apply has_col_In. now apply find_some in E.
  - unfold setitem. rewrite (col_index_none _ _ (no_status_column _ E)). simpl.
    apply has_col_In, in_or_app. right. now left.
Qed.

Lemma mark_rows_stale (d : DataFrame) (col : string) (items : list string) :
  Forall (stale d) items -> mark_rows d col items = d.
Proof.
  induction 1 as [|item r Hitem Hr IH]; simpl; [reflexivity|].
  unfold stale in Hitem. destruct (PyStr.int item) as [idx|]; [|exact IH].
  now rewrite Hitem.
Qed.

(* ------------------------------------------------------------------ *)
(** ** Merging two frames *)

Lemma merge_len (base incoming : DataFrame) :
  len (merge base incoming) = (len base + len incoming)%nat.
Proof.
  unfold merge, len, concat_ignore_index, reindex. simpl.
  now rewrite relabel_length, length_app, !length_map.
Qed.

Lemma merge_row_base (base incoming : DataFrame) (i : nat) :
  (i < len base)%nat ->
  row_nth (merge base incoming) i =
  (Z.of_nat i,
   snd (reindex_row base (columns (merge base incoming)) (Text "")
          (row_nth base i))).
Proof.
  intros Hi. unfold row_nth, merge, concat_ignore_index, reindex. simpl.
  unfold len in Hi.
  rewrite relabel_nth by (rewrite length_app, !length_map; lia).
  rewrite app_nth1 by (rewrite length_map; lia).
  f_equal.
  rewrite (nth_indep _ (0%Z, [])
             (reindex_row base
                (dict_fromkeys (columns base ++ columns incoming))
                (Text "") (0%Z, [])))
    by (rewrite length_map; lia).
  now rewrite map_nth.
Qed.

Lemma merge_row_incoming (base incoming : DataFrame) (j : nat) :
  (j < len incoming)%nat ->
  row_nth (merge base incoming) (len base + j) =
  (Z.of_nat (len base + j),
   snd (reindex_row incoming (columns (merge base incoming)) (Text "")
          (row_nth incoming j))).
Proof.
  intros Hj. unfold row_nth, merge, concat_ignore_index, reindex. simpl.
  unfold len in *.
  rewrite relabel_nth by (rewrite length_app, !length_map; lia).
  rewrite app_nth2 by (rewrite length_map; lia).
  rewrite length_map.
  replace (List.length (rows base) + j - List.length (rows base))%nat
    with j by lia.
  f_equal.
  rewrite (nth_indep _ (0%Z, [])
             (reindex_row incoming
                (dict_fromkeys (columns base ++ columns incoming))
                (Text "") (0%Z, [])))
    by (rewrite length_map; lia).
  now rewrite map_nth.
Qed.

(** A cell of a reindexed row: the old cell of a kept column, the filler
    under a new one. *)
Lemma cell_at_reindex_row (d : DataFrame) (cols : list string) (fill : Cell)
  (r : Row) (c : string) (i : Z) :
  has_col c cols = true ->
  cell_at cols c (i, snd (reindex_row d cols fill r)) =
  Some (match cell_at (columns d) c r with
        | Some x => x
        | None => fill
        end).
Proof.
  intros H. unfold reindex_row. simpl.
  now rewrite (cell_at_map
                 (fun c => match cell_at (columns d) c r with
                           | Some x => x
                           | None => fill
                           end) cols c i H).
Qed.

Lemma cell_at_present (cols : list string) (c : string) (r : Row) :
  has_col c cols = true -> exists x, cell_at cols c r = Some x.
Proof.
  intros H. destruct (col_index_has_col _ _ H) as [k Hk].
  unfold cell_at. rewrite Hk. eauto.
Qed.

Lemma cell_at_absent (cols : list string) (c : string) (r : Row) :
  has_col c cols = false -> cell_at cols c r = None.
Proof.
  intros H. unfold cell_at. now rewrite (col_index_none _ _ H).
Qed.

(** C7.  The merged frame has the columns of the base in their order, then
    the columns of the incoming frame that the base lacks, in their order;
    and under a column that one side lacks, every row that came from that
    side holds the empty string. *)
Theorem merge_columns (base incoming : DataFrame) :
  NoDup (columns base) ->
  NoDup (columns incoming) ->
  columns (merge base incoming) =
    columns base ++
    filter (fun c => negb (has_col c (columns base))) (columns incoming) /\
  (forall (i : nat) (c : string),
     (i < len base)%nat ->
     has_col c (columns (merge base incoming)) = true ->
     has_col c (columns base) = false ->
     cell_at (columns (merge base incoming)) c
             (row_nth (merge base incoming) i) = Some (Text "")) /\
  (forall (j : nat) (c : string),
     (j < len incoming)%nat ->
     has_col c (columns (merge base incoming)) = true ->
     has_col c (columns incoming) = false ->
     cell_at (columns (merge base incoming)) c
             (row_nth (merge base incoming) (len base + j)) = Some (Text "")).
Proof.
  intros Hb Hi. split; [|split].
  - unfold merge. simpl. now apply dict_fromkeys_union.
  - intros i c Hlt Hc Hno. rewrite merge_row_base by assumption.
    rewrite cell_at_reindex_row by assumption.
    now rewrite (cell_at_absent _ _ _ Hno).
  - intros j c Hlt Hc Hno. rewrite merge_row_incoming by assumption.
    rewrite cell_at_reindex_row by assumption.
    now rewrite (cell_at_absent _ _ _ Hno).
Qed.

(** C8.  The merged frame has as many rows as the two frames together,
    labelled 0 .. N-1; its first rows are the rows of the base in their
    order and the following ones the rows of the incoming frame in theirs,
    each with the cells it had under its own columns. *)
Theorem merge_rows (base incoming : DataFrame) :
  len (merge base incoming) = (len base + len incoming)%nat /\
  index (merge base incoming) = range (len base + len incoming) /\
  (forall (i : nat) (c : string),
     (i < len base)%nat ->
     has_col c (columns base) = true ->
     cell_at (columns (merge base incoming)) c
             (row_nth (merge base incoming) i) =
     cell_at (columns base) c (row_nth base i)) /\
  (forall (j : nat) (c : string),
     (j < len incoming)%nat ->
     has_col c (columns incoming) = true ->
     cell_at (columns (merge base incoming)) c
             (row_nth (merge base incoming) (len base + j)) =
     cell_at (columns incoming) c (row_nth incoming j)).
Proof.
  split; [apply merge_len|]. split; [|split].
  - unfold index, merge, concat_ignore_index, reindex, len. simpl.
    rewrite relabel_range. now rewrite length_app, !length_map.
  - intros i c Hlt Hc. rewrite merge_row_base by assumption.
    rewrite cell_at_reindex_row.
    + destruct (cell_at_present _ _ (row_nth base i) Hc) as [x Hx].
      now rewrite Hx.
    + unfold merge. simpl. apply dict_fromkeys_has, in_or_app. left.
      now apply has_col_In.
  - intros j c Hlt Hc. rewrite merge_row_incoming by assumption.
    rewrite cell_at_reindex_row.
    + destruct (cell_at_present _ _ (row_nth incoming j) Hc) as [x Hx].
      now rewrite Hx.
    + unfold merge. simpl. apply dict_fromkeys_has, in_or_app. right.
      now apply has_col_In.
Qed.

(* ------------------------------------------------------------------ *)
(** ** Marking rows done *)

Lemma in_index_label (d : DataFrame) (r : Row) :
  In r (rows d) -> in_index (fst r) d = true.
Proof.
  intros H. unfold in_index, index. apply existsb_exists.
  exists (fst r). split; [now apply in_map | apply Z.eqb_refl].
Qed.

Lemma mark_rows_map (d : DataFrame) (col : string) (k : nat)
  (items : list string) :
  col_index col (columns d) = Some k ->
  mark_rows d col items =
  mkDF (columns d) (map (completed k items) (rows d)).
Proof.
  revert d. induction items as [|item rest IH]; intros d Hk.
  - destruct d as [cols rs]. simpl. f_equal.
    unfold completed, selected. simpl. now rewrite map_id.
  - simpl. destruct (PyStr.int item) as [idx|] eqn:Ei.
    + destruct (in_index idx d) eqn:Ein.
      * rewrite IH by (unfold at_set; now rewrite Hk).
        unfold at_set. rewrite Hk. simpl. f_equal. rewrite map_map.
        apply map_ext. intros r. unfold completed, selected. simpl.
        rewrite Ei. simpl.
        destruct (Z.eqb (fst r) idx) eqn:E; simpl; [|reflexivity].
        destruct (existsb (Z.eqb (fst r)) (selected_indices rest));
          [now rewrite set_nth_twice | reflexivity].
      * rewrite IH by assumption. f_equal. apply map_ext_in. intros r Hr.
        unfold completed, selected. simpl. rewrite Ei. simpl.
        destruct (Z.eqb (fst r) idx) eqn:E; [|reflexivity].
        apply Z.eqb_eq in E. subst idx.
        now rewrite (in_index_label d r Hr) in Ein.
    + rewrite IH by assumption. f_equal. apply map_ext. intros r.
      unfold completed, selected. simpl. now rewrite Ei.
Qed.

Lemma row_nth_map (d : DataFrame) (cols : list string) (f : Row -> Row)
  (i : nat) :
  (i < len d)%nat ->
  row_nth (mkDF cols (map f (rows d))) i = f (row_nth d i).
Proof.
  intros Hi. unfold row_nth. simpl.
  rewrite (nth_indep _ (0%Z, []) (f (0%Z, []))) by now rewrite length_map.
  apply map_nth.
Qed.

Lemma wf_row_nth (d : DataFrame) (i : nat) :
  wf d -> (i < len d)%nat ->
  List.length (snd (row_nth d i)) = List.length (columns d).
Proof.
  intros Hwf Hi. unfold wf in Hwf. rewrite Forall_forall in Hwf.
  apply Hwf. now apply nth_In.
Qed.

Lemma col_index_distinct (cols : list string) (c c' : string) (j k : nat) :
  col_index c cols = Some j -> col_index c' cols = Some k -> c <> c' ->
  j <> k.
Proof.
  intros Hj Hk Hne ->.
  destruct (col_index_spec _ _ _ Hj) as [_ H1].
  destruct (col_index_spec _ _ _ Hk) as [_ H2]. congruence.
Qed.

(* ------------------------------------------------------------------ *)
(** ** The recorded sources *)

Lemma nodup_snoc (l : list string) (p : string) :
  NoDup l -> existsb (String.eqb p) l = false -> NoDup (l ++ [p]).
Proof.
  intros Hl Hp. assert (Hnot : ~ In p l).
  { intros Hin. assert (existsb (String.eqb p) l = true); [|congruence].
    apply existsb_exists. exists p. split; [assumption | apply String.eqb_refl]. }
  clear Hp. induction Hl as [|x r Hx Hr IH]; simpl.
  - constructor; [tauto | constructor].
  - constructor.
    + intros Hin. apply in_app_or in Hin. destruct Hin as [Hin | [-> | []]].
      * contradiction.
      * apply Hnot. now left.
    + apply IH. intros Hin. apply Hnot. now right.
Qed.

Lemma update_viewer_once (app : MainApp) (i : nat) (v : PlannerViewer) :
  sources_once app -> NoDup (source_files v) ->
  sources_once (update_viewer app i v).
Proof.
  unfold sources_once, update_viewer. intros Happ Hv. revert i.
  induction Happ as [|x r Hx Hr IH]; intros [|i]; simpl; constructor; auto.
Qed.

Lemma close_viewer_once (app : MainApp) (i : nat) :
  sources_once app -> sources_once (_on_viewer_closed app i).
Proof.
  unfold sources_once. intros Happ. revert i.
  induction Happ as [|x r Hx Hr IH]; intros [|i]; simpl; auto.
Qed.

Lemma sources_once_nth (app : MainApp) (i : nat) (v : PlannerViewer) :
  sources_once app -> nth_error app i = Some v -> NoDup (source_files v).
Proof.
  unfold sources_once. intros Happ Hi. rewrite Forall_forall in Happ.
  apply Happ. now apply nth_error_In with i.
Qed.

(* ------------------------------------------------------------------ *)
(** * The engine *)

Section EngineFacts.

Context {W : World}.

(* ------------------------------------------------------------------ *)
(** ** The refresh *)

Lemma on_search_fields (v v' : PlannerViewer) :
  on_search v = Ok v' ->
  df v' = df v /\ source_files v' = source_files v /\
  search_var v' = search_var v /\ active_column v' = active_column v /\
  sort_col v' = sort_col v /\ sort_asc v' = sort_asc v /\ title v' = title v.
Proof.
  unfold on_search, bind. destruct (compute_filtered v); [|discriminate].
  intros H. injection H as <-. repeat split.
Qed.

Lemma on_search_fresh (v v' : PlannerViewer) :
  on_search v = Ok v' -> view_fresh v'.
Proof.
  unfold on_search, bind. destruct (compute_filtered v) as [f|] eqn:E;
    [|discriminate].
  intros H. injection H as <-. split.
  - exact E.
  - reflexivity.
Qed.

Lemma refresh_caught_df (v : PlannerViewer) :
  df (fst (refresh_caught v)) = df v /\
  source_files (fst (refresh_caught v)) = source_files v.
Proof.
  unfold refresh_caught. destruct (on_search v) as [v'|] eqn:E; simpl.
  - now destruct (on_search_fields _ _ E) as (-> & -> & _).
  - split; reflexivity.
Qed.

Lemma refresh_uncaught_df (v : PlannerViewer) :
  df (fst (refresh_uncaught v)) = df v /\
  source_files (fst (refresh_uncaught v)) = source_files v.
Proof.
  unfold refresh_uncaught. destruct (on_search v) as [v'|] eqn:E; simpl.
  - now destruct (on_search_fields _ _ E) as (-> & -> & _).
  - split; reflexivity.
Qed.

Lemma refresh_caught_silent (v : PlannerViewer) :
  snd (refresh_caught v) = Silent -> view_fresh (fst (refresh_caught v)).
Proof.
  unfold refresh_caught. destruct (on_search v) as [v'|] eqn:E; simpl.
  - intros _. now apply on_search_fresh with v.
  - discriminate.
Qed.

Lemma refresh_uncaught_silent (v : PlannerViewer) :
  snd (refresh_uncaught v) = Silent -> view_fresh (fst (refresh_uncaught v)).
Proof.
  unfold refresh_uncaught. destruct (on_search v) as [v'|] eqn:E; simpl.
  - intros _. now apply on_search_fresh with v.
  - discriminate.
Qed.

(** C3 as the code has it, on the frame [on_search] assigns to
    [filtered_df] (lines 159-167).  The term is lower-cased and stripped of
    surrounding white space.  When nothing is left, every row stays.
    Otherwise, with an active column and a term without special characters
    of regular expressions, the filter keeps the rows of the frame in their
    order, and a row whose cell under the active column is not missing is
    kept exactly when the lower-cased text of that cell contains the term.
    A refresh that ends without an error leaves that frame as the view. *)
Theorem on_search_active_column (v : PlannerViewer) :
  (PyStr.strip (PyStr.lower (search_var v)) = "" ->
   compute_filtered v = Ok (df v)) /\
  (forall (col : string) (k : nat),
     PyStr.strip (PyStr.lower (search_var v)) <> "" ->
     truthy (active_column v) = Some col ->
     col_index col (columns (df v)) = Some k ->
     Re.literal (PyStr.strip (PyStr.lower (search_var v))) = true ->
     exists keep : Row -> bool,
       compute_filtered v =
         Ok (mkDF (columns (df v)) (filter keep (rows (df v)))) /\
       forall r : Row,
         isna (key_at k r) = false ->
         keep r = PyStr.contains (PyStr.strip (PyStr.lower (search_var v)))
                    (PyStr.lower (display (key_at k r)))) /\
  (forall v' : PlannerViewer,
     on_search v = Ok v' -> compute_filtered v = Ok (filtered_df v')).
Proof.
  split; [|split].
  - intros Hq. unfold compute_filtered. now rewrite Hq.
  - intros col k Hq Hcol Hk Hlit.
    set (q := PyStr.strip (PyStr.lower (search_var v))) in *.
    exists (fun r => Re.search q (PyStr.lower (astype_str (key_at k r)))).
    unfold compute_filtered. fold q.
    destruct (String.eqb q "") eqn:E; [apply String.eqb_eq in E; contradiction|].
    rewrite Hcol, Hk. unfold str_contains, re_compile.
    rewrite (literal_simple _ Hlit). simpl.
    rewrite map_map.
    rewrite (boolean_index_map (df v)
               (fun r => Re.search q (PyStr.lower (astype_str (key_at k r))))).
    split; [reflexivity|].
    intros r Hr. rewrite (literal_search _ _ Hlit).
    unfold display. now rewrite Hr.
  - intros v'. unfold on_search, bind.
    destruct (compute_filtered v) as [f|]; [|discriminate].
    intros H. injection H as <-. reflexivity.
Qed.

(** C5 as the code has it.  Each of the three mutations ends with the
    refresh: when the call ends without an error, the filtered frame and
    the tree of the viewer it leaves are the ones computed from the mutated
    data, and an added row is already counted. *)
Theorem mutation_refreshes_view (v : PlannerViewer) :
  (forall entries : list (string * string),
     snd (_on_add_task_confirm v entries) = Silent ->
     view_fresh (fst (_on_add_task_confirm v entries)) /\
     len (df (fst (_on_add_task_confirm v entries))) = S (len (df v))) /\
  (forall sel : list string,
     sel <> [] ->
     snd (mark_selected_done v sel) = Silent ->
     view_fresh (fst (mark_selected_done v sel))) /\
  (forall sel : list string,
     selected_indices sel <> [] ->
     snd (delete_selected v sel true) = Silent ->
     view_fresh (fst (delete_selected v sel true))).
Proof.
  split; [|split].
  - intros entries Hs. split; [now apply refresh_uncaught_silent|].
    unfold _on_add_task_confirm.
    match goal with |- len (df (fst (refresh_uncaught ?w))) = _ =>
      rewrite (proj1 (refresh_uncaught_df w)) end.
    unfold len. simpl. rewrite relabel_length, relabel_length, length_app.
    simpl. lia.
  - intros sel Hsel. unfold mark_selected_done.
    destruct sel as [|s l]; [congruence|].
    destruct (find_status_col (df v)) as [c d1].
    apply refresh_caught_silent.
  - intros sel Hsel. unfold delete_selected.
    destruct sel as [|s l]; [simpl in Hsel; congruence|].
    simpl negb. cbv iota.
    destruct (selected_indices (s :: l)) as [|i is_]; [congruence|].
    destruct (drop (df v) (i :: is_)); [|discriminate].
    apply refresh_caught_silent.
Qed.

(* ------------------------------------------------------------------ *)
(** ** Restoring a session *)

Lemma first_loadable_found (pre post : list string) (s : string)
  (d : DataFrame) :
  Forall (fun x => load_excel x = None) pre ->
  load_excel s = Some d ->
  first_loadable (pre ++ s :: post) = Some (s, d).
Proof.
  unfold first_loadable. induction 1 as [|x pre' Hx Hpre IH]; simpl; intros Hs.
  - now rewrite Hs; simpl; rewrite Hs.
  - rewrite Hx. now apply IH.
Qed.

Lemma first_loadable_none (l : list string) :
  Forall (fun x => load_excel x = None) l -> first_loadable l = None.
Proof.
  unfold first_loadable. induction 1 as [|x l' Hx Hl IH]; simpl.
  - reflexivity.
  - rewrite Hx. exact IH.
Qed.

Lemma load_sources_first (app : MainApp) (sources : list string) :
  load_sources app sources =
  app ++ match first_loadable sources with
         | Some (s, d) => [PlannerViewer_init d (basename s) None]
         | None => []
         end.
Proof.
  unfold first_loadable. induction sources as [|s rest IH]; simpl.
  - now rewrite app_nil_r.
  - destruct (load_excel s) as [d|] eqn:E; simpl.
    + now rewrite E.
    + exact IH.
Qed.

Lemma load_session_restored (app : MainApp) (session : list SessionItem) :
  load_session app session = app ++ flat_map restored_entry session.
Proof.
  revert app. induction session as [|item rest IH]; simpl; intros app.
  - now rewrite app_nil_r.
  - rewrite IH, load_sources_first, <- app_assoc. reflexivity.
Qed.

Lemma restored_entry_shown (item : SessionItem) :
  map shown (restored_entry item) = restored_plan item.
Proof.
  unfold restored_entry, restored_plan.
  now destruct (first_loadable _) as [[s d]|].
Qed.

(** C1 as the code has it.  Restoring a session adds, entry by entry, at
    most one window: the frame of the first source of the entry that loads,
    shown unfiltered under that source's base name.  The sources before it
    that fail are skipped, the sources after it are neither loaded nor
    merged, and an entry none of whose sources loads adds nothing while the
    other entries are still restored. *)
Theorem load_session_first_loadable (app : MainApp)
  (session : list SessionItem) :
  map shown (load_session app session) =
  map shown app ++ flat_map restored_plan session /\
  (forall (item : SessionItem) (pre post : list string) (s : string)
          (d : DataFrame),
     item_sources item = Some (pre ++ s :: post) ->
     Forall (fun x => load_excel x = None) pre ->
     load_excel s = Some d ->
     restored_plan item = [(basename s, d, d)]) /\
  (forall (item : SessionItem) (l : list string),
     item_sources item = Some l ->
     Forall (fun x => load_excel x = None) l ->
     restored_plan item = []).
Proof.
  split; [|split].
  - rewrite load_session_restored, map_app. f_equal.
    induction session as [|item rest IH]; simpl; [reflexivity|].
    now rewrite map_app, IH, restored_entry_shown.
  - intros item pre post s d Hsrc Hpre Hs. unfold restored_plan.
    now rewrite Hsrc, (first_loadable_found pre post s d Hpre Hs).
  - intros item l Hsrc Hl. unfold restored_plan.
    now rewrite Hsrc, (first_loadable_none l Hl).
Qed.

(* ------------------------------------------------------------------ *)
(** ** The callbacks on selected rows *)

(** C4 as the code has it.  A selected iid that is no integer or labels no
    row of the frame is passed over: when every selected iid is such, no
    cell is set (the frame is the one the search for the status column
    leaves, the viewer's own frame when it has a status column), the
    column that would be written is a column of that frame, and the only
    error the call can show is one raised by the refresh. *)
Theorem mark_selected_done_skips_stale (v : PlannerViewer)
  (sel : list string) :
  sel <> [] ->
  Forall (stale (df v)) sel ->
  df (fst (mark_selected_done v sel)) = snd (find_status_col (df v)) /\
  (forall c, find status_like (columns (df v)) = Some c ->
             df (fst (mark_selected_done v sel)) = df v) /\
  has_col (fst (find_status_col (df v)))
          (columns (snd (find_status_col (df v)))) = true /\
  (snd (mark_selected_done v sel) = Silent \/
   exists e, snd (mark_selected_done v sel) = ErrorBox e /\
             on_search (set_df v (snd (find_status_col (df v)))) = Raise e).
Proof.
  intros Hsel Hstale.
  assert (Hstale' : Forall (stale (snd (find_status_col (df v)))) sel).
  { eapply Forall_impl; [|exact Hstale]. intros item. unfold stale, in_index.
    now rewrite find_status_col_index. }
  assert (Hcall : mark_selected_done v sel =
                  refresh_caught (set_df v (snd (find_status_col (df v))))).
  { unfold mark_selected_done. destruct sel as [|s l]; [congruence|].
    destruct (find_status_col (df v)) as [c d1] eqn:E.
    change (snd (c, d1)) with d1 in *.
    now rewrite (mark_rows_stale d1 c (s :: l) Hstale'). }
  rewrite Hcall. repeat split.
  - apply refresh_caught_df.
  - intros c Hc. rewrite (proj1 (refresh_caught_df _)). simpl.
    unfold find_status_col. now rewrite Hc.
  - apply find_status_col_has.
  - unfold refresh_caught.
    destruct (on_search (set_df v (snd (find_status_col (df v))))) as [v'|e];
      simpl; [now left | right; now exists e].
Qed.

(** C6 as the code has it.  With at least one selected iid that is an
    integer and the deletion confirmed: when every such integer labels a
    row, the rows so labelled are removed and the others keep their cells
    and their relative order under the labels 0 .. N-1; when one of them
    labels no row, nothing is removed and the [KeyError] is shown. *)
Theorem delete_selected_compacts (v : PlannerViewer) (sel : list string) :
  selected_indices sel <> [] ->
  (forallb (fun i => in_index i (df v)) (selected_indices sel) = true ->
   columns (df (fst (delete_selected v sel true))) = columns (df v) /\
   map snd (rows (df (fst (delete_selected v sel true)))) =
     map snd (filter (fun r : Row =>
                        negb (existsb (Z.eqb (fst r)) (selected_indices sel)))
                     (rows (df v))) /\
   index (df (fst (delete_selected v sel true))) =
     range (len (df (fst (delete_selected v sel true))))) /\
  (forallb (fun i => in_index i (df v)) (selected_indices sel) = false ->
   delete_selected v sel true = (v, ErrorBox KeyError)).
Proof.
  intros Hidx.
  assert (Hcall : delete_selected v sel true =
                  match drop (df v) (selected_indices sel) with
                  | Raise e => (v, ErrorBox e)
                  | Ok d => refresh_caught (set_df v (reset_index d))
                  end).
  { unfold delete_selected. destruct sel as [|s l]; [now elim Hidx|].
    destruct (selected_indices (s :: l)) as [|i is_]; [now elim Hidx|].
    reflexivity. }
  rewrite Hcall. unfold drop. split; intros Hall; rewrite Hall; [|reflexivity].
  rewrite (proj1 (refresh_caught_df _)).
  unfold set_df, reset_index, index, len. cbn [df columns rows].
  repeat split.
  - apply relabel_cells.
  - rewrite relabel_length. apply relabel_range.
Qed.

Lemma status_like_names (c : string) :
  status_like c = true <->
  PyStr.lower c = "status" \/ PyStr.lower c = "state" \/
  PyStr.lower c = "progress".
Proof.
  unfold status_like. cbn [existsb]. rewrite !orb_true_iff, !String.eqb_eq.
  split.
  - intros [H | [H | [H | H]]]; [now left | now right; left | now right; right
                                 | discriminate].
  - intros [H | [H | H]]; [now left | now right; left | now right; right; left].
Qed.

Lemma status_like_other (c : string) :
  status_like c = false ->
  PyStr.lower c <> "status" /\ PyStr.lower c <> "state" /\
  PyStr.lower c <> "progress".
Proof.
  intros H.
  assert (Hn : ~ (PyStr.lower c = "status" \/ PyStr.lower c = "state" \/
                  PyStr.lower c = "progress")).
  { intros Hc. apply status_like_names in Hc. congruence. }
  split; [|split]; intros Hc; apply Hn;
    [now left | now right; left | now right; right].
Qed.

(** C9.  With a selection, [mark_selected_done] writes into the first
    column, in column order, whose lower-cased label is [status], [state]
    or [progress]; when there is none, a column labelled [Status] is put
    after the others, holding the empty string in every row.  In a frame of
    full rows, each row whose label is selected then holds [Completed] in
    that column, each other row keeps what it had there (the empty string
    under a new column), and no other column of any row changes. *)
Theorem mark_selected_done_status (v : PlannerViewer) (sel : list string) :
  sel <> [] ->
  wf (df v) ->
  exists (col : string) (k : nat),
    col_index col (columns (df (fst (mark_selected_done v sel)))) = Some k /\
    ((exists pre post,
        columns (df v) = pre ++ col :: post /\
        (PyStr.lower col = "status" \/ PyStr.lower col = "state" \/
         PyStr.lower col = "progress") /\
        Forall (fun c => PyStr.lower c <> "status" /\
                         PyStr.lower c <> "state" /\
                         PyStr.lower c <> "progress") pre /\
        columns (df (fst (mark_selected_done v sel))) = columns (df v)) \/
     (Forall (fun c => PyStr.lower c <> "status" /\
                       PyStr.lower c <> "state" /\
                       PyStr.lower c <> "progress") (columns (df v)) /\
      col = "Status" /\
      columns (df (fst (mark_selected_done v sel))) =
        columns (df v) ++ ["Status"])) /\
    index (df (fst (mark_selected_done v sel))) = index (df v) /\
    forall i : nat,
      (i < len (df v))%nat ->
      key_at k (row_nth (df (fst (mark_selected_done v sel))) i) =
        (if selected sel (row_nth (df v) i) then Text "Completed"
         else match cell_at (columns (df v)) col (row_nth (df v) i) with
              | Some old => old
              | None => Text ""
              end) /\
      forall (c : string) (j : nat),
        col_index c (columns (df v)) = Some j -> c <> col ->
        cell_at (columns (df (fst (mark_selected_done v sel)))) c
                (row_nth (df (fst (mark_selected_done v sel))) i) =
        cell_at (columns (df v)) c (row_nth (df v) i).
Proof.
  intros Hsel Hwf.
  assert (Hcall : df (fst (mark_selected_done v sel)) =
                  mark_rows (snd (find_status_col (df v)))
                            (fst (find_status_col (df v))) sel).
  { unfold mark_selected_done. destruct sel as [|s l]; [congruence|].
    destruct (find_status_col (df v)) as [c d1].
    now rewrite (proj1 (refresh_caught_df _)). }
  rewrite Hcall. clear Hcall.
  unfold find_status_col.
  destruct (find status_like (columns (df v))) as [col|] eqn:Efind; simpl.
  - (* an existing status column *)
    destruct (find_first _ _ _ Efind) as (pre & post & Hcols & Hlike & Hpre).
    assert (Hhas : has_col col (columns (df v)) = true).
    { apply has_col_In. now apply find_some in Efind. }
    destruct (col_index_has_col _ _ Hhas) as [k Hk].
    exists col, k. rewrite (mark_rows_map _ _ _ _ Hk). simpl.
    split; [assumption|]. split.
    { left. exists pre, post. split; [assumption|].
      split; [now apply status_like_names|]. split; [|reflexivity].
      eapply Forall_impl; [|exact Hpre]. exact status_like_other. }
    split.
    { unfold index. simpl. rewrite map_map. apply map_ext. intros r.
      unfold completed. now destruct (selected sel r). }
    intros i Hi.
    rewrite !(row_nth_map (df v) _ (completed k sel) i Hi).
    pose proof (wf_row_nth _ _ Hwf Hi) as Hlen.
    destruct (col_index_spec _ _ _ Hk) as [Hklt _].
    unfold completed.
    destruct (selected sel (row_nth (df v) i)) eqn:Es; split.
    + unfold key_at. simpl. apply set_nth_same. lia.
    + intros c j Hj Hne. unfold cell_at. rewrite Hj. simpl.
      now rewrite set_nth_other by (eapply col_index_distinct; eauto).
    + unfold cell_at. now rewrite Hk.
    + reflexivity.
  - (* no status column: a new one *)
    pose proof (no_status_column _ Efind) as Hno.
    assert (Hk : col_index "Status"
                   (columns (setitem (df v) "Status" (Text ""))) =
                 Some (List.length (columns (df v)))).
    { unfold setitem. rewrite (col_index_none _ _ Hno). simpl.
      now apply col_index_app_new. }
    assert (Hnames : Forall (fun c => PyStr.lower c <> "status" /\
                                      PyStr.lower c <> "state" /\
                                      PyStr.lower c <> "progress")
                            (columns (df v))).
    { eapply Forall_impl; [|exact (find_none_forall _ _ Efind)].
      exact status_like_other. }
    exists "Status", (List.length (columns (df v))).
    rewrite (mark_rows_map _ _ _ _ Hk).
    unfold setitem in *. rewrite (col_index_none _ _ Hno) in *. simpl in *.
    split; [assumption|]. split.
    { right. split; [exact Hnames | now split]. }
    split.
    { unfold index. cbn [rows]. rewrite !map_map. apply map_ext. intros r.
      unfold completed. now destruct (selected sel _). }
    intros i Hi. rewrite map_map.
    rewrite !(row_nth_map (df v) _
                (fun r => completed (List.length (columns (df v))) sel
                            (fst r, snd r ++ [Text ""])) i Hi).
    pose proof (wf_row_nth _ _ Hwf Hi) as Hlen.
    rewrite (cell_at_absent _ _ _ Hno).
    unfold completed, selected. simpl. fold (selected sel (row_nth (df v) i)).
    destruct (selected sel (row_nth (df v) i)) eqn:Es; split.
    + unfold key_at. simpl. apply set_nth_same. rewrite length_app. simpl. lia.
    + intros c j Hj Hne. unfold cell_at.
      rewrite (col_index_app_old _ _ ["Status"] _ Hj), Hj. simpl.
      destruct (col_index_spec _ _ _ Hj) as [Hjlt _].
      rewrite set_nth_other by lia. f_equal. apply app_nth1. lia.
    + unfold key_at. simpl. rewrite app_nth2 by lia.
      rewrite Hlen, Nat.sub_diag. reflexivity.
    + intros c j Hj Hne. unfold cell_at.
      rewrite (col_index_app_old _ _ ["Status"] _ Hj), Hj. simpl.
      destruct (col_index_spec _ _ _ Hj) as [Hjlt _].
      f_equal. apply app_nth1. lia.
Qed.

(* ------------------------------------------------------------------ *)
(** ** The recorded sources *)

Lemma merge_into_viewer_sources (v : PlannerViewer) (d : DataFrame)
  (p : string) :
  NoDup (source_files v) ->
  NoDup (source_files (fst (_merge_into_viewer v d p))).
Proof.
  intros Hnd. unfold _merge_into_viewer.
  destruct (on_search (set_df v (merge (df v) d))) as [v2|e] eqn:E; simpl.
  - destruct (on_search_fields _ _ E) as (_ & Hs & _). simpl in Hs.
    destruct (existsb (String.eqb p) (source_files v2)) eqn:Ep; simpl.
    + now rewrite Hs.
    + rewrite Hs in *. now apply nodup_snoc.
  - assumption.
Qed.

Lemma merge_into_viewer_len (v : PlannerViewer) (d : DataFrame) (p : string) :
  len (df (fst (_merge_into_viewer v d p))) = (len (df v) + len d)%nat.
Proof.
  unfold _merge_into_viewer.
  destruct (on_search (set_df v (merge (df v) d))) as [v2|e] eqn:E; simpl.
  - destruct (on_search_fields _ _ E) as (Hd & _). simpl in Hd.
    destruct (existsb (String.eqb p) (source_files v2)); simpl;
      rewrite Hd; apply merge_len.
  - apply merge_len.
Qed.

(** A callback of a viewer leaves its source list alone. *)
Lemma viewer_step_sources (v v' : PlannerViewer) :
  viewer_step v v' -> source_files v' = source_files v.
Proof.
  intros H. destruct H.
  - now rewrite (proj2 (refresh_uncaught_df _)).
  - unfold on_column_click. rewrite (proj2 (refresh_uncaught_df _)).
    destruct (active_column v) as [c|]; [destruct (String.eqb c col)|];
      reflexivity.
  - unfold _on_tree_double_click.
    destruct (sort_col v) as [c|]; [destruct (String.eqb c col)|];
      reflexivity.
  - reflexivity.
  - unfold _on_add_task_confirm. now rewrite (proj2 (refresh_uncaught_df _)).
  - unfold mark_selected_done. destruct sel as [|s l]; [reflexivity|].
    destruct (find_status_col (df v)) as [c d1].
    now rewrite (proj2 (refresh_caught_df _)).
  - unfold delete_selected. destruct sel as [|s l]; [reflexivity|].
    destruct (negb yes); [reflexivity|].
    destruct (selected_indices (s :: l)) as [|i is_]; [reflexivity|].
    destruct (drop (df v) (i :: is_)); [|reflexivity].
    now rewrite (proj2 (refresh_caught_df _)).
Qed.

Lemma app_step_once (app app' : MainApp) :
  sources_once app -> app_step app app' -> sources_once app'.
Proof.
  intros Happ Hstep. destruct Hstep.
  - (* add_new_plan *)
    unfold add_new_plan. destruct (String.eqb path ""); [assumption|].
    destruct (load_excel path) as [d|]; [|assumption].
    assert (Hopen : sources_once
              (_open_new_viewer app d (after_last "\" path) (Some [path]))).
    { unfold _open_new_viewer, sources_once. apply Forall_app. split;
        [assumption|]. constructor; [|constructor]. simpl.
      constructor; [tauto | constructor]. }
    destruct app as [|v0 rest]; [assumption|].
    destruct choice as [[i|]| |]; try assumption.
    destruct (nth_error (v0 :: rest) i) as [target|] eqn:E; [|assumption].
    apply update_viewer_once; [assumption|].
    apply merge_into_viewer_sources. now apply sources_once_nth with (v0 :: rest) i.
  - (* load_session *)
    rewrite (load_session_restored app session).
    unfold sources_once. apply Forall_app. split; [assumption|].
    apply Forall_forall. intros v Hv. apply in_flat_map in Hv.
    destruct Hv as [item [_ Hv]]. unfold restored_entry in Hv.
    destruct (first_loadable _) as [[s d]|]; simpl in Hv; [|tauto].
    destruct Hv as [<- | []]. simpl. constructor.
  - (* a callback of one viewer *)
    apply update_viewer_once; [assumption|].
    rewrite (viewer_step_sources _ _ H0).
    now apply sources_once_nth with app i.
  - now apply close_viewer_once.
Qed.

Lemma reachable_once (app : MainApp) : reachable app -> sources_once app.
Proof.
  induction 1 as [|app app' Hr IH Hstep].
  - constructor.
  - now apply app_step_once with app.
Qed.

Lemma merge_times_sources (n : nat) (v : PlannerViewer) (d : DataFrame)
  (p : string) :
  NoDup (source_files v) ->
  NoDup (source_files (merge_times n v d p)) /\
  len (df (merge_times n v d p)) = (len (df v) + n * len d)%nat.
Proof.
  revert v. induction n as [|n IH]; simpl; intros v Hv.
  - split; [assumption | lia].
  - destruct (IH _ (merge_into_viewer_sources v d p Hv)) as [H1 H2].
    split; [assumption|]. rewrite H2, merge_into_viewer_len. lia.
Qed.

(** C10.  In every state the application reaches, no viewer's source list
    holds a path twice, so each entry [save_session] writes lists each of
    its sources once; and merging one file [n] times into a viewer of such
    a state leaves the path at most once in the list, while the frame grows
    by the file's rows each time. *)
Theorem source_files_recorded_once (app : MainApp) :
  reachable app ->
  sources_once app /\
  Forall (fun item => exists l, item_sources item = Some l /\ NoDup l)
         (save_session app) /\
  forall (i n : nat) (v : PlannerViewer) (d : DataFrame) (p : string),
    nth_error app i = Some v ->
    NoDup (source_files (merge_times n v d p)) /\
    (count_occ string_dec (source_files (merge_times n v d p)) p <= 1)%nat /\
    len (df (merge_times n v d p)) = (len (df v) + n * len d)%nat.
Proof.
  intros Hreach. pose proof (reachable_once app Hreach) as Honce.
  split; [assumption|]. split.
  - unfold save_session. apply Forall_forall. intros item Hin.
    apply in_map_iff in Hin. destruct Hin as [v [<- Hv]]. simpl.
    exists (source_files v). split; [reflexivity|].
    unfold sources_once in Honce. rewrite Forall_forall in Honce. auto.
  - intros i n v d p Hi.
    pose proof (sources_once_nth app i v Honce Hi) as Hv.
    destruct (merge_times_sources n v d p Hv) as [H1 H2].
    split; [assumption|]. split; [|assumption].
    now apply (proj1 (NoDup_count_occ string_dec _)).
Qed.

End EngineFacts.

(* ================================================================== *)
(** * Further properties of the code *)

(* ------------------------------------------------------------------ *)
(** ** The display order *)

Lemma filter_split_perm {A : Type} (f : A -> bool) (l : list A) :
  Permutation (filter (fun x => negb (f x)) l ++ filter f l) l.
Proof.
  induction l as [|x r IH]; simpl; [constructor|].
  destruct (f x); simpl.
  - eapply perm_trans; [apply Permutation_sym, Permutation_middle|].
    now apply perm_skip.
  - now apply perm_skip.
Qed.

Lemma sort_values_perm (d d' : DataFrame) (c : string) (asc : bool) :
  sort_values d c asc = Ok d' ->
  columns d' = columns d /\ Permutation (rows d') (rows d).
Proof.
  unfold sort_values. destruct (col_index c (columns d)) as [k|]; [|discriminate].
  destruct (comparable _); [|discriminate].
  intros H. injection H as <-. simpl. split; [reflexivity|].
  eapply perm_trans; [|apply (filter_split_perm (fun r => isna (key_at k r)))].
  apply Permutation_app_tail. destruct asc.
  - apply stable_sort_perm.
  - eapply perm_trans; [apply Permutation_sym, Permutation_rev|].
    eapply perm_trans; [apply stable_sort_perm|].
    apply Permutation_sym, Permutation_rev.
Qed.

Lemma df_to_show_perm (v : PlannerViewer) (d : DataFrame) :
  columns (df_to_show v d) = columns d /\
  Permutation (rows (df_to_show v d)) (rows d).
Proof.
  unfold df_to_show. destruct (truthy (sort_col v)) as [c|]; [|now split].
  destruct (has_col c (columns d)); [|now split].
  destruct (sort_values d c (sort_asc v)) as [s|e] eqn:E; [|now split].
  now apply sort_values_perm with c (sort_asc v).
Qed.

(** X1.  Whatever the sort column and direction, and also when the sort
    raises, [populate_tree] shows each row of the frame it is given once:
    the items of the tree are the items of the rows, in some order. *)
Theorem populate_tree_shows_every_row (v : PlannerViewer) (d : DataFrame) :
  Permutation (tree (populate_tree v d)) (tree_items d) /\
  List.length (tree (populate_tree v d)) = len d.
Proof.
  assert (H : Permutation (tree (populate_tree v d)) (tree_items d)).
  { unfold populate_tree, tree_items. simpl. apply Permutation_map.
    apply df_to_show_perm. }
  split; [exact H|].
  rewrite (Permutation_length H). unfold tree_items, len. apply length_map.
Qed.

Section StableFacts.

Context {A : Type} (le : A -> A -> bool) (p : A -> bool).
Hypothesis same_class : forall x y, p x = true -> p y = true -> le x y = true.

Lemma filter_insert_sorted (x : A) (l : list A) :
  filter p (insert_sorted le x l) = filter p (x :: l).
Proof using same_class.
  induction l as [|y r IH]; simpl; [reflexivity|].
  destruct (le x y) eqn:E; simpl; [reflexivity|].
  simpl in IH. rewrite IH.
  destruct (p x) eqn:Px, (p y) eqn:Py; try reflexivity.
  rewrite (same_class x y Px Py) in E. discriminate.
Qed.

Lemma filter_stable_sort (l : list A) :
  filter p (stable_sort le l) = filter p l.
Proof using same_class.
  induction l as [|x r IH]; simpl; [reflexivity|].
  rewrite filter_insert_sorted. simpl. now rewrite IH.
Qed.

End StableFacts.

Lemma cell_eqb_eq (a b : Cell) : cell_eqb a b = true <-> a = b.
Proof.
  destruct a, b; simpl; split; intros H; try discriminate; try reflexivity.
  - apply String.eqb_eq in H. now subst.
  - injection H as ->. apply String.eqb_refl.
  - apply Z.eqb_eq in H. now subst.
  - injection H as ->. apply Z.eqb_refl.
Qed.

Lemma string_leb_refl (s : string) : String.leb s s = true.
Proof. destruct (String.leb_total s s); assumption. Qed.

Lemma cell_leb_refl (a : Cell) : cell_leb a a = true.
Proof.
  destruct a; simpl; [apply string_leb_refl | apply Z.leb_refl | reflexivity].
Qed.

Lemma filter_two {A : Type} (f g : A -> bool) (l : list A) :
  (forall x, g x = true -> f x = true) ->
  filter g (filter f l) = filter g l.
Proof.
  intros H. induction l as [|x r IH]; simpl; [reflexivity|].
  destruct (f x) eqn:F; simpl.
  - now rewrite IH.
  - destruct (g x) eqn:G; [|exact IH]. rewrite (H x G) in F. discriminate.
Qed.

Lemma filter_none {A : Type} (f g : A -> bool) (l : list A) :
  (forall x, g x = true -> f x = false) ->
  filter g (filter f l) = [].
Proof.
  intros H. induction l as [|x r IH]; simpl; [reflexivity|].
  destruct (f x) eqn:F; simpl; [|exact IH].
  destruct (g x) eqn:G; [|exact IH]. rewrite (H x G) in F. discriminate.
Qed.

Lemma sort_values_ties (d d' : DataFrame) (c : string) (asc : bool) (k : nat)
  (x : Cell) :
  col_index c (columns d) = Some k ->
  sort_values d c asc = Ok d' ->
  filter (fun r => cell_eqb (key_at k r) x) (rows d') =
  filter (fun r => cell_eqb (key_at k r) x) (rows d).
Proof.
  intros Hk. unfold sort_values. rewrite Hk.
  destruct (comparable _); [|discriminate].
  intros H. injection H as <-. simpl. rewrite filter_app.
  set (same := fun r : Row => cell_eqb (key_at k r) x).
  assert (Hclass : forall a b : Row,
            same a = true -> same b = true -> row_leb k a b = true).
  { unfold same, row_leb. intros a b Ha Hb.
    apply cell_eqb_eq in Ha. apply cell_eqb_eq in Hb. rewrite Ha, Hb.
    apply cell_leb_refl. }
  assert (Hsorted : forall l : list Row,
            filter same (if asc then stable_sort (row_leb k) l
                         else rev (stable_sort (row_leb k) (rev l))) =
            filter same l).
  { intros l. destruct asc.
    - now apply filter_stable_sort.
    - rewrite filter_rev, (filter_stable_sort _ _ Hclass), filter_rev.
      apply rev_involutive. }
  rewrite Hsorted. destruct (isna x) eqn:Ex.
  - rewrite filter_none, filter_two; [reflexivity| |].
    + intros r Hr. apply cell_eqb_eq in Hr. now rewrite Hr.
    + intros r Hr. apply cell_eqb_eq in Hr. now rewrite Hr, Ex.
  - rewrite filter_two, filter_none; [apply app_nil_r| |].
    + intros r Hr. apply cell_eqb_eq in Hr. now rewrite Hr.
    + intros r Hr. apply cell_eqb_eq in Hr. now rewrite Hr, Ex.
Qed.

(** X2.  The sort is stable in both directions: with a sort column that
    is a column of the frame, at position [k], the rows that hold one and
    the same cell under it (the rows with a missing cell among them) are
    shown in the relative order they have in the frame. *)
Theorem df_to_show_keeps_ties (v : PlannerViewer) (d : DataFrame)
  (c : string) (k : nat) (x : Cell) :
  truthy (sort_col v) = Some c ->
  col_index c (columns d) = Some k ->
  filter (fun r => cell_eqb (key_at k r) x) (rows (df_to_show v d)) =
  filter (fun r => cell_eqb (key_at k r) x) (rows d).
Proof.
  intros Hc Hk. unfold df_to_show. rewrite Hc.
  destruct (has_col c (columns d)); [|reflexivity].
  destruct (sort_values d c (sort_asc v)) as [s|e] eqn:E; [|reflexivity].
  now apply sort_values_ties with c (sort_asc v).
Qed.

(* ------------------------------------------------------------------ *)
(** ** Ascending and descending *)

Lemma ascii_compare_trans (a b c : ascii) (o : comparison) :
  Ascii.compare a b = o -> Ascii.compare b c = o -> o <> Eq ->
  Ascii.compare a c = o.
Proof.
  unfold Ascii.compare. destruct o; intros H1 H2 Hne; [now elim Hne| |].
  - apply N.compare_lt_iff in H1. apply N.compare_lt_iff in H2.
    apply N.compare_lt_iff. now apply N.lt_trans with (N_of_ascii b).
  - apply N.compare_gt_iff in H1. apply N.compare_gt_iff in H2.
    apply N.compare_gt_iff. now apply N.lt_trans with (N_of_ascii b).
Qed.

Lemma string_leb_trans (s1 s2 s3 : string) :
  String.leb s1 s2 = true -> String.leb s2 s3 = true ->
  String.leb s1 s3 = true.
Proof.
  unfold String.leb. revert s2 s3.
  induction s1 as [|a s1' IH]; intros [|b s2'] [|c s3']; simpl;
    try reflexivity; try discriminate.
  destruct (Ascii.compare a b) eqn:Eab; try discriminate;
    destruct (Ascii.compare b c) eqn:Ebc; try discriminate; intros H1 H2.
  - apply Ascii.compare_eq_iff in Eab, Ebc. subst.
    assert (Hcc : Ascii.compare c c = Eq) by apply N.compare_refl.
    rewrite Hcc. now apply IH with s2'.
  - apply Ascii.compare_eq_iff in Eab. subst. now rewrite Ebc.
  - apply Ascii.compare_eq_iff in Ebc. subst. now rewrite Eab.
  - now rewrite (ascii_compare_trans a b c Lt Eab Ebc) by discriminate.
Qed.

Lemma sorted_head_least {A : Type} (R : A -> A -> Prop) (a : A) (l : list A) :
  (forall x y z, In x (a :: l) -> In y (a :: l) -> In z (a :: l) ->
                 R x y -> R y z -> R x z) ->
  Sorted R (a :: l) -> forall x, In x l -> R a x.
Proof.
  revert a. induction l as [|b r IH]; intros a Htr Hs x Hx; [destruct Hx|].
  inversion Hs as [|? ? Hs' Hd]; subst. inversion Hd as [|? ? Hab]; subst.
  destruct Hx as [<- | Hx]; [exact Hab|].
  apply Htr with b; simpl; auto.
  apply IH; [|exact Hs' | exact Hx].
  intros u w z Hu Hw Hz. apply Htr; simpl; auto.
Qed.

Lemma sorted_perm_unique {A : Type} (R : A -> A -> Prop) (l1 l2 : list A) :
  (forall x y z, In x l1 -> In y l1 -> In z l1 -> R x y -> R y z -> R x z) ->
  (forall x y, In x l1 -> In y l1 -> R x y -> R y x -> x = y) ->
  Sorted R l1 -> Sorted R l2 -> Permutation l1 l2 -> l1 = l2.
Proof.
  revert l2. induction l1 as [|a l1' IH]; intros l2 Htr Has Hs1 Hs2 Hp.
  - now apply Permutation_nil in Hp.
  - destruct l2 as [|b l2'].
    { apply Permutation_sym, Permutation_nil in Hp. discriminate. }
    assert (Hin2 : forall x, In x (b :: l2') -> In x (a :: l1')).
    { intros x Hx. now apply (Permutation_in _ (Permutation_sym Hp)). }
    assert (Hab : a = b).
    { assert (Hb : In b (a :: l1')) by (apply Hin2; now left).
      assert (Ha : In a (b :: l2')) by (apply (Permutation_in _ Hp); now left).
      destruct Hb as [Hb | Hb]; [exact Hb|].
      destruct Ha as [Ha | Ha]; [now symmetry|].
      apply Has; simpl; auto.
      - now apply (sorted_head_least R a l1' Htr Hs1).
      - apply (sorted_head_least R b l2'); [|exact Hs2 | exact Ha].
        intros x y z Hx Hy Hz. apply Htr; now apply Hin2. }
    subst b. f_equal. apply IH.
    + intros x y z Hx Hy Hz. apply Htr; simpl; auto.
    + intros x y Hx Hy. apply Has; simpl; auto.
    + now inversion Hs1.
    + now inversion Hs2.
    + now apply Permutation_cons_inv with a.
Qed.

Lemma cell_leb_trans (a b c : Cell) :
  (is_text a = true /\ is_text b = true /\ is_text c = true) \/
  (is_num a = true /\ is_num b = true /\ is_num c = true) ->
  cell_leb a b = true -> cell_leb b c = true -> cell_leb a c = true.
Proof.
  destruct a, b, c; simpl; intros [[? [? ?]] | [? [? ?]]]; try discriminate.
  - apply string_leb_trans.
  - intros Hab Hbc. apply Z.leb_le in Hab. apply Z.leb_le in Hbc.
    apply Z.leb_le. lia.
Qed.

Lemma cell_leb_antisym (a b : Cell) :
  (is_text a = true /\ is_text b = true) \/
  (is_num a = true /\ is_num b = true) ->
  cell_leb a b = true -> cell_leb b a = true -> a = b.
Proof.
  destruct a, b; simpl; intros [[? ?] | [? ?]]; try discriminate.
  - intros Hab Hba. f_equal. now apply String.leb_antisym.
  - intros Hab Hba. apply Z.leb_le in Hab. apply Z.leb_le in Hba.
    f_equal. lia.
Qed.

Lemma comparable_kind (l : list Cell) (a b c : Cell) :
  comparable l = true -> In a l -> In b l -> In c l ->
  (is_text a = true /\ is_text b = true /\ is_text c = true) \/
  (is_num a = true /\ is_num b = true /\ is_num c = true).
Proof.
  unfold comparable. intros H Ha Hb Hc. apply orb_true_iff in H.
  destruct H as [H | H]; rewrite forallb_forall in H; [left | right];
    repeat split; now apply H.
Qed.

Lemma nodup_map_inj {A B : Type} (f : A -> B) (l : list A) (x y : A) :
  NoDup (map f l) -> In x l -> In y l -> f x = f y -> x = y.
Proof.
  induction l as [|a r IH]; simpl; [tauto|].
  intros Hnd Hx Hy Hf. inversion Hnd as [|? ? Hna Hr]; subst.
  destruct Hx as [-> | Hx], Hy as [-> | Hy]; auto.
  - elim Hna. rewrite Hf. now apply in_map.
  - elim Hna. rewrite <- Hf. now apply in_map.
Qed.

(** X24.  When no row misses a cell under the sort column, the cells
    under it are all text or all numbers, and no two rows hold the same
    one, the descending display order is exactly the ascending one
    reversed. *)
Theorem descending_is_reverse (v : PlannerViewer) (d : DataFrame)
  (c : string) (k : nat) :
  truthy (sort_col v) = Some c ->
  col_index c (columns d) = Some k ->
  forallb (fun r => negb (isna (key_at k r))) (rows d) = true ->
  comparable (map (key_at k) (rows d)) = true ->
  NoDup (map (key_at k) (rows d)) ->
  rows (df_to_show (set_sort v (sort_col v) false) d) =
  rev (rows (df_to_show (set_sort v (sort_col v) true) d)).
Proof.
  intros Hc Hk Hnn Hcmp Hnd.
  assert (Hhas : has_col c (columns d) = true).
  { apply has_col_In. destruct (col_index_spec _ _ _ Hk) as [Hlt <-].
    now apply nth_In. }
  assert (Hall : filter (fun r => negb (isna (key_at k r))) (rows d) = rows d).
  { clear -Hnn. induction (rows d) as [|r l IH]; simpl in *; [reflexivity|].
    apply andb_true_iff in Hnn. destruct Hnn as [Hr Hl].
    now rewrite Hr, (IH Hl). }
  assert (Hnone : filter (fun r => isna (key_at k r)) (rows d) = []).
  { clear -Hnn. induction (rows d) as [|r l IH]; simpl in *; [reflexivity|].
    apply andb_true_iff in Hnn. destruct Hnn as [Hr Hl].
    apply negb_true_iff in Hr. now rewrite Hr, (IH Hl). }
  unfold df_to_show, set_sort. cbn [sort_col sort_asc]. rewrite Hc, Hhas.
  unfold sort_values. rewrite Hk, Hall, Hnone, Hcmp. cbn [rows].
  rewrite !app_nil_r. f_equal.
  assert (Hkey : forall r, In r (rows d) -> In (key_at k r)
                                              (map (key_at k) (rows d))).
  { intros r Hr. now apply in_map. }
  apply sorted_perm_unique with (R := fun a b => row_leb k a b = true).
  - intros x y z Hx Hy Hz. unfold row_leb. apply cell_leb_trans.
    apply (Permutation_in _ (stable_sort_perm _ _)),
      (Permutation_in _ (Permutation_sym (Permutation_rev _))) in Hx, Hy, Hz.
    apply comparable_kind with (map (key_at k) (rows d)); auto.
  - intros x y Hx Hy H1 H2.
    apply (Permutation_in _ (stable_sort_perm _ _)),
      (Permutation_in _ (Permutation_sym (Permutation_rev _))) in Hx, Hy.
    apply (nodup_map_inj (key_at k) (rows d)); auto.
    apply cell_leb_antisym; auto.
    destruct (comparable_kind _ _ _ _ Hcmp (Hkey _ Hx) (Hkey _ Hy) (Hkey _ Hy))
      as [(? & ? & _) | (? & ? & _)]; auto.
  - apply stable_sort_ordered, row_leb_total.
  - apply stable_sort_ordered, row_leb_total.
  - eapply perm_trans; [apply stable_sort_perm|].
    eapply perm_trans; [apply Permutation_sym, Permutation_rev|].
    apply Permutation_sym, stable_sort_perm.
Qed.

(* ------------------------------------------------------------------ *)
(** ** Tree iids and row labels *)

Lemma uint_val_acc (d : Decimal.uint) (p : positive) :
  uint_val d (Zpos p) = Zpos (Pos.of_uint_acc d p).
Proof.
  revert p. induction d; intros p; cbn [uint_val Pos.of_uint_acc];
    try reflexivity; rewrite <- IHd; f_equal; lia.
Qed.

Lemma uint_val_zero (d : Decimal.uint) :
  uint_val d 0 = Z.of_N (Pos.of_uint d).
Proof.
  induction d; simpl; try reflexivity; try exact IHd;
    change (Z.of_N (N.pos ?q)) with (Z.pos q); now rewrite <- uint_val_acc.
Qed.

Lemma parse_digits_numeral (d : Decimal.uint) (acc : Z) :
  PyStr.parse_digits (NilEmpty.string_of_uint d) acc true =
  Some (uint_val d acc).
Proof.
  revert acc. induction d; intros acc; simpl; try reflexivity; apply IHd.
Qed.

Lemma parse_digits_numeral_first (d : Decimal.uint) (acc : Z) :
  d <> Decimal.Nil ->
  PyStr.parse_digits (NilEmpty.string_of_uint d) acc false =
  Some (uint_val d acc).
Proof.
  destruct d; intros H; try congruence; simpl; apply parse_digits_numeral.
Qed.

Lemma rskip_no_space (s : string) :
  Re.all_chars (fun c => negb (PyStr.isspace_int c)) s = true ->
  PyStr.rskip s = s.
Proof.
  induction s as [|c r IH]; simpl; [reflexivity|].
  intros H. apply andb_true_iff in H. destruct H as [Hc Hr].
  rewrite (IH Hr). apply negb_true_iff in Hc. rewrite Hc. now destruct r.
Qed.

Lemma skip_no_space (s : string) :
  Re.all_chars (fun c => negb (PyStr.isspace_int c)) s = true ->
  PyStr.rskip (PyStr.lskip s) = s.
Proof.
  intros H.
  assert (Hl : PyStr.lskip s = s).
  { destruct s as [|c r]; simpl; [reflexivity|].
    simpl in H. apply andb_true_iff in H. destruct H as [Hc _].
    apply negb_true_iff in Hc. now rewrite Hc. }
  rewrite Hl. now apply rskip_no_space.
Qed.

Lemma numeral_no_space (d : Decimal.uint) :
  Re.all_chars (fun c => negb (PyStr.isspace_int c))
               (NilEmpty.string_of_uint d) = true.
Proof. induction d; simpl; auto. Qed.

Lemma int_numeral (d : Decimal.uint) :
  d <> Decimal.Nil ->
  PyStr.int (NilEmpty.string_of_uint d) = Some (uint_val d 0).
Proof.
  intros H. unfold PyStr.int. rewrite (skip_no_space _ (numeral_no_space d)).
  pose proof (parse_digits_numeral_first d 0 H) as Hp.
  destruct d; try congruence; exact Hp.
Qed.

Lemma int_minus_numeral (d : Decimal.uint) :
  d <> Decimal.Nil ->
  PyStr.int (String "-" (NilEmpty.string_of_uint d)) =
  Some (- uint_val d 0)%Z.
Proof.
  intros H. unfold PyStr.int.
  rewrite skip_no_space by (simpl; apply numeral_no_space).
  cbv beta iota. now rewrite (parse_digits_numeral_first d 0 H).
Qed.

Lemma nilzero_numeral (p : positive) :
  NilZero.string_of_uint (Pos.to_uint p) =
  NilEmpty.string_of_uint (Pos.to_uint p).
Proof.
  pose proof (DecimalPos.Unsigned.to_uint_nonnil p) as Hn.
  unfold NilZero.string_of_uint. destruct (Pos.to_uint p); congruence.
Qed.

(** [int] reads back what [str] writes. *)
Lemma int_str_int (z : Z) : PyStr.int (PyStr.str_int z) = Some z.
Proof.
  destruct z as [|p|p]; [reflexivity| |];
    pose proof (DecimalPos.Unsigned.to_uint_nonnil p) as Hn;
    unfold PyStr.str_int; cbn [Z.to_int NilZero.string_of_int];
    rewrite nilzero_numeral.
  - rewrite (int_numeral _ Hn), uint_val_zero, DecimalPos.Unsigned.of_to.
    reflexivity.
  - rewrite (int_minus_numeral _ Hn), uint_val_zero,
      DecimalPos.Unsigned.of_to. reflexivity.
Qed.

Lemma selected_indices_str (l : list Z) :
  selected_indices (map PyStr.str_int l) = l.
Proof.
  induction l as [|z r IH]; simpl; [reflexivity|].
  now rewrite int_str_int, IH.
Qed.

(** X3.  The integers [mark_selected_done] and [delete_selected] parse
    from the iids of the items [populate_tree] makes for a frame are the
    labels of its rows, in the order shown: no item is skipped as not an
    integer and none names another row. *)
Theorem tree_iids_are_row_labels (d : DataFrame) :
  selected_indices (map fst (tree_items d)) = index d.
Proof.
  unfold tree_items, index. rewrite map_map. cbn [fst].
  transitivity (selected_indices (map PyStr.str_int (map fst (rows d)))).
  - now rewrite map_map.
  - apply selected_indices_str.
Qed.

(* ------------------------------------------------------------------ *)
(** ** The values offered for a column *)

Lemma fromkeys_fold_once (l acc : list string) :
  NoDup acc ->
  NoDup (fold_left (fun a k => if has_col k a then a else a ++ [k]) l acc).
Proof.
  revert acc. induction l as [|x r IH]; simpl; intros acc H; [assumption|].
  apply IH. destruct (has_col x acc) eqn:E; [assumption|].
  apply nodup_snoc; [assumption | exact E].
Qed.

Lemma fromkeys_fold_from (l acc : list string) (x : string) :
  In x (fold_left (fun a k => if has_col k a then a else a ++ [k]) l acc) ->
  In x acc \/ In x l.
Proof.
  revert acc. induction l as [|y r IH]; simpl; intros acc H; [now left|].
  destruct (IH _ H) as [Hacc | Hr]; [|now right; right].
  destruct (has_col y acc); [now left|].
  apply in_app_or in Hacc. destruct Hacc as [Hacc | [-> | []]]; auto.
Qed.

Lemma unique_spec (l : list string) :
  NoDup (unique l) /\ forall x, In x (unique l) <-> In x l.
Proof.
  unfold unique, dict_fromkeys. split.
  - apply fromkeys_fold_once. constructor.
  - intros x. split.
    + intros H. destruct (fromkeys_fold_from _ _ _ H) as [[] | H']. exact H'.
    + intros H. apply fromkeys_fold_keeps. now right.
Qed.

Lemma sorted_spec (l : list string) :
  Permutation (sorted l) l /\
  Sorted (fun a b => String.leb a b = true) (sorted l).
Proof.
  unfold sorted. split.
  - apply stable_sort_perm.
  - apply stable_sort_ordered. apply String.leb_total.
Qed.

Lemma sorted_firstn {A : Type} (R : A -> A -> Prop) (n : nat) (l : list A) :
  Sorted R l -> Sorted R (firstn n l).
Proof.
  intros H. revert n. induction H as [|x l Hs IH Hd]; intros [|n]; simpl;
    try constructor.
  - apply IH.
  - destruct Hd as [|y l' Hxy]; destruct n; simpl; constructor. exact Hxy.
Qed.

Lemma nodup_firstn {A : Type} (n : nat) (l : list A) :
  NoDup l -> NoDup (firstn n l).
Proof.
  intros H. rewrite <- (firstn_skipn n l) in H.
  now apply NoDup_app_remove_r in H.
Qed.

Lemma in_firstn {A : Type} (n : nat) (l : list A) (x : A) :
  In x (firstn n l) -> In x l.
Proof.
  intros H. rewrite <- (firstn_skipn n l). apply in_or_app. now left.
Qed.

Lemma column_strings_spec (d : DataFrame) (col : string) (k : nat) :
  col_index col (columns d) = Some k ->
  exists vals,
    column_strings d col = Some vals /\ NoDup vals /\
    forall s, In s vals <->
              exists r, In r (rows d) /\ isna (key_at k r) = false /\
                        s = astype_str (key_at k r).
Proof.
  intros Hk. unfold column_strings. rewrite Hk. eexists. split; [reflexivity|].
  destruct (unique_spec
              (map astype_str (dropna (map (key_at k) (rows d))))) as [Hnd Hin].
  split; [exact Hnd|]. intros s. rewrite Hin, in_map_iff. split.
  - intros [c [<- Hc]]. unfold dropna in Hc. apply filter_In in Hc.
    destruct Hc as [Hc Hna]. apply in_map_iff in Hc.
    destruct Hc as [r [<- Hr]]. exists r. repeat split; auto.
    now apply negb_true_iff in Hna.
  - intros [r [Hr [Hna ->]]]. exists (key_at k r). split; [reflexivity|].
    unfold dropna. apply filter_In. split; [now apply in_map|].
    now rewrite Hna.
Qed.

(** X4.  The values [_update_column_values_dropdown] puts into the
    combobox are at most 200, each one once, in ascending order of their
    characters; each is the text of a non-missing cell of the active
    column in the filtered frame, and when that column has at most 200
    different texts, each of them is offered.  Without an active column,
    or with one the frame does not have, nothing is offered. *)
Theorem dropdown_values (v : PlannerViewer) :
  (List.length (_update_column_values_dropdown v) <= 200)%nat /\
  NoDup (_update_column_values_dropdown v) /\
  Sorted (fun a b => String.leb a b = true) (_update_column_values_dropdown v) /\
  (forall s : string,
     In s (_update_column_values_dropdown v) ->
     exists (col : string) (k : nat) (r : Row),
       truthy (active_column v) = Some col /\
       col_index col (columns (filtered_df v)) = Some k /\
       In r (rows (filtered_df v)) /\ isna (key_at k r) = false /\
       s = astype_str (key_at k r)) /\
  (forall (col : string) (k : nat) (vals : list string) (r : Row),
     truthy (active_column v) = Some col ->
     has_col col (columns (df v)) = true ->
     col_index col (columns (filtered_df v)) = Some k ->
     column_strings (filtered_df v) col = Some vals ->
     (List.length vals <= 200)%nat ->
     In r (rows (filtered_df v)) -> isna (key_at k r) = false ->
     In (astype_str (key_at k r)) (_update_column_values_dropdown v)) /\
  (truthy (active_column v) = None -> _update_column_values_dropdown v = []) /\
  (forall col, truthy (active_column v) = Some col ->
               has_col col (columns (df v)) = false ->
               _update_column_values_dropdown v = []).
Proof.
  unfold _update_column_values_dropdown.
  destruct (truthy (active_column v)) as [col|] eqn:Ea.
  2:{ repeat split; simpl; try constructor; try lia; try tauto; discriminate. }
  destruct (has_col col (columns (df v))) eqn:Eh; cbn [negb].
  2:{ repeat split; simpl; try constructor; try lia; try tauto;
      try discriminate. intros; congruence. }
  destruct (col_index col (columns (filtered_df v))) as [k|] eqn:Ek.
  2:{ unfold column_strings. rewrite Ek.
      repeat split; simpl; try constructor; try lia; try tauto;
        try discriminate. intros; congruence. }
  destruct (column_strings_spec _ _ _ Ek) as (vals & Hv & Hnd & Hin).
  rewrite Hv. destruct (sorted_spec vals) as [Hperm Hsorted].
  split; [apply firstn_le_length|].
  split; [apply nodup_firstn;
          exact (Permutation_NoDup (Permutation_sym Hperm) Hnd)|].
  split; [now apply sorted_firstn|]. split.
  - intros s Hs. apply in_firstn in Hs.
    apply (Permutation_in _ Hperm) in Hs. apply Hin in Hs.
    destruct Hs as (r & Hr & Hna & ->). now exists col, k, r.
  - split; [|split; [discriminate | intros c Hc; congruence]].
    intros col' k' vals' r Hcol _ Hk' Hv' Hlen Hr Hna.
    injection Hcol as <-. rewrite Ek in Hk'. injection Hk' as <-.
    rewrite Hv in Hv'. injection Hv' as <-.
    rewrite firstn_all2 by (rewrite (Permutation_length Hperm); exact Hlen).
    apply (Permutation_in _ (Permutation_sym Hperm)). apply Hin.
    now exists r.
Qed.

(** X5.  A combobox of the add-task dialog is never empty.  It offers
    either the three default priorities or values of the column: then each
    value once, in ascending order, each the text of a non-missing cell of
    the column. *)
Theorem combobox_choices (d : DataFrame) (col : string) (vals : list string) :
  widget_for d col = Combobox vals ->
  vals <> [] /\
  (vals = ["High"; "Medium"; "Low"] \/
   (NoDup vals /\ Sorted (fun a b => String.leb a b = true) vals /\
    forall s : string,
      In s vals ->
      exists (k : nat) (r : Row),
        col_index col (columns d) = Some k /\ In r (rows d) /\
        isna (key_at k r) = false /\ s = astype_str (key_at k r))).
Proof.
  unfold widget_for.
  destruct (any_in ["due"; "date"; "start"] (PyStr.lower col)); [discriminate|].
  assert (Hcol : forall l,
            match column_strings d col with Some l' => l' | None => [] end = l ->
            l <> [] ->
            NoDup (sorted l) /\
            Sorted (fun a b => String.leb a b = true) (sorted l) /\
            forall s, In s (sorted l) ->
              exists (k : nat) (r : Row),
                col_index col (columns d) = Some k /\ In r (rows d) /\
                isna (key_at k r) = false /\ s = astype_str (key_at k r)).
  { intros l Hl Hne. destruct (sorted_spec l) as [Hperm Hsorted].
    destruct (col_index col (columns d)) as [k|] eqn:Ek.
    - destruct (column_strings_spec _ _ _ Ek) as (vs & Hv & Hnd & Hin).
      rewrite Hv in Hl. subst vs.
      split; [exact (Permutation_NoDup (Permutation_sym Hperm) Hnd)|].
      split; [exact Hsorted|]. intros s Hs.
      apply (Permutation_in _ Hperm) in Hs. apply Hin in Hs.
      destruct Hs as (r & Hr & Hna & ->). now exists k, r.
    - unfold column_strings in Hl. rewrite Ek in Hl. congruence. }
  set (l := match column_strings d col with Some l' => l' | None => [] end) in *.
  destruct (any_in ["priority"] (PyStr.lower col)
            || any_in ["status"; "progress"; "state"] (PyStr.lower col)).
  - destruct (sorted l) as [|x xs] eqn:Es; intros H; injection H as <-.
    + split; [discriminate | now left].
    + split; [discriminate|]. right. rewrite <- Es. apply Hcol; [reflexivity|].
      intros ->. discriminate Es.
  - destruct ((1 <? List.length l)%nat && (List.length l <=? 50)%nat) eqn:El;
      [|discriminate].
    intros H. injection H as <-.
    apply andb_true_iff in El. destruct El as [El _]. apply Nat.ltb_lt in El.
    assert (Hne : l <> []) by (intros Hl; rewrite Hl in El; simpl in El; lia).
    split; [|right; now apply Hcol].
    intros Hs. destruct (sorted_spec l) as [Hperm _]. rewrite Hs in Hperm.
    apply Permutation_nil in Hperm. contradiction.
Qed.

(** X6.  [center_window] keeps a rendered size and takes the default size
    when the width is not yet known; the position puts the middle of the
    window within one pixel of the middle of the screen in both
    directions. *)
Theorem center_window_centred (dw dh w h ws hs : Z) :
  let g := center_window dw dh w h ws hs in
  let w' := fst (fst (fst g)) in
  let h' := snd (fst (fst g)) in
  let x := snd (fst g) in
  let y := snd g in
  ((w <= 1)%Z -> w' = dw /\ h' = dh) /\
  ((1 < w)%Z -> w' = w /\ h' = h) /\
  (-1 <= 2 * x + w' - ws <= 1)%Z /\
  (-1 <= 2 * y + h' - hs <= 1)%Z.
Proof.
  unfold center_window.
  destruct (Z.leb_spec w 1); cbn [fst snd];
    repeat split; intros; try reflexivity; try lia;
    Z.div_mod_to_equations; lia.
Qed.

(* ------------------------------------------------------------------ *)
(** ** The shape of the frames *)

Lemma set_nth_len {A : Type} (k : nat) (x : A) (l : list A) :
  List.length (set_nth k x l) = List.length l.
Proof.
  revert k. induction l as [|y r IH]; intros [|k]; simpl; auto.
Qed.

Lemma relabel_full_rows (n : nat) (s : Z) (l : list Row) :
  Forall (fun r : Row => List.length (snd r) = n) l ->
  Forall (fun r : Row => List.length (snd r) = n) (relabel s l).
Proof.
  intros H. revert s. induction H as [|[i c] r Hc Hr IH]; intros s; simpl;
    constructor; auto.
Qed.

Lemma tidy_relabel (cols : list string) (l : list Row) :
  NoDup cols ->
  Forall (fun r : Row => List.length (snd r) = List.length cols) l ->
  tidy (mkDF cols (relabel 0%Z l)).
Proof.
  intros Hnd Hwf. split; [|split].
  - unfold wf. simpl. now apply relabel_full_rows.
  - exact Hnd.
  - unfold index, len. simpl. rewrite relabel_length. apply relabel_range.
Qed.

Lemma dict_fromkeys_once (l : list string) : NoDup (dict_fromkeys l).
Proof. unfold dict_fromkeys. apply fromkeys_fold_once. constructor. Qed.

Lemma tidy_merge (base incoming : DataFrame) : tidy (merge base incoming).
Proof.
  unfold merge, concat_ignore_index, reindex. simpl.
  apply tidy_relabel; [apply dict_fromkeys_once|].
  apply Forall_app. split; apply Forall_forall; intros r Hr;
    apply in_map_iff in Hr; destruct Hr as [r0 [<- _]];
    unfold reindex_row; simpl; apply length_map.
Qed.

Lemma tidy_add (d : DataFrame) (new_row : list (string * string)) :
  tidy d ->
  tidy (reset_index
          (concat_ignore_index d (frame_of_dict new_row (columns d)))).
Proof.
  intros (Hwf & Hnd & _). unfold reset_index, concat_ignore_index. simpl.
  apply tidy_relabel; [exact Hnd|].
  apply relabel_full_rows, Forall_app. split; [exact Hwf|].
  simpl. constructor; [apply length_map | constructor].
Qed.

Lemma tidy_drop (d d' : DataFrame) (labels : list Z) :
  tidy d -> drop d labels = Ok d' -> tidy (reset_index d').
Proof.
  intros (Hwf & Hnd & _). unfold drop.
  destruct (forallb _ labels); [|discriminate].
  intros H. injection H as <-. unfold reset_index. simpl.
  apply tidy_relabel; [exact Hnd|].
  unfold wf in Hwf. rewrite Forall_forall in *. intros r Hr.
  apply filter_In in Hr. now apply Hwf.
Qed.

Lemma tidy_status (d : DataFrame) :
  tidy d -> tidy (snd (find_status_col d)).
Proof.
  intros (Hwf & Hnd & Hidx). unfold find_status_col.
  destruct (find status_like (columns d)) eqn:E; simpl; [now repeat split|].
  pose proof (no_status_column _ E) as Hno.
  unfold setitem. rewrite (col_index_none _ _ Hno).
  split; [|split].
  - unfold wf in *. simpl. rewrite Forall_map.
    eapply Forall_impl; [|exact Hwf]. intros r Hr. simpl.
    rewrite !length_app, Hr. reflexivity.
  - simpl. now apply nodup_snoc.
  - unfold index, len in *. simpl. rewrite map_map, length_map. exact Hidx.
Qed.

Lemma tidy_mark_rows (d : DataFrame) (col : string) (items : list string) :
  has_col col (columns d) = true ->
  tidy d -> tidy (mark_rows d col items).
Proof.
  intros Hcol (Hwf & Hnd & Hidx).
  destruct (col_index_has_col _ _ Hcol) as [k Hk].
  rewrite (mark_rows_map _ _ _ _ Hk). split; [|split].
  - unfold wf in *. simpl. rewrite Forall_map.
    eapply Forall_impl; [|exact Hwf]. intros r Hr. unfold completed.
    destruct (selected items r); simpl; [now rewrite set_nth_len | exact Hr].
  - exact Hnd.
  - unfold index, len in *. simpl. rewrite map_map, length_map.
    rewrite <- Hidx. apply map_ext. intros r. unfold completed.
    now destruct (selected items r).
Qed.

(** X7.  Whatever the two frames look like, the merged frame has the
    shape the rest of the program relies on: every row has one cell per
    column, no column label occurs twice, and the rows are labelled
    0 .. N-1 in order. *)
Theorem merge_is_tidy (base incoming : DataFrame) :
  wf (merge base incoming) /\
  NoDup (columns (merge base incoming)) /\
  index (merge base incoming) = range (len (merge base incoming)).
Proof. apply tidy_merge. Qed.

Lemma subseq_refl {A : Type} (l : list A) : subseq l l.
Proof. induction l; constructor; assumption. Qed.


Lemma subseq_in {A : Type} (l1 l2 : list A) (x : A) :
  subseq l1 l2 -> In x l1 -> In x l2.
Proof.
  induction 1; simpl; intros Hin; auto. destruct Hin; auto.
Qed.

Lemma boolean_index_subseq (d : DataFrame) (mask : list bool) :
  subseq (rows (boolean_index d mask)) (rows d).
Proof.
  unfold boolean_index. simpl. revert mask.
  induction (rows d) as [|r l IH]; intros mask.
  - destruct mask; constructor.
  - destruct mask as [|b m]; simpl.
    + constructor. apply (IH []).
    + destruct b; simpl; constructor; apply IH.
Qed.

(* ------------------------------------------------------------------ *)
(** ** The sort state *)

(** X8.  Two double-clicks on the heading of [col] end with [col] as the
    sort column; they change neither frame of the viewer.  When [col] was
    the sort column already, the direction is back where it was and the
    tree is the one of the initial sort state; otherwise the direction is
    descending. *)
Theorem double_click_twice (v : PlannerViewer) (col : string) :
  let v2 := _on_tree_double_click (_on_tree_double_click v col) col in
  sort_col v2 = Some col /\
  df v2 = df v /\ filtered_df v2 = filtered_df v /\
  (sort_col v = Some col ->
   sort_asc v2 = sort_asc v /\ v2 = populate_tree v (filtered_df v)) /\
  (sort_col v <> Some col -> sort_asc v2 = false).
Proof.
  unfold _on_tree_double_click.
  destruct (sort_col v) as [c|] eqn:Ec.
  - destruct (String.eqb c col) eqn:E.
    + apply String.eqb_eq in E. subst c. cbn. rewrite String.eqb_refl. cbn.
      rewrite negb_involutive.
      do 3 (split; [reflexivity|]). split.
      * intros _. split; [reflexivity|].
        unfold populate_tree, set_tree, set_sort, df_to_show. cbn.
        rewrite Ec. destruct v. cbn in *. now subst.
      * intros H. now elim H.
    + cbn. rewrite String.eqb_refl. cbn.
      do 3 (split; [reflexivity|]). split; [|reflexivity].
      intros H. injection H as ->. now rewrite String.eqb_refl in E.
  - cbn. rewrite String.eqb_refl. cbn.
    do 3 (split; [reflexivity|]). split; [discriminate | reflexivity].
Qed.

(* ------------------------------------------------------------------ *)
(** ** The name of a plan *)

(** X22.  The name given to a new viewer, [file_path.split(sep)[-1]], is
    the end of the path after its last separator: it holds no separator,
    and the path is that name after a part that is empty or ends with a
    separator. *)
Theorem after_last_is_file_name (sep : ascii) (s : string) :
  Re.all_chars (fun x => negb (Ascii.eqb x sep)) (after_last sep s) = true /\
  exists pre : string,
    s = (pre ++ after_last sep s)%string /\
    (pre = "" \/ exists pre', pre = (pre' ++ String sep "")%string).
Proof.
  induction s as [|c r [IHno [pre [IHeq IHpre]]]]; simpl.
  - split; [reflexivity|]. exists "". split; [reflexivity | now left].
  - destruct (Re.all_chars (fun x => negb (Ascii.eqb x sep)) r) eqn:Er.
    + destruct (Ascii.eqb c sep) eqn:Ec.
      * split; [exact Er|]. exists (String c ""). split; [reflexivity|].
        right. exists "". apply Ascii.eqb_eq in Ec. now subst.
      * split; [simpl; now rewrite Ec, Er|].
        exists "". split; [reflexivity | now left].
    + split; [exact IHno|]. exists (String c pre). split.
      * simpl. now rewrite <- IHeq.
      * right. destruct IHpre as [-> | [pre' ->]].
        -- exfalso. simpl in IHeq. rewrite <- IHeq in IHno. congruence.
        -- now exists (String c pre').
Qed.

(* ------------------------------------------------------------------ *)
(** * Further properties of the engine *)

Section ViewFacts.

Context {W : World}.

(* ------------------------------------------------------------------ *)
(** ** What a refresh shows *)

Lemma compute_filtered_subseq (v : PlannerViewer) (f : DataFrame) :
  compute_filtered v = Ok f ->
  columns f = columns (df v) /\ subseq (rows f) (rows (df v)).
Proof.
  unfold compute_filtered.
  destruct (String.eqb _ "").
  - intros H. injection H as <-. split; [reflexivity | apply subseq_refl].
  - destruct (truthy (active_column v)) as [col|].
    + destruct (col_index col (columns (df v))) as [k|]; [|discriminate].
      unfold bind. destruct (str_contains _ _) as [mask|]; [|discriminate].
      intros H. injection H as <-.
      split; [reflexivity | apply boolean_index_subseq].
    + unfold bind. destruct (apply_rows _ _) as [mask|]; [|discriminate].
      intros H. injection H as <-.
      split; [reflexivity | apply boolean_index_subseq].
Qed.


(** X10.  Refreshing twice is refreshing once: a refresh that succeeded
    leaves a viewer that a further refresh does not change. *)
Theorem on_search_idempotent (v v' : PlannerViewer) :
  on_search v = Ok v' -> on_search v' = Ok v'.
Proof.
  unfold on_search, bind.
  destruct (compute_filtered v) as [f|] eqn:E; [|discriminate].
  intros H. injection H as <-.
  change (compute_filtered (populate_tree (set_filtered_df v f) f))
    with (compute_filtered v).
  rewrite E. reflexivity.
Qed.

Lemma apply_rows_literal (q : string) (l : list Row) :
  Re.literal q = true ->
  apply_rows (row_matches q) l =
  Ok (map (fun r : Row =>
             existsb (fun c => Re.search q (PyStr.lower (astype_str c)))
                     (snd r)) l).
Proof.
  intros Hlit. induction l as [|r l' IH]; simpl; [reflexivity|].
  rewrite IH. unfold row_matches, str_contains, re_compile.
  rewrite (literal_simple _ Hlit). simpl. do 3 f_equal.
  induction (snd r) as [|c cs IHc]; simpl; [reflexivity|].
  now rewrite IHc.
Qed.

(** X11.  Without an active column, on a frame that has rows, and with a
    term that, lower-cased and stripped, is not empty and has no special
    character of regular expressions, the frame [on_search] assigns to
    [filtered_df] (lines 159, 165-167) holds the rows of the data in their
    order; a row without a missing cell is kept exactly when the
    lower-cased text of one of its cells contains the term. *)
Theorem on_search_whole_row (v : PlannerViewer) :
  rows (df v) <> [] ->
  PyStr.strip (PyStr.lower (search_var v)) <> "" ->
  truthy (active_column v) = None ->
  Re.literal (PyStr.strip (PyStr.lower (search_var v))) = true ->
  exists keep : Row -> bool,
    compute_filtered v =
      Ok (mkDF (columns (df v)) (filter keep (rows (df v)))) /\
    forall r : Row,
      forallb (fun c => negb (isna c)) (snd r) = true ->
      keep r =
      existsb (fun c =>
                 PyStr.contains (PyStr.strip (PyStr.lower (search_var v)))
                                (PyStr.lower (display c))) (snd r).
Proof.
  intros _ Hq Hact Hlit.
  set (q := PyStr.strip (PyStr.lower (search_var v))) in *.
  exists (fun r : Row =>
            existsb (fun c => Re.search q (PyStr.lower (astype_str c)))
                    (snd r)).
  unfold compute_filtered. fold q.
  destruct (String.eqb q "") eqn:E; [apply String.eqb_eq in E; contradiction|].
  rewrite Hact, (apply_rows_literal q _ Hlit). simpl.
  rewrite boolean_index_map.
  split; [reflexivity|].
  intros r Hr. induction (snd r) as [|c cs IH]; simpl; [reflexivity|].
  simpl in Hr. apply andb_true_iff in Hr. destruct Hr as [Hc Hcs].
  rewrite (IH Hcs), (literal_search _ _ Hlit). unfold display.
  apply negb_true_iff in Hc. now rewrite Hc.
Qed.

Lemma on_search_bad_pattern (v : PlannerViewer) (col : string) :
  PyStr.strip (PyStr.lower (search_var v)) <> "" ->
  re_compile (PyStr.strip (PyStr.lower (search_var v))) = None ->
  truthy (active_column v) = Some col ->
  has_col col (columns (df v)) = true ->
  on_search v = Raise ReError.
Proof.
  intros Hq Hre Hact Hcol. unfold on_search, compute_filtered.
  destruct (String.eqb _ "") eqn:E; [apply String.eqb_eq in E; contradiction|].
  rewrite Hact. destruct (col_index_has_col _ _ Hcol) as [k ->].
  unfold str_contains. now rewrite Hre.
Qed.

Lemma mark_rows_columns (d : DataFrame) (col : string) (items : list string) :
  columns (mark_rows d col items) = columns d.
Proof.
  revert d. induction items as [|item r IH]; intros d; simpl; [reflexivity|].
  destruct (PyStr.int item) as [idx|]; [|apply IH].
  destruct (in_index idx d); [|apply IH].
  rewrite IH. unfold at_set. now destruct (col_index col (columns d)).
Qed.

Lemma find_status_col_keeps (d : DataFrame) (col : string) :
  has_col col (columns d) = true ->
  has_col col (columns (snd (find_status_col d))) = true.
Proof.
  intros H. unfold find_status_col.
  destruct (find status_like (columns d)); simpl; [exact H|].
  unfold setitem. destruct (col_index "Status" (columns d)); simpl;
    [exact H|]. apply has_col_In, in_or_app. left. now apply has_col_In.
Qed.

(** X12.  When the term in the search box is no valid regular expression
    and a column is active, the refresh raises; each mutation has changed
    the frame by then.  Adding a row lets the exception out with the row
    added; deleting and marking show the error although the rows are
    deleted or marked; in all three cases the filtered frame and the tree
    stay as they were before the call. *)
Theorem mutation_outlives_failed_refresh (v : PlannerViewer) (col : string) :
  PyStr.strip (PyStr.lower (search_var v)) <> "" ->
  re_compile (PyStr.strip (PyStr.lower (search_var v))) = None ->
  truthy (active_column v) = Some col ->
  has_col col (columns (df v)) = true ->
  (forall entries : list (string * string),
     snd (_on_add_task_confirm v entries) = Uncaught ReError /\
     len (df (fst (_on_add_task_confirm v entries))) = S (len (df v)) /\
     filtered_df (fst (_on_add_task_confirm v entries)) = filtered_df v /\
     tree (fst (_on_add_task_confirm v entries)) = tree v) /\
  (forall (sel : list string) (d : DataFrame),
     selected_indices sel <> [] ->
     drop (df v) (selected_indices sel) = Ok d ->
     snd (delete_selected v sel true) = ErrorBox ReError /\
     df (fst (delete_selected v sel true)) = reset_index d /\
     filtered_df (fst (delete_selected v sel true)) = filtered_df v /\
     tree (fst (delete_selected v sel true)) = tree v) /\
  (forall sel : list string,
     sel <> [] ->
     snd (mark_selected_done v sel) = ErrorBox ReError /\
     df (fst (mark_selected_done v sel)) =
       mark_rows (snd (find_status_col (df v)))
                 (fst (find_status_col (df v))) sel /\
     filtered_df (fst (mark_selected_done v sel)) = filtered_df v /\
     tree (fst (mark_selected_done v sel)) = tree v).
Proof.
  intros Hq Hre Hact Hcol. split; [|split].
  - intros entries. unfold _on_add_task_confirm, refresh_uncaught.
    rewrite (on_search_bad_pattern _ col); try assumption. simpl.
    repeat split. unfold len. simpl.
    rewrite !relabel_length, length_app. simpl. lia.
  - intros sel d Hsel Hdrop. unfold delete_selected.
    destruct sel as [|s l]; [now elim Hsel|].
    destruct (selected_indices (s :: l)) as [|i is_]; [now elim Hsel|].
    cbn [negb]. cbv iota. rewrite Hdrop. unfold refresh_caught.
    rewrite (on_search_bad_pattern _ col); try assumption.
    + repeat split.
    + simpl. unfold drop in Hdrop. destruct (forallb _ _); [|discriminate].
      injection Hdrop as <-. exact Hcol.
  - intros sel Hsel. unfold mark_selected_done.
    destruct sel as [|s l]; [now elim Hsel|].
    destruct (find_status_col (df v)) as [c d1] eqn:E.
    unfold refresh_caught. rewrite (on_search_bad_pattern _ col);
      try assumption.
    + repeat split.
    + unfold set_df. cbn [df]. rewrite mark_rows_columns.
      change d1 with (snd (c, d1)). rewrite <- E.
      now apply find_status_col_keeps.
Qed.

(** X13.  A click on a heading makes that column the active one, or
    clears the active column when it was that one, also when the refresh
    that follows raises; so two clicks on the same heading end with no
    active column, unless the column was active before, which it then is
    again. *)
Theorem on_column_click_toggles (v : PlannerViewer) (col : string) :
  active_column (fst (on_column_click v col)) =
    (if match active_column v with
        | Some c => String.eqb c col
        | None => false
        end then None else Some col) /\
  active_column (fst (on_column_click (fst (on_column_click v col)) col)) =
    (if match active_column v with
        | Some c => String.eqb c col
        | None => false
        end then Some col else None).
Proof.
  assert (Hkeep : forall u,
            active_column (fst (refresh_uncaught u)) = active_column u).
  { intros u. unfold refresh_uncaught.
    destruct (on_search u) as [u'|] eqn:E; simpl; [|reflexivity].
    now destruct (on_search_fields _ _ E) as (_ & _ & _ & -> & _). }
  assert (Hone : forall u,
            active_column (fst (on_column_click u col)) =
            (if match active_column u with
                | Some c => String.eqb c col
                | None => false
                end then None else Some col)).
  { intros u. unfold on_column_click. rewrite Hkeep.
    destruct (active_column u) as [c|]; [destruct (String.eqb c col)|];
      reflexivity. }
  split; [apply Hone|]. rewrite Hone, Hone.
  destruct (active_column v) as [c|]; [destruct (String.eqb c col)|];
    simpl; now rewrite ?String.eqb_refl.
Qed.

(* ------------------------------------------------------------------ *)
(** ** Adding a row *)

Lemma relabel_twice (s t : Z) (l : list Row) :
  relabel s (relabel t l) = relabel s l.
Proof.
  revert s t. induction l as [|[i c] r IH]; intros s t; simpl; [reflexivity|].
  now rewrite IH.
Qed.

Lemma add_task_frame (v : PlannerViewer) (entries : list (string * string)) :
  df (fst (_on_add_task_confirm v entries)) =
  mkDF (columns (df v))
       (relabel 0%Z
          (rows (df v) ++
           [(0%Z, map (fun c => match dict_get c entries with
                                | Some s => Text s
                                | None => NaN
                                end) (columns (df v)))])).
Proof.
  unfold _on_add_task_confirm. rewrite (proj1 (refresh_uncaught_df _)).
  unfold set_df, reset_index, concat_ignore_index, frame_of_dict. cbn.
  now rewrite relabel_twice.
Qed.

(** X14.  [_on_add_task_confirm] puts one row after the rows of the frame
    and changes nothing else in it: the columns stay, the rows before keep
    their cells, the new row is labelled with the former number of rows
    and holds, under each column, the text entered for it, or a missing
    value when the entries have no key for the column. *)
Theorem add_task_appends_row (v : PlannerViewer)
  (entries : list (string * string)) :
  columns (df (fst (_on_add_task_confirm v entries))) = columns (df v) /\
  len (df (fst (_on_add_task_confirm v entries))) = S (len (df v)) /\
  (forall i : nat,
     (i < len (df v))%nat ->
     snd (row_nth (df (fst (_on_add_task_confirm v entries))) i) =
     snd (row_nth (df v) i)) /\
  fst (row_nth (df (fst (_on_add_task_confirm v entries))) (len (df v))) =
    Z.of_nat (len (df v)) /\
  forall c : string,
    has_col c (columns (df v)) = true ->
    cell_at (columns (df v)) c
      (row_nth (df (fst (_on_add_task_confirm v entries))) (len (df v))) =
    Some (match dict_get c entries with
          | Some s => Text s
          | None => NaN
          end).
Proof.
  rewrite add_task_frame. unfold len, row_nth. cbn [columns rows].
  split; [reflexivity|]. split.
  { rewrite relabel_length, length_app. simpl. lia. }
  split.
  { intros i Hi. rewrite relabel_nth by (rewrite length_app; simpl; lia).
    cbn [snd]. now rewrite app_nth1. }
  rewrite relabel_nth by (rewrite length_app; simpl; lia).
  rewrite app_nth2, Nat.sub_diag by lia. cbn [nth fst snd].
  split; [reflexivity|].
  intros c Hc.
  exact (cell_at_map
           (fun c => match dict_get c entries with
                     | Some s => Text s
                     | None => NaN
                     end) (columns (df v)) c _ Hc).
Qed.

Lemma dict_get_typed (typed : string -> string) (cols : list string)
  (c : string) :
  In c cols -> dict_get c (map (fun col => (col, typed col)) cols) =
               Some (typed c).
Proof.
  induction cols as [|x r IH]; simpl; [tauto|].
  destruct (String.eqb c x) eqn:E.
  - apply String.eqb_eq in E. now subst.
  - intros [-> | H]; [now rewrite String.eqb_refl in E | now apply IH].
Qed.

(** X15.  The add-task dialog has one widget per column of the frame, in
    column order; so a row added through it holds a text under every
    column, the one its widget held, and no missing value. *)
Theorem add_task_dialog_fills_row (v : PlannerViewer)
  (typed : string -> string) :
  map fst (add_task_dialog v) = columns (df v) /\
  snd (row_nth
         (df (fst (_on_add_task_confirm v
                     (entries_get (add_task_dialog v) typed))))
         (len (df v))) =
  map (fun c => Text (typed c)) (columns (df v)).
Proof.
  split.
  - unfold add_task_dialog. rewrite map_map. simpl. apply map_id.
  - rewrite add_task_frame. unfold len, row_nth. cbn [columns rows].
    rewrite relabel_nth by (rewrite length_app; simpl; lia).
    rewrite app_nth2, Nat.sub_diag by lia. cbn [nth snd].
    apply map_ext_in. intros c Hc.
    unfold entries_get, add_task_dialog. rewrite map_map. cbn [fst].
    now rewrite (dict_get_typed typed _ c Hc).
Qed.

(* ------------------------------------------------------------------ *)
(** ** Sessions *)

Lemma restored_entry_sources (item : SessionItem) (v : PlannerViewer) :
  In v (restored_entry item) -> source_files v = [].
Proof.
  unfold restored_entry. destruct (first_loadable _) as [[s d]|]; simpl;
    [|tauto]. intros [<- | []]. reflexivity.
Qed.

Lemma load_session_no_sources (app : MainApp) (session : list SessionItem) :
  Forall (fun item => item_sources item = Some []) session ->
  load_session app session = app.
Proof.
  induction 1 as [|item rest Hitem Hrest IH]; simpl; [reflexivity|].
  rewrite Hitem. simpl. exact IH.
Qed.

(** X16.  A restored viewer starts with an empty source list, whatever it
    was loaded from.  So the session saved from restored viewers lists no
    source in any entry, and restoring that session opens nothing. *)
Theorem restored_session_forgets_sources (session : list SessionItem) :
  Forall (fun v => source_files v = []) (load_session [] session) /\
  Forall (fun item => item_sources item = Some [])
         (save_session (load_session [] session)) /\
  forall app : MainApp,
    load_session app (save_session (load_session [] session)) = app.
Proof.
  assert (H1 : Forall (fun v => source_files v = [])
                      (load_session [] session)).
  { rewrite load_session_restored. simpl. apply Forall_forall. intros v Hv.
    apply in_flat_map in Hv. destruct Hv as [item [_ Hv]].
    now apply restored_entry_sources with item. }
  assert (H2 : Forall (fun item => item_sources item = Some [])
                      (save_session (load_session [] session))).
  { unfold save_session. apply Forall_map.
    eapply Forall_impl; [|exact H1]. intros v Hv. simpl. now rewrite Hv. }
  split; [exact H1|]. split; [exact H2|].
  intros app. now apply load_session_no_sources.
Qed.

Lemma restored_entry_length (item : SessionItem) :
  List.length (restored_entry item) = if restorable item then 1%nat else 0%nat.
Proof.
  unfold restored_entry, restorable, first_loadable.
  induction (match item_sources item with Some l => l | None => [] end)
    as [|s r IH]; simpl; [reflexivity|].
  destruct (load_excel s) eqn:E; simpl; [now rewrite E | exact IH].
Qed.

(** X17.  Restoring a session opens one viewer for each entry that has a
    source that loads, after the viewers already open and in the order of
    the entries; the other entries open nothing. *)
Theorem load_session_count (app : MainApp) (session : list SessionItem) :
  List.length (load_session app session) =
    (List.length app + List.length (filter restorable session))%nat /\
  firstn (List.length app) (load_session app session) = app.
Proof.
  rewrite load_session_restored. split.
  - rewrite length_app. f_equal.
    induction session as [|item rest IH]; simpl; [reflexivity|].
    rewrite length_app, IH, restored_entry_length.
    now destruct (restorable item).
  - rewrite firstn_app, Nat.sub_diag, firstn_all. simpl. apply app_nil_r.
Qed.

(* ------------------------------------------------------------------ *)
(** ** The shape of the frames, in every state *)

Lemma mark_selected_done_frame (v : PlannerViewer) (sel : list string) :
  sel <> [] ->
  df (fst (mark_selected_done v sel)) =
  mark_rows (snd (find_status_col (df v)))
            (fst (find_status_col (df v))) sel.
Proof.
  intros Hsel. unfold mark_selected_done. destruct sel as [|s l];
    [now elim Hsel|].
  destruct (find_status_col (df v)) as [c d1].
  now rewrite (proj1 (refresh_caught_df _)).
Qed.

Lemma viewer_step_tidy (v v' : PlannerViewer) :
  tidy (df v) -> viewer_step v v' -> tidy (df v').
Proof.
  intros Ht H. destruct H.
  - now rewrite (proj1 (refresh_uncaught_df _)).
  - unfold on_column_click. rewrite (proj1 (refresh_uncaught_df _)).
    destruct (active_column v) as [c|]; [destruct (String.eqb c col)|];
      exact Ht.
  - unfold _on_tree_double_click.
    destruct (sort_col v) as [c|]; [destruct (String.eqb c col)|]; exact Ht.
  - exact Ht.
  - unfold _on_add_task_confirm. rewrite (proj1 (refresh_uncaught_df _)).
    now apply tidy_add.
  - destruct sel as [|s l]; [exact Ht|].
    rewrite mark_selected_done_frame by discriminate.
    apply tidy_mark_rows; [apply find_status_col_has | now apply tidy_status].
  - unfold delete_selected. destruct sel as [|s l]; [exact Ht|].
    destruct (negb yes); [exact Ht|].
    destruct (selected_indices (s :: l)) as [|i is_]; [exact Ht|].
    destruct (drop (df v) (i :: is_)) as [d|] eqn:E; [|exact Ht].
    rewrite (proj1 (refresh_caught_df _)). cbn [df set_df].
    now apply tidy_drop with (df v) (i :: is_).
Qed.

Lemma merge_into_viewer_tidy (v : PlannerViewer) (d : DataFrame) (p : string) :
  tidy (df (fst (_merge_into_viewer v d p))).
Proof.
  unfold _merge_into_viewer.
  destruct (on_search (set_df v (merge (df v) d))) as [v2|e] eqn:E; simpl.
  - destruct (on_search_fields _ _ E) as (Hd & _). simpl in Hd.
    destruct (existsb (String.eqb p) (source_files v2)); simpl;
      rewrite Hd; apply tidy_merge.
  - apply tidy_merge.
Qed.

Lemma forall_update_viewer (P : PlannerViewer -> Prop) (app : MainApp)
  (i : nat) (v : PlannerViewer) :
  Forall P app -> P v -> Forall P (update_viewer app i v).
Proof.
  unfold update_viewer. intros Happ Hv. revert i.
  induction Happ as [|x r Hx Hr IH]; intros [|i]; simpl; constructor; auto.
Qed.

Lemma forall_on_viewer_closed (P : PlannerViewer -> Prop) (app : MainApp)
  (i : nat) :
  Forall P app -> Forall P (_on_viewer_closed app i).
Proof.
  intros Happ. revert i.
  induction Happ as [|x r Hx Hr IH]; intros [|i]; simpl; auto.
Qed.

Lemma app_step_tidy (app app' : MainApp) :
  (forall p d, load_excel p = Some d -> tidy d) ->
  Forall (fun v => tidy (df v)) app -> app_step app app' ->
  Forall (fun v => tidy (df v)) app'.
Proof.
  intros Hload Happ Hstep. destruct Hstep.
  - unfold add_new_plan. destruct (String.eqb path ""); [assumption|].
    destruct (load_excel path) as [d|] eqn:El; [|assumption].
    assert (Hopen : Forall (fun v => tidy (df v))
              (_open_new_viewer app d (after_last "\" path) (Some [path]))).
    { unfold _open_new_viewer. apply Forall_app. split; [assumption|].
      constructor; [|constructor]. simpl. now apply Hload with path. }
    destruct app as [|v0 rest]; [assumption|].
    destruct choice as [[i|]| |]; try assumption.
    destruct (nth_error (v0 :: rest) i) as [target|] eqn:E; [|assumption].
    apply forall_update_viewer; [assumption | apply merge_into_viewer_tidy].
  - rewrite load_session_restored. apply Forall_app. split; [assumption|].
    apply Forall_forall. intros v Hv. apply in_flat_map in Hv.
    destruct Hv as [item [_ Hv]]. unfold restored_entry, first_loadable in Hv.
    destruct (find _ _) as [s|]; [|destruct Hv].
    destruct (load_excel s) as [d|] eqn:El; simpl in Hv; [|destruct Hv].
    destruct Hv as [<- | []]. simpl. now apply Hload with s.
  - apply forall_update_viewer; [assumption|].
    apply viewer_step_tidy with v; [|assumption].
    rewrite Forall_forall in Happ. apply Happ. now apply nth_error_In with i.
  - now apply forall_on_viewer_closed.
Qed.

(** X18.  When every workbook is read as a frame with one cell per column
    in every row, no column label twice and the labels 0 .. N-1, every
    frame of every viewer has that shape in every state the application
    reaches: no callback, merge or restoration breaks it. *)
Theorem frames_stay_tidy (app : MainApp) :
  (forall p d, load_excel p = Some d -> tidy d) ->
  reachable app ->
  Forall (fun v => wf (df v) /\ NoDup (columns (df v)) /\
                   index (df v) = range (len (df v))) app.
Proof.
  intros Hload Hreach. induction Hreach as [|app app' Hr IH Hstep].
  - constructor.
  - now apply app_step_tidy with app.
Qed.

(* ------------------------------------------------------------------ *)
(** ** Marking twice *)

Lemma find_app_none {A : Type} (f : A -> bool) (l l' : list A) :
  find f l = None -> find f (l ++ l') = find f l'.
Proof.
  induction l as [|x r IH]; simpl; [reflexivity|].
  destruct (f x); [discriminate | exact IH].
Qed.

Lemma completed_twice (k : nat) (items : list string) (r : Row) :
  completed k items (completed k items r) = completed k items r.
Proof.
  unfold completed. destruct (selected items r) eqn:E; [|now rewrite E].
  unfold selected in *. simpl. rewrite E. now rewrite set_nth_twice.
Qed.

Lemma mark_rows_twice (d : DataFrame) (col : string) (items : list string) :
  has_col col (columns d) = true ->
  mark_rows (mark_rows d col items) col items = mark_rows d col items.
Proof.
  intros Hcol. destruct (col_index_has_col _ _ Hcol) as [k Hk].
  rewrite (mark_rows_map d col k items Hk).
  rewrite (mark_rows_map (mkDF (columns d) (map (completed k items) (rows d)))
             col k items Hk). simpl. f_equal.
  rewrite map_map. apply map_ext. intros r. apply completed_twice.
Qed.

Lemma find_status_col_again (d : DataFrame) (items : list string) :
  find_status_col
    (mark_rows (snd (find_status_col d)) (fst (find_status_col d)) items) =
  (fst (find_status_col d),
   mark_rows (snd (find_status_col d)) (fst (find_status_col d)) items).
Proof.
  unfold find_status_col at 1. rewrite mark_rows_columns.
  unfold find_status_col.
  destruct (find status_like (columns d)) as [c|] eqn:E; simpl.
  - now rewrite E.
  - unfold setitem. rewrite (col_index_none _ _ (no_status_column _ E)).
    simpl. now rewrite (find_app_none _ _ _ E).
Qed.

(** X19.  Marking the same selection done a second time changes nothing
    in the frame: the column chosen is the same one, also when the first
    call created it, and the cells written are already there. *)
Theorem mark_selected_done_twice (v : PlannerViewer) (sel : list string) :
  df (fst (mark_selected_done (fst (mark_selected_done v sel)) sel)) =
  df (fst (mark_selected_done v sel)).
Proof.
  destruct sel as [|s l]; [reflexivity|].
  rewrite (mark_selected_done_frame (fst (mark_selected_done v (s :: l))))
    by discriminate.
  rewrite (mark_selected_done_frame v) by discriminate.
  rewrite find_status_col_again. cbn [fst snd].
  apply mark_rows_twice. apply find_status_col_has.
Qed.

(* ------------------------------------------------------------------ *)
(** ** Deleting what the tree shows *)

Lemma fresh_tree_items (v : PlannerViewer) (item : string) :
  view_fresh v -> In item (map fst (tree v)) ->
  exists r : Row, In r (rows (df v)) /\ item = PyStr.str_int (fst r).
Proof.
  intros [Hf Ht] Hin. rewrite Ht in Hin. unfold tree_items in Hin.
  rewrite map_map in Hin. apply in_map_iff in Hin.
  destruct Hin as [r [<- Hr]]. exists r. split; [|reflexivity].
  apply (Permutation_in _ (proj2 (df_to_show_perm v (filtered_df v)))) in Hr.
  destruct (compute_filtered_subseq v _ Hf) as [_ Hs].
  now apply subseq_in with (rows (filtered_df v)).
Qed.

Lemma selected_indices_from (items : list string) (i : Z) :
  In i (selected_indices items) ->
  exists item, In item items /\ PyStr.int item = Some i.
Proof.
  induction items as [|item r IH]; simpl; [tauto|].
  destruct (PyStr.int item) as [idx|] eqn:E.
  - intros [<- | H]; [now exists item; auto|].
    destruct (IH H) as [it [Hit Hi]]. exists it; auto.
  - intros H. destruct (IH H) as [it [Hit Hi]]. exists it; auto.
Qed.

Lemma filter_shorter {A : Type} (f : A -> bool) (l : list A) (x : A) :
  In x l -> f x = false ->
  (List.length (filter f l) < List.length l)%nat.
Proof.
  induction l as [|y r IH]; simpl; [tauto|].
  intros [-> | Hin] Hx.
  - rewrite Hx. pose proof (filter_length_le f r). lia.
  - specialize (IH Hin Hx). destruct (f y); simpl; lia.
Qed.

Lemma apply_rows_compiled (q : string) (m : string -> bool) (l : list Row) :
  re_compile q = Some m -> exists mask, apply_rows (row_matches q) l = Ok mask.
Proof.
  intros Hm. induction l as [|r l' [mask IH]]; simpl; [now eexists|].
  unfold row_matches at 1, str_contains. rewrite Hm. simpl. rewrite IH.
  simpl. now eexists.
Qed.

Lemma apply_rows_not_compiled (q : string) (l : list Row) (mask : list bool) :
  re_compile q = None -> apply_rows (row_matches q) l = Ok mask -> l = [].
Proof.
  intros Hm. destruct l as [|r l']; [reflexivity|]. simpl.
  unfold row_matches at 1, str_contains. rewrite Hm. discriminate.
Qed.

(** A refresh that succeeds goes on succeeding on a frame with the same
    columns, as long as the frame it succeeded on had a row. *)
Lemma compute_filtered_again (v : PlannerViewer) (d f : DataFrame) :
  compute_filtered v = Ok f -> rows (df v) <> [] ->
  columns d = columns (df v) ->
  exists f', compute_filtered (set_df v d) = Ok f'.
Proof.
  unfold compute_filtered. cbn [search_var active_column df set_df].
  intros Hf Hrows Hcols.
  destruct (String.eqb _ ""); [now eexists|].
  rewrite Hcols.
  destruct (truthy (active_column v)) as [col|].
  - destruct (col_index col (columns (df v))) as [k|]; [|discriminate].
    unfold bind, str_contains in *.
    destruct (re_compile _) as [m|]; [now eexists | discriminate].
  - unfold bind in *.
    destruct (apply_rows _ (rows (df v))) as [mask|] eqn:E; [|discriminate].
    destruct (re_compile (PyStr.strip (PyStr.lower (search_var v))))
      as [m|] eqn:Em.
    + destruct (apply_rows_compiled _ m (rows d) Em) as [mask' ->].
      now eexists.
    + now apply apply_rows_not_compiled in E.
Qed.

(** X20.  When the view is the one of the last refresh and every selected
    item is an item of the tree, a confirmed [delete_selected] never runs
    into the [KeyError] of [drop]: the rows are removed, the data gets
    shorter, and the filter of the refresh that follows (lines 159-167)
    runs on the new data without an error. *)
Theorem delete_from_fresh_tree (v : PlannerViewer) (sel : list string) :
  view_fresh v ->
  sel <> [] ->
  (forall item, In item sel -> In item (map fst (tree v))) ->
  exists d : DataFrame,
    drop (df v) (selected_indices sel) = Ok d /\
    df (fst (delete_selected v sel true)) = reset_index d /\
    (len (df (fst (delete_selected v sel true))) < len (df v))%nat /\
    exists f : DataFrame,
      compute_filtered (set_df v (reset_index d)) = Ok f.
Proof.
  intros Hfresh Hsel Htree.
  assert (Hparse : forall item, In item sel ->
            exists r, In r (rows (df v)) /\ PyStr.int item = Some (fst r)).
  { intros item Hin. destruct (fresh_tree_items v item Hfresh (Htree _ Hin))
      as [r [Hr ->]]. exists r. split; [exact Hr | apply int_str_int]. }
  destruct sel as [|s l]; [now elim Hsel|].
  destruct (Hparse s (or_introl eq_refl)) as [r0 [Hr0 Hs0]].
  assert (Hall : forallb (fun i => in_index i (df v))
                         (selected_indices (s :: l)) = true).
  { apply forallb_forall. intros i Hi.
    destruct (selected_indices_from _ _ Hi) as [item [Hitem Hint]].
    destruct (Hparse item Hitem) as [r [Hr Hint']].
    rewrite Hint in Hint'. injection Hint' as ->.
    now apply in_index_label. }
  assert (Hne : selected_indices (s :: l) <> []).
  { simpl. rewrite Hs0. discriminate. }
  set (kept := filter (fun r : Row =>
                         negb (existsb (Z.eqb (fst r))
                                       (selected_indices (s :: l))))
                      (rows (df v))).
  exists (mkDF (columns (df v)) kept).
  assert (Hdrop : drop (df v) (selected_indices (s :: l)) =
                  Ok (mkDF (columns (df v)) kept)).
  { unfold drop. now rewrite Hall. }
  assert (Hshort : (List.length kept < List.length (rows (df v)))%nat).
  { apply filter_shorter with r0; [exact Hr0|].
    apply negb_false_iff, existsb_exists. exists (fst r0).
    split; [|apply Z.eqb_refl]. simpl. rewrite Hs0. now left. }
  destruct Hfresh as [Hf _].
  destruct (compute_filtered_again v
              (reset_index (mkDF (columns (df v)) kept)) _ Hf) as [f' Hf'].
  { intros Hnil. rewrite Hnil in Hr0. destruct Hr0. }
  { reflexivity. }
  assert (Hcall : delete_selected v (s :: l) true =
                  refresh_caught
                    (set_df v (reset_index (mkDF (columns (df v)) kept)))).
  { unfold delete_selected.
    destruct (selected_indices (s :: l)) as [|i is_] eqn:E; [now elim Hne|].
    cbn [negb]. cbv iota. rewrite Hdrop. reflexivity. }
  rewrite Hcall. split; [exact Hdrop|].
  split; [apply refresh_caught_df|].
  split.
  { rewrite (proj1 (refresh_caught_df _)). unfold len. cbn.
    now rewrite relabel_length. }
  exists f'. exact Hf'.
Qed.

(* ------------------------------------------------------------------ *)
(** ** Picking a value from the dropdown *)

Lemma startswith_rstrip (t : string) :
  PyStr.startswith (PyStr.rstrip t) t = true.
Proof.
  induction t as [|c r IH]; simpl; [reflexivity|].
  destruct (PyStr.rstrip r) as [|c' r'] eqn:E.
  - destruct (PyStr.isspace c); simpl; [reflexivity|].
    now rewrite Ascii.eqb_refl.
  - simpl. rewrite Ascii.eqb_refl. simpl. exact IH.
Qed.

Lemma contains_startswith (p t : string) :
  PyStr.startswith p t = true -> PyStr.contains p t = true.
Proof. intros H. destruct t; simpl; now rewrite H. Qed.

Lemma contains_lstrip (p s : string) :
  PyStr.contains p (PyStr.lstrip s) = true -> PyStr.contains p s = true.
Proof.
  induction s as [|c r IH]; simpl; [auto|].
  destruct (PyStr.isspace c); [|auto].
  intros H. rewrite (IH H). apply orb_true_r.
Qed.

Lemma contains_strip (s : string) :
  PyStr.contains (PyStr.strip s) s = true.
Proof.
  unfold PyStr.strip. apply contains_lstrip, contains_startswith,
    startswith_rstrip.
Qed.

(** X21.  Picking a value from the dropdown makes it the search term.
    When the value, lower-cased and stripped, has no special character of
    regular expressions, the frame the refresh then assigns to
    [filtered_df] (lines 159-163) holds every row of the data whose cell
    under the active column reads as that value; it is the view the
    callback leaves when the refresh ends without an error. *)
Theorem value_selected_keeps_rows (v : PlannerViewer) (val col : string)
  (k : nat) :
  val <> "" ->
  truthy (active_column v) = Some col ->
  col_index col (columns (df v)) = Some k ->
  Re.literal (PyStr.strip (PyStr.lower val)) = true ->
  search_var (fst (_on_value_selected v val)) = val /\
  exists f : DataFrame,
    compute_filtered (set_search_var v val) = Ok f /\
    (forall r : Row,
       In r (rows (df v)) -> astype_str (key_at k r) = val ->
       In r (rows f)) /\
    (snd (_on_value_selected v val) = Silent ->
     filtered_df (fst (_on_value_selected v val)) = f).
Proof.
  intros Hval Hact Hk Hlit. unfold _on_value_selected.
  destruct (String.eqb val "") eqn:E; [apply String.eqb_eq in E; contradiction|].
  unfold refresh_uncaught, on_search, compute_filtered.
  cbn [search_var active_column df set_search_var].
  set (q := PyStr.strip (PyStr.lower val)) in *.
  destruct (String.eqb q "") eqn:Eq.
  - simpl. split; [reflexivity|]. exists (df v).
    split; [reflexivity|]. split; [|reflexivity]. intros r Hr _. exact Hr.
  - rewrite Hact, Hk. unfold str_contains, re_compile.
    rewrite (literal_simple _ Hlit). cbn [bind]. rewrite map_map.
    rewrite (boolean_index_map (df v)
               (fun r => Re.search q (PyStr.lower (astype_str (key_at k r))))).
    simpl. split; [reflexivity|]. eexists.
    split; [reflexivity|]. split; [|reflexivity].
    intros r Hr Hcell. apply filter_In.
    split; [exact Hr|]. rewrite Hcell, (literal_search _ _ Hlit).
    apply contains_strip.
Qed.

(* ------------------------------------------------------------------ *)
(** ** What a merge records *)

(** X23.  [_merge_into_viewer] always leaves the merged frame in the
    viewer.  When the refresh succeeds, the path is in the source list
    afterwards, put at its end unless it was there already.  When the
    refresh raises, the exception leaves the method with the source list
    unchanged: the rows are merged but their file is not recorded. *)
Theorem merge_records_source (v : PlannerViewer) (d : DataFrame) (p : string) :
  df (fst (_merge_into_viewer v d p)) = merge (df v) d /\
  (forall v2 : PlannerViewer,
     on_search (set_df v (merge (df v) d)) = Ok v2 ->
     snd (_merge_into_viewer v d p) = InfoBox "Merged" /\
     In p (source_files (fst (_merge_into_viewer v d p))) /\
     (In p (source_files v) ->
      source_files (fst (_merge_into_viewer v d p)) = source_files v) /\
     (~ In p (source_files v) ->
      source_files (fst (_merge_into_viewer v d p)) = source_files v ++ [p])) /\
  (forall e : Exn,
     on_search (set_df v (merge (df v) d)) = Raise e ->
     snd (_merge_into_viewer v d p) = Uncaught e /\
     source_files (fst (_merge_into_viewer v d p)) = source_files v).
Proof.
  unfold _merge_into_viewer.
  destruct (on_search (set_df v (merge (df v) d))) as [v2|e] eqn:E.
  - destruct (on_search_fields _ _ E) as (Hd & Hs & _). simpl in Hd, Hs.
    assert (Hin : existsb (String.eqb p) (source_files v2) = true <->
                  In p (source_files v)).
    { rewrite <- Hs. apply (has_col_In p (source_files v2)). }
    split; [|split].
    + destruct (existsb (String.eqb p) (source_files v2)); simpl; exact Hd.
    + intros v2' H. injection H as <-.
      destruct (existsb (String.eqb p) (source_files v2)) eqn:Ex; simpl.
      * split; [reflexivity|]. split; [rewrite Hs; now apply Hin|].
        split; [intros _; exact Hs|].
        intros Hno. elim Hno. now apply Hin.
      * split; [reflexivity|].
        split; [apply in_or_app; right; now left|].
        split; [intros Hp; apply Hin in Hp; discriminate|].
        intros _. now rewrite Hs.
    + intros e H. discriminate H.
  - split; [reflexivity|]. split; [intros v2 H; discriminate H|].
    intros e' H. injection H as <-. split; reflexivity.
Qed.

End ViewFacts.

(* ------------------------------------------------------------------ *)
(** ** The statements on sample data *)

(** C1, as the specification words it, fails: a session entry listing
    [a.xlsx] and [b.xlsx], both loadable, comes back as the one row of
    [a.xlsx], where loading the first and merging the second gives two
    rows. *)
Lemma load_session_does_not_merge :
  map df (load_session [] sample_session_ab) =
    [sample_tasks_a] /\
  restore_spec sample_session_ab =
    [mkDF ["Task"] [(0%Z, [Text "write"]); (1%Z, [Text "test"])]] /\
  map df (load_session [] sample_session_ab) <>
    restore_spec sample_session_ab.
Proof.
  split; [reflexivity|]. split; [reflexivity|].
  vm_compute. intros H. discriminate H.
Qed.

(** C1 on a session: the first source of the entry is missing, the second
    loads and is the one restored, the third is not read. *)
Lemma load_session_first_loadable_witness :
  load_excel "missing.xlsx" = None /\
  load_excel "a.xlsx" = Some sample_tasks_a /\
  restored_plan
    (mkItem "plan" (Some (["missing.xlsx"] ++ "a.xlsx" :: ["b.xlsx"]))) =
  [(basename "a.xlsx", sample_tasks_a, sample_tasks_a)].
Proof.
  split; [reflexivity|]. split; [reflexivity|].
  exact (proj1 (proj2 (load_session_first_loadable [] []))
           (mkItem "plan" (Some (["missing.xlsx"] ++ "a.xlsx" :: ["b.xlsx"])))
           ["missing.xlsx"] ["b.xlsx"] "a.xlsx" sample_tasks_a
           eq_refl
           (Forall_cons (P := fun x => load_excel x = None)
              "missing.xlsx" eq_refl (Forall_nil _))
           eq_refl).
Defined.

(** C2, as the specification words it, fails: sorting [b], missing, [a]
    upwards shows the rows 2, 0, 1, the missing cell last, where comparing
    the missing cell as the empty string puts row 1 first. *)
Lemma populate_tree_pins_missing_last :
  map fst (tree (populate_tree sample_sorted_viewer sample_with_gap)) =
    ["2"; "0"; "1"] /\
  index (df_to_show sample_sorted_viewer sample_with_gap) = [2; 0; 1]%Z /\
  computeOrder_spec (rows sample_with_gap) 0 true = [1; 2; 0]%Z /\
  index (df_to_show sample_sorted_viewer sample_with_gap) <>
    computeOrder_spec (rows sample_with_gap) 0 true.
Proof.
  split; [reflexivity|]. split; [reflexivity|]. split; [reflexivity|].
  vm_compute. intros H. discriminate H.
Qed.

(** C2 on the sample frame. *)
Lemma populate_tree_missing_last_witness :
  truthy (sort_col sample_sorted_viewer) = Some "Task" /\
  col_index "Task" (columns sample_with_gap) = Some 0%nat /\
  exists sorted : list Row,
    rows (df_to_show sample_sorted_viewer sample_with_gap) =
      sorted ++ [(1%Z, [NaN])] /\
    Forall (fun r => isna (key_at 0 r) = false) sorted.
Proof.
  split; [reflexivity|]. split; [reflexivity|].
  destruct (populate_tree_missing_last sample_sorted_viewer sample_with_gap
              "Task" 0 eq_refl eq_refl eq_refl)
    as (sorted & Hrows & _ & _ & Hnn & _).
  exists sorted. split; [exact Hrows | exact Hnn].
Defined.

(** C3, as the specification words it, fails: with the term [.] the row
    holding [x] is kept, although [x] does not contain a dot. *)
Lemma on_search_dot_matches_any :
  compute_filtered sample_dot_viewer = Ok (mkDF ["Task"] [(0%Z, [Text "x"])]) /\
  visible_spec (search_var sample_dot_viewer)
               (key_at 0 (0%Z, [Text "x"])) = false.
Proof. split; reflexivity. Qed.

(** A missing cell is searched as the text [nan] although the tree shows
    it empty: the term [nan] keeps the row. *)
Lemma on_search_missing_cell_reads_nan :
  compute_filtered sample_nan_viewer = Ok (mkDF ["Task"] [(0%Z, [NaN])]) /\
  map snd (tree_items (mkDF ["Task"] [(0%Z, [NaN])])) = [[""]] /\
  visible_spec "nan" NaN = false.
Proof. split; [|split]; reflexivity. Qed.

(** C3 on a term typed with a capital and spaces around it. *)
Lemma on_search_active_column_witness :
  PyStr.strip (PyStr.lower (search_var sample_x_viewer)) = "x" /\
  exists keep : Row -> bool,
    compute_filtered sample_x_viewer =
      Ok (mkDF ["Task"] (filter keep [(0%Z, [Text "x"])])) /\
    forall r : Row,
      isna (key_at 0 r) = false ->
      keep r = PyStr.contains "x" (PyStr.lower (display (key_at 0 r))).
Proof.
  split; [reflexivity|].
  refine (proj1 (proj2 (on_search_active_column sample_x_viewer))
            "Task" 0%nat _ eq_refl eq_refl eq_refl).
  discriminate.
Defined.

(** C4, as the specification words it, fails: marking the iid [7], which
    labels no row, ends without any error and leaves the viewer as it
    was. *)
Lemma mark_selected_done_unknown_id_silent :
  in_index 7 (df sample_status_viewer) = false /\
  mark_selected_done sample_status_viewer ["7"] =
    (sample_status_viewer, Silent).
Proof. split; reflexivity. Qed.

(** C4 on the same selection. *)
Lemma mark_selected_done_skips_stale_witness :
  df (fst (mark_selected_done sample_status_viewer ["7"; "x"])) =
    df sample_status_viewer /\
  snd (mark_selected_done sample_status_viewer ["7"; "x"]) =
    Silent.
Proof.
  assert (Hne : ["7"; "x"] <> @nil string) by discriminate.
  assert (Hst : Forall (stale (df sample_status_viewer)) ["7"; "x"]).
  { constructor; [reflexivity|]. constructor; [exact I | constructor]. }
  destruct (mark_selected_done_skips_stale sample_status_viewer
              ["7"; "x"] Hne Hst) as (_ & Hsame & _ & _).
  split; [exact (Hsame "Status" eq_refl) | reflexivity].
Defined.

(** C5, as the specification words it, fails: adding a row changes the
    tree and the filtered frame within the same call. *)
Lemma add_task_changes_view :
  tree sample_plain_viewer = [("0", ["x"])] /\
  tree (fst (_on_add_task_confirm sample_plain_viewer
               [("Task", "y")])) = [("0", ["x"]); ("1", ["y"])] /\
  len (filtered_df (fst (_on_add_task_confirm sample_plain_viewer
                           [("Task", "y")]))) = 2%nat /\
  tree (fst (_on_add_task_confirm sample_plain_viewer
               [("Task", "y")])) <> tree sample_plain_viewer.
Proof.
  split; [reflexivity|]. split; [reflexivity|]. split; [reflexivity|].
  vm_compute. intros H. discriminate H.
Qed.

(** C5 on the same call. *)
Lemma mutation_refreshes_view_witness :
  snd (_on_add_task_confirm sample_plain_viewer [("Task", "y")]) =
    Silent /\
  view_fresh
    (fst (_on_add_task_confirm sample_plain_viewer
            [("Task", "y")])) /\
  len (df (fst (_on_add_task_confirm sample_plain_viewer
                  [("Task", "y")]))) = S (len (df sample_plain_viewer)).
Proof.
  split; [reflexivity|].
  exact (proj1 (mutation_refreshes_view sample_plain_viewer)
           [("Task", "y")] eq_refl).
Defined.

(** C6, as the specification words it, fails: deleting the iids [2] and
    [7] from the five rows removes nothing, row 2 included, and shows the
    [KeyError]. *)
Lemma delete_selected_unknown_id_fails :
  len (df sample_five_viewer) = 5%nat /\
  delete_selected sample_five_viewer ["2"; "7"] true =
    (sample_five_viewer, ErrorBox KeyError).
Proof. split; reflexivity. Qed.

(** C6 on the example of the specification: deleting row 2 of five leaves
    four rows labelled 0 .. 3 in their former order. *)
Lemma delete_selected_compacts_witness :
  selected_indices ["2"] = [2%Z] /\
  map snd (rows (df (fst (delete_selected sample_five_viewer
                            ["2"] true)))) =
    [[Text "a"]; [Text "b"]; [Text "d"]; [Text "e"]] /\
  index (df (fst (delete_selected sample_five_viewer
                    ["2"] true))) = [0; 1; 2; 3]%Z.
Proof.
  split; [reflexivity|].
  assert (Hne : selected_indices ["2"] <> []) by discriminate.
  destruct (proj1 (delete_selected_compacts sample_five_viewer
                     ["2"] Hne) eq_refl) as (_ & Hcells & Hidx).
  split; [exact Hcells | exact Hidx].
Defined.

(** C7 on the example of the specification. *)
Lemma merge_columns_witness :
  columns (merge sample_base_td sample_incoming_do) =
    ["Task"; "Due"; "Owner"] /\
  cell_at (columns (merge sample_base_td sample_incoming_do)) "Owner"
          (row_nth (merge sample_base_td sample_incoming_do) 0) =
    Some (Text "") /\
  cell_at (columns (merge sample_base_td sample_incoming_do)) "Task"
          (row_nth (merge sample_base_td sample_incoming_do) 1) =
    Some (Text "").
Proof.
  assert (Hb : NoDup (columns sample_base_td)).
  { repeat (constructor; [simpl; intuition discriminate|]). constructor. }
  assert (Hi : NoDup (columns sample_incoming_do)).
  { repeat (constructor; [simpl; intuition discriminate|]). constructor. }
  destruct (merge_columns sample_base_td sample_incoming_do Hb Hi)
    as (Hcols & Hbase & Hinc).
  split; [exact Hcols|]. split.
  - exact (Hbase 0%nat "Owner" (le_n 1) eq_refl eq_refl).
  - exact (Hinc 0%nat "Task" (le_n 1) eq_refl eq_refl).
Defined.

(** C8 on the same two frames. *)
Lemma merge_rows_witness :
  len (merge sample_base_td sample_incoming_do) = 2%nat /\
  index (merge sample_base_td sample_incoming_do) = [0; 1]%Z /\
  cell_at (columns (merge sample_base_td sample_incoming_do)) "Task"
          (row_nth (merge sample_base_td sample_incoming_do) 0) =
    Some (Text "write") /\
  cell_at (columns (merge sample_base_td sample_incoming_do)) "Owner"
          (row_nth (merge sample_base_td sample_incoming_do) 1) =
    Some (Text "ann").
Proof.
  destruct (merge_rows sample_base_td sample_incoming_do)
    as (Hlen & Hidx & Hbase & Hinc).
  split; [exact Hlen|]. split; [exact Hidx|]. split.
  - exact (Hbase 0%nat "Task" (le_n 1) eq_refl).
  - exact (Hinc 0%nat "Owner" (le_n 1) eq_refl).
Defined.

(** C9 on two frames.  On the example of the specification there is no
    status column and row 0 is marked: [Status] is added.  On a frame with
    the columns [Task], [STATE], [Status] and row 1 marked, the column
    written is [STATE], the first whose lower-cased label is one of the
    three names; [Status] is left as it was. *)
Lemma mark_selected_done_status_witness :
  (exists (col : string) (k : nat),
     col_index col
       (columns (df (fst (mark_selected_done sample_tp_viewer
                            ["0"])))) = Some k /\
     columns (df (fst (mark_selected_done sample_tp_viewer
                         ["0"]))) = ["Task"; "Priority"; "Status"] /\
     key_at k (row_nth (df (fst (mark_selected_done
                                   sample_tp_viewer ["0"]))) 0) =
       Text "Completed" /\
     key_at k (row_nth (df (fst (mark_selected_done
                                   sample_tp_viewer ["0"]))) 1) = Text "") /\
  (exists k : nat,
     col_index "STATE"
       (columns (df (fst (mark_selected_done sample_state_viewer
                            ["1"])))) = Some k /\
     key_at k (row_nth (df (fst (mark_selected_done
                                   sample_state_viewer ["1"]))) 1) =
       Text "Completed" /\
     key_at k (row_nth (df (fst (mark_selected_done
                                   sample_state_viewer ["1"]))) 0) =
       Text "open" /\
     cell_at (columns (df (fst (mark_selected_done sample_state_viewer
                                  ["1"])))) "Status"
             (row_nth (df (fst (mark_selected_done
                                  sample_state_viewer ["1"]))) 1) =
       Some (Text "b")).
Proof.
  split.
  - assert (Hne : ["0"] <> @nil string) by discriminate.
    assert (Hwf : wf (df sample_tp_viewer)).
    { repeat constructor. }
    destruct (mark_selected_done_status sample_tp_viewer ["0"]
                Hne Hwf) as (col & k & Hk & Hcase & _ & Hrows).
    assert (Hcol : col = "Status").
    { destruct Hcase as [(pre & post & Hcols & Hlike & _) | (_ & Hcol & _)];
        [|exact Hcol].
      exfalso. change (columns (df sample_tp_viewer))
        with ["Task"; "Priority"] in Hcols.
      destruct pre as [|a [|b [|c pre]]]; simpl in Hcols;
        try discriminate Hcols; injection Hcols as; subst;
        destruct Hlike as [H | [H | H]]; discriminate H. }
    subst col.
    exists "Status", k. split; [exact Hk|]. split; [reflexivity|]. split.
    + exact (proj1 (Hrows 0%nat (le_S _ _ (le_n 1)))).
    + exact (proj1 (Hrows 1%nat (le_n 2))).
  - assert (Hne : ["1"] <> @nil string) by discriminate.
    assert (Hwf : wf (df sample_state_viewer)).
    { repeat constructor. }
    destruct (mark_selected_done_status sample_state_viewer ["1"]
                Hne Hwf) as (col & k & Hk & Hcase & _ & Hrows).
    assert (Hcol : col = "STATE").
    { change (columns (df sample_state_viewer))
        with ["Task"; "STATE"; "Status"] in Hcase.
      destruct Hcase as [(pre & post & Hcols & Hlike & Hpre & _) | (Hall & _)].
      - destruct pre as [|a [|b [|c pre]]]; simpl in Hcols.
        + injection Hcols as <- _. exfalso.
          destruct Hlike as [H | [H | H]]; discriminate H.
        + injection Hcols as _ <- _. reflexivity.
        + injection Hcols as _ <- _ _. exfalso.
          apply Forall_inv_tail, Forall_inv in Hpre.
          now apply (proj1 (proj2 Hpre)).
        + exfalso. injection Hcols as _ _ _ Hrest.
          destruct pre; discriminate Hrest.
      - exfalso. apply Forall_inv_tail, Forall_inv in Hall.
        now apply (proj1 (proj2 Hall)). }
    subst col.
    exists k. split; [exact Hk|]. split; [|split].
    + exact (proj1 (Hrows 1%nat (le_n 2))).
    + exact (proj1 (Hrows 0%nat (le_S _ _ (le_n 1)))).
    + exact (proj2 (Hrows 1%nat (le_n 2)) "Status" 2%nat eq_refl
                   ltac:(discriminate)).
Defined.

(** C10 on a run: [a.xlsx] is opened, then [b.xlsx] is merged into it
    three times. *)
Lemma source_files_recorded_once_witness :
  source_files
    (merge_times 3
       (PlannerViewer_init sample_tasks_a "a.xlsx" (Some ["a.xlsx"]))
       sample_tasks_b "b.xlsx") = ["a.xlsx"; "b.xlsx"] /\
  (count_occ string_dec
     (source_files
        (merge_times 3
           (PlannerViewer_init sample_tasks_a "a.xlsx" (Some ["a.xlsx"]))
           sample_tasks_b "b.xlsx")) "b.xlsx" <= 1)%nat /\
  len (df (merge_times 3
             (PlannerViewer_init sample_tasks_a "a.xlsx" (Some ["a.xlsx"]))
             sample_tasks_b "b.xlsx")) = 4%nat.
Proof.
  split; [reflexivity|].
  destruct (source_files_recorded_once
              (add_new_plan [] "a.xlsx" ChooseNew)
              (reach_step [] _ reach_init (as_add [] "a.xlsx" ChooseNew)))
    as (_ & _ & Hmerge).
  destruct (Hmerge 0%nat 3%nat
              (PlannerViewer_init sample_tasks_a "a.xlsx" (Some ["a.xlsx"]))
              sample_tasks_b "b.xlsx" eq_refl) as (_ & Hcount & Hlen).
  split; [exact Hcount | exact Hlen].
Defined.

(* ------------------------------------------------------------------ *)
(** ** The further properties on sample data *)

(** X2 on the frame [b], missing, [a]: the row with [a] is found where it
    was. *)
Lemma df_to_show_keeps_ties_witness :
  truthy (sort_col sample_sorted_viewer) = Some "Task" /\
  filter (fun r => cell_eqb (key_at 0 r) (Text "a"))
         (rows (df_to_show sample_sorted_viewer sample_with_gap)) =
    [(2%Z, [Text "a"])].
Proof.
  split; [reflexivity|].
  exact (df_to_show_keeps_ties sample_sorted_viewer sample_with_gap "Task" 0
           (Text "a") eq_refl eq_refl).
Defined.

(** X5 on the priorities of a frame. *)
Lemma combobox_choices_witness :
  widget_for sample_task_priority "Priority" = Combobox ["High"; "Low"] /\
  ["High"; "Low"] <> @nil string.
Proof.
  split; [reflexivity|].
  exact (proj1 (combobox_choices sample_task_priority "Priority"
                  ["High"; "Low"] eq_refl)).
Defined.


(** X10 on the same search. *)
Lemma on_search_idempotent_witness :
  on_search sample_x_viewer = Ok sample_x_refreshed /\
  on_search sample_x_refreshed = Ok sample_x_refreshed.
Proof.
  split; [reflexivity|].
  exact (on_search_idempotent sample_x_viewer sample_x_refreshed eq_refl).
Defined.

(** X11 on a search for [LOW] in every column. *)
Lemma on_search_whole_row_witness :
  PyStr.strip (PyStr.lower (search_var sample_row_viewer)) = "low" /\
  exists keep : Row -> bool,
    compute_filtered sample_row_viewer =
      Ok (mkDF (columns (df sample_row_viewer))
               (filter keep (rows (df sample_row_viewer)))) /\
    forall r : Row,
      forallb (fun c => negb (isna c)) (snd r) = true ->
      keep r =
      existsb (fun c =>
                 PyStr.contains
                   (PyStr.strip (PyStr.lower (search_var sample_row_viewer)))
                   (PyStr.lower (display c))) (snd r).
Proof.
  split; [reflexivity|].
  refine (on_search_whole_row sample_row_viewer _ _ eq_refl eq_refl);
    discriminate.
Defined.

(** X12 on the term [(]: row 2 of five is deleted, the error is shown,
    the tree still has five items. *)
Lemma mutation_outlives_failed_refresh_witness :
  re_compile (PyStr.strip (PyStr.lower (search_var sample_paren_viewer))) =
    None /\
  snd (delete_selected sample_paren_viewer ["2"] true) = ErrorBox ReError /\
  len (df (fst (delete_selected sample_paren_viewer ["2"] true))) = 4%nat /\
  List.length (tree (fst (delete_selected sample_paren_viewer ["2"] true))) =
    5%nat.
Proof.
  split; [reflexivity|].
  assert (Hq : PyStr.strip (PyStr.lower (search_var sample_paren_viewer))
               <> "") by discriminate.
  assert (Hidx : selected_indices ["2"] <> []) by discriminate.
  destruct (proj1 (proj2 (mutation_outlives_failed_refresh
                            (W := sample_world)
                            sample_paren_viewer "Task" Hq eq_refl eq_refl
                            eq_refl))
              ["2"]
              (mkDF ["Task"]
                 [(0%Z, [Text "a"]); (1%Z, [Text "b"]);
                  (3%Z, [Text "d"]); (4%Z, [Text "e"])])
              Hidx eq_refl) as (Hrep & Hdf & _ & Htree).
  split; [exact Hrep|]. split.
  - rewrite Hdf. reflexivity.
  - rewrite Htree. reflexivity.
Defined.

(** X18 on the run that opens [a.xlsx]. *)
Lemma frames_stay_tidy_witness :
  Forall (fun v => wf (df v) /\ NoDup (columns (df v)) /\
                   index (df v) = range (len (df v)))
         (add_new_plan [] "a.xlsx" ChooseNew).
Proof.
  assert (Hone : forall d, d = sample_tasks_a \/ d = sample_tasks_b ->
                           tidy d).
  { intros d [-> | ->];
      (split; [repeat constructor|]; split; [|reflexivity];
       constructor; [simpl; tauto | constructor]). }
  assert (Hload : forall p d, load_excel p = Some d -> tidy d).
  { intros p d. simpl. unfold sample_loader.
    destruct (String.eqb p "a.xlsx").
    - intros H. injection H as <-. apply Hone. now left.
    - destruct (String.eqb p "b.xlsx"); [|discriminate].
      intros H. injection H as <-. apply Hone. now right. }
  exact (frames_stay_tidy (add_new_plan [] "a.xlsx" ChooseNew) Hload
           (reach_step [] _ reach_init (as_add [] "a.xlsx" ChooseNew))).
Defined.

(** X20 on the five rows: the item of row 2 is selected in the tree. *)
Lemma delete_from_fresh_tree_witness :
  view_fresh sample_five_viewer /\
  exists d : DataFrame,
    drop (df sample_five_viewer) (selected_indices ["2"]) = Ok d /\
    df (fst (delete_selected sample_five_viewer ["2"] true)) = reset_index d /\
    (len (df (fst (delete_selected sample_five_viewer ["2"] true))) <
     len (df sample_five_viewer))%nat /\
    exists f : DataFrame,
      compute_filtered (set_df sample_five_viewer (reset_index d)) = Ok f.
Proof.
  assert (Hf : view_fresh sample_five_viewer) by (split; reflexivity).
  split; [exact Hf|].
  refine (delete_from_fresh_tree sample_five_viewer ["2"] Hf _ _).
  - discriminate.
  - intros item [<- | []]. simpl. tauto.
Defined.

(** X21 on the value [x]. *)
Lemma value_selected_keeps_rows_witness :
  search_var (fst (_on_value_selected sample_x_viewer "x")) = "x" /\
  exists f : DataFrame,
    compute_filtered (set_search_var sample_x_viewer "x") = Ok f /\
    (forall r : Row,
       In r (rows (df sample_x_viewer)) -> astype_str (key_at 0 r) = "x" ->
       In r (rows f)) /\
    (snd (_on_value_selected sample_x_viewer "x") = Silent ->
     filtered_df (fst (_on_value_selected sample_x_viewer "x")) = f).
Proof.
  refine (value_selected_keeps_rows sample_x_viewer "x" "Task" 0 _
            eq_refl eq_refl eq_refl).
  discriminate.
Defined.

(** X24 on the frame [b], [c], [a]. *)
Lemma descending_is_reverse_witness :
  index (df_to_show (set_sort sample_sorted_viewer (Some "Task") true)
                    sample_three) = [2; 0; 1]%Z /\
  rows (df_to_show (set_sort sample_sorted_viewer
                             (sort_col sample_sorted_viewer) false)
                   sample_three) =
  rev (rows (df_to_show (set_sort sample_sorted_viewer
                                  (sort_col sample_sorted_viewer) true)
                        sample_three)).
Proof.
  split; [reflexivity|].
  refine (descending_is_reverse sample_sorted_viewer sample_three "Task" 0
            eq_refl eq_refl eq_refl eq_refl _).
  simpl. repeat (constructor; [simpl; intuition discriminate|]). constructor.
Defined.
